(** * Alcohol intake tracker: a shallow embedding of [alcohol_tracker.py]

    The program is a console front end to one SQLite file.  It is embedded
    as functions over an explicit world: the database files, the open
    connections, the lines waiting on standard input and the text written
    to standard output.  Exceptions are an outcome of their own, so every
    function of the source is a total function here.

    Conventions.
    - Text is [string]: the bytes of the text in UTF-8.  What Python asks
      of the characters of a line ([str.isalpha()], [int()]) is asked of
      the decoded characters, with the character classes of Unicode; the
      names of tables and columns are ASCII identifiers, and for them the
      case functions follow Python on ASCII text.
    - SQL statements are kept as syntax trees; [sql_text] renders the
      text the source builds with its f-strings.  Table and column names
      are plain identifiers, and a column definition is a name followed
      by a declared type, as in all the definitions the program issues.
      The engine keeps no constraint (PRIMARY KEY, UNIQUE, NOT NULL,
      CHECK, DEFAULT, COLLATE, ...) and no hidden [rowid] column: what is
      proved about the rows a statement stores or compares is proved for
      tables whose columns carry no constraint ([Sqlite.plain]) and for
      keys that are declared columns.
    - Values are the ones the program stores: [None], [int], [float] and
      [str].  What IEEE doubles do (arithmetic, printing, reading) is an
      interface, [Float]; every theorem holds for each implementation of
      it, and [ieee] is the implementation used to run examples. *)

From Stdlib Require Import ZArith String Ascii List Lia Bool.
From Stdlib Require Import DecimalString DecimalPos DecimalZ.
From Stdlib Require Import SpecFloat.
From stdpp Require Import base option list gmap strings.

Local Open Scope Z_scope.

(** ** Characters

    Python's text is Unicode.  Which characters are letters, decimal
    digits and white space is read off the character database of Unicode
    14.0, the one Python 3.11 carries, here as ranges of code points. *)

Module Unicode.

(** The characters of the general categories Lu, Ll, Lt, Lm and Lo, as
    ranges of code points: those [str.isalpha()] accepts. *)
Definition letters : list (Z * Z) :=
  [(65, 90); (97, 122); (170, 170); (181, 181); (186, 186); (192, 214);
   (216, 246); (248, 705); (710, 721); (736, 740); (748, 748); (750, 750);
   (880, 884); (886, 887); (890, 893); (895, 895); (902, 902); (904, 906);
   (908, 908); (910, 929); (931, 1013); (1015, 1153); (1162, 1327);
   (1329, 1366); (1369, 1369); (1376, 1416); (1488, 1514); (1519, 1522);
   (1568, 1610); (1646, 1647); (1649, 1747); (1749, 1749); (1765, 1766);
   (1774, 1775); (1786, 1788); (1791, 1791); (1808, 1808); (1810, 1839);
   (1869, 1957); (1969, 1969); (1994, 2026); (2036, 2037); (2042, 2042);
   (2048, 2069); (2074, 2074); (2084, 2084); (2088, 2088); (2112, 2136);
   (2144, 2154); (2160, 2183); (2185, 2190); (2208, 2249); (2308, 2361);
   (2365, 2365); (2384, 2384); (2392, 2401); (2417, 2432); (2437, 2444);
   (2447, 2448); (2451, 2472); (2474, 2480); (2482, 2482); (2486, 2489);
   (2493, 2493); (2510, 2510); (2524, 2525); (2527, 2529); (2544, 2545);
   (2556, 2556); (2565, 2570); (2575, 2576); (2579, 2600); (2602, 2608);
   (2610, 2611); (2613, 2614); (2616, 2617); (2649, 2652); (2654, 2654);
   (2674, 2676); (2693, 2701); (2703, 2705); (2707, 2728); (2730, 2736);
   (2738, 2739); (2741, 2745); (2749, 2749); (2768, 2768); (2784, 2785);
   (2809, 2809); (2821, 2828); (2831, 2832); (2835, 2856); (2858, 2864);
   (2866, 2867); (2869, 2873); (2877, 2877); (2908, 2909); (2911, 2913);
   (2929, 2929); (2947, 2947); (2949, 2954); (2958, 2960); (2962, 2965);
   (2969, 2970); (2972, 2972); (2974, 2975); (2979, 2980); (2984, 2986);
   (2990, 3001); (3024, 3024); (3077, 3084); (3086, 3088); (3090, 3112);
   (3114, 3129); (3133, 3133); (3160, 3162); (3165, 3165); (3168, 3169);
   (3200, 3200); (3205, 3212); (3214, 3216); (3218, 3240); (3242, 3251);
   (3253, 3257); (3261, 3261); (3293, 3294); (3296, 3297); (3313, 3314);
   (3332, 3340); (3342, 3344); (3346, 3386); (3389, 3389); (3406, 3406);
   (3412, 3414); (3423, 3425); (3450, 3455); (3461, 3478); (3482, 3505);
   (3507, 3515); (3517, 3517); (3520, 3526); (3585, 3632); (3634, 3635);
   (3648, 3654); (3713, 3714); (3716, 3716); (3718, 3722); (3724, 3747);
   (3749, 3749); (3751, 3760); (3762, 3763); (3773, 3773); (3776, 3780);
   (3782, 3782); (3804, 3807); (3840, 3840); (3904, 3911); (3913, 3948);
   (3976, 3980); (4096, 4138); (4159, 4159); (4176, 4181); (4186, 4189);
   (4193, 4193); (4197, 4198); (4206, 4208); (4213, 4225); (4238, 4238);
   (4256, 4293); (4295, 4295); (4301, 4301); (4304, 4346); (4348, 4680);
   (4682, 4685); (4688, 4694); (4696, 4696); (4698, 4701); (4704, 4744);
   (4746, 4749); (4752, 4784); (4786, 4789); (4792, 4798); (4800, 4800);
   (4802, 4805); (4808, 4822); (4824, 4880); (4882, 4885); (4888, 4954);
   (4992, 5007); (5024, 5109); (5112, 5117); (5121, 5740); (5743, 5759);
   (5761, 5786); (5792, 5866); (5873, 5880); (5888, 5905); (5919, 5937);
   (5952, 5969); (5984, 5996); (5998, 6000); (6016, 6067); (6103, 6103);
   (6108, 6108); (6176, 6264); (6272, 6276); (6279, 6312); (6314, 6314);
   (6320, 6389); (6400, 6430); (6480, 6509); (6512, 6516); (6528, 6571);
   (6576, 6601); (6656, 6678); (6688, 6740); (6823, 6823); (6917, 6963);
   (6981, 6988); (7043, 7072); (7086, 7087); (7098, 7141); (7168, 7203);
   (7245, 7247); (7258, 7293); (7296, 7304); (7312, 7354); (7357, 7359);
   (7401, 7404); (7406, 7411); (7413, 7414); (7418, 7418); (7424, 7615);
   (7680, 7957); (7960, 7965); (7968, 8005); (8008, 8013); (8016, 8023);
   (8025, 8025); (8027, 8027); (8029, 8029); (8031, 8061); (8064, 8116);
   (8118, 8124); (8126, 8126); (8130, 8132); (8134, 8140); (8144, 8147);
   (8150, 8155); (8160, 8172); (8178, 8180); (8182, 8188); (8305, 8305);
   (8319, 8319); (8336, 8348); (8450, 8450); (8455, 8455); (8458, 8467);
   (8469, 8469); (8473, 8477); (8484, 8484); (8486, 8486); (8488, 8488);
   (8490, 8493); (8495, 8505); (8508, 8511); (8517, 8521); (8526, 8526);
   (8579, 8580); (11264, 11492); (11499, 11502); (11506, 11507);
   (11520, 11557); (11559, 11559); (11565, 11565); (11568, 11623);
   (11631, 11631); (11648, 11670); (11680, 11686); (11688, 11694);
   (11696, 11702); (11704, 11710); (11712, 11718); (11720, 11726);
   (11728, 11734); (11736, 11742); (11823, 11823); (12293, 12294);
   (12337, 12341); (12347, 12348); (12353, 12438); (12445, 12447);
   (12449, 12538); (12540, 12543); (12549, 12591); (12593, 12686);
   (12704, 12735); (12784, 12799); (13312, 19903); (19968, 42124);
   (42192, 42237); (42240, 42508); (42512, 42527); (42538, 42539);
   (42560, 42606); (42623, 42653); (42656, 42725); (42775, 42783);
   (42786, 42888); (42891, 42954); (42960, 42961); (42963, 42963);
   (42965, 42969); (42994, 43009); (43011, 43013); (43015, 43018);
   (43020, 43042); (43072, 43123); (43138, 43187); (43250, 43255);
   (43259, 43259); (43261, 43262); (43274, 43301); (43312, 43334);
   (43360, 43388); (43396, 43442); (43471, 43471); (43488, 43492);
   (43494, 43503); (43514, 43518); (43520, 43560); (43584, 43586);
   (43588, 43595); (43616, 43638); (43642, 43642); (43646, 43695);
   (43697, 43697); (43701, 43702); (43705, 43709); (43712, 43712);
   (43714, 43714); (43739, 43741); (43744, 43754); (43762, 43764);
   (43777, 43782); (43785, 43790); (43793, 43798); (43808, 43814);
   (43816, 43822); (43824, 43866); (43868, 43881); (43888, 44002);
   (44032, 55203); (55216, 55238); (55243, 55291); (63744, 64109);
   (64112, 64217); (64256, 64262); (64275, 64279); (64285, 64285);
   (64287, 64296); (64298, 64310); (64312, 64316); (64318, 64318);
   (64320, 64321); (64323, 64324); (64326, 64433); (64467, 64829);
   (64848, 64911); (64914, 64967); (65008, 65019); (65136, 65140);
   (65142, 65276); (65313, 65338); (65345, 65370); (65382, 65470);
   (65474, 65479); (65482, 65487); (65490, 65495); (65498, 65500);
   (65536, 65547); (65549, 65574); (65576, 65594); (65596, 65597);
   (65599, 65613); (65616, 65629); (65664, 65786); (66176, 66204);
   (66208, 66256); (66304, 66335); (66349, 66368); (66370, 66377);
   (66384, 66421); (66432, 66461); (66464, 66499); (66504, 66511);
   (66560, 66717); (66736, 66771); (66776, 66811); (66816, 66855);
   (66864, 66915); (66928, 66938); (66940, 66954); (66956, 66962);
   (66964, 66965); (66967, 66977); (66979, 66993); (66995, 67001);
   (67003, 67004); (67072, 67382); (67392, 67413); (67424, 67431);
   (67456, 67461); (67463, 67504); (67506, 67514); (67584, 67589);
   (67592, 67592); (67594, 67637); (67639, 67640); (67644, 67644);
   (67647, 67669); (67680, 67702); (67712, 67742); (67808, 67826);
   (67828, 67829); (67840, 67861); (67872, 67897); (67968, 68023);
   (68030, 68031); (68096, 68096); (68112, 68115); (68117, 68119);
   (68121, 68149); (68192, 68220); (68224, 68252); (68288, 68295);
   (68297, 68324); (68352, 68405); (68416, 68437); (68448, 68466);
   (68480, 68497); (68608, 68680); (68736, 68786); (68800, 68850);
   (68864, 68899); (69248, 69289); (69296, 69297); (69376, 69404);
   (69415, 69415); (69424, 69445); (69488, 69505); (69552, 69572);
   (69600, 69622); (69635, 69687); (69745, 69746); (69749, 69749);
   (69763, 69807); (69840, 69864); (69891, 69926); (69956, 69956);
   (69959, 69959); (69968, 70002); (70006, 70006); (70019, 70066);
   (70081, 70084); (70106, 70106); (70108, 70108); (70144, 70161);
   (70163, 70187); (70272, 70278); (70280, 70280); (70282, 70285);
   (70287, 70301); (70303, 70312); (70320, 70366); (70405, 70412);
   (70415, 70416); (70419, 70440); (70442, 70448); (70450, 70451);
   (70453, 70457); (70461, 70461); (70480, 70480); (70493, 70497);
   (70656, 70708); (70727, 70730); (70751, 70753); (70784, 70831);
   (70852, 70853); (70855, 70855); (71040, 71086); (71128, 71131);
   (71168, 71215); (71236, 71236); (71296, 71338); (71352, 71352);
   (71424, 71450); (71488, 71494); (71680, 71723); (71840, 71903);
   (71935, 71942); (71945, 71945); (71948, 71955); (71957, 71958);
   (71960, 71983); (71999, 71999); (72001, 72001); (72096, 72103);
   (72106, 72144); (72161, 72161); (72163, 72163); (72192, 72192);
   (72203, 72242); (72250, 72250); (72272, 72272); (72284, 72329);
   (72349, 72349); (72368, 72440); (72704, 72712); (72714, 72750);
   (72768, 72768); (72818, 72847); (72960, 72966); (72968, 72969);
   (72971, 73008); (73030, 73030); (73056, 73061); (73063, 73064);
   (73066, 73097); (73112, 73112); (73440, 73458); (73648, 73648);
   (73728, 74649); (74880, 75075); (77712, 77808); (77824, 78894);
   (82944, 83526); (92160, 92728); (92736, 92766); (92784, 92862);
   (92880, 92909); (92928, 92975); (92992, 92995); (93027, 93047);
   (93053, 93071); (93760, 93823); (93952, 94026); (94032, 94032);
   (94099, 94111); (94176, 94177); (94179, 94179); (94208, 100343);
   (100352, 101589); (101632, 101640); (110576, 110579); (110581, 110587);
   (110589, 110590); (110592, 110882); (110928, 110930); (110948, 110951);
   (110960, 111355); (113664, 113770); (113776, 113788); (113792, 113800);
   (113808, 113817); (119808, 119892); (119894, 119964); (119966, 119967);
   (119970, 119970); (119973, 119974); (119977, 119980); (119982, 119993);
   (119995, 119995); (119997, 120003); (120005, 120069); (120071, 120074);
   (120077, 120084); (120086, 120092); (120094, 120121); (120123, 120126);
   (120128, 120132); (120134, 120134); (120138, 120144); (120146, 120485);
   (120488, 120512); (120514, 120538); (120540, 120570); (120572, 120596);
   (120598, 120628); (120630, 120654); (120656, 120686); (120688, 120712);
   (120714, 120744); (120746, 120770); (120772, 120779); (122624, 122654);
   (123136, 123180); (123191, 123197); (123214, 123214); (123536, 123565);
   (123584, 123627); (124896, 124902); (124904, 124907); (124909, 124910);
   (124912, 124926); (124928, 125124); (125184, 125251); (125259, 125259);
   (126464, 126467); (126469, 126495); (126497, 126498); (126500, 126500);
   (126503, 126503); (126505, 126514); (126516, 126519); (126521, 126521);
   (126523, 126523); (126530, 126530); (126535, 126535); (126537, 126537);
   (126539, 126539); (126541, 126543); (126545, 126546); (126548, 126548);
   (126551, 126551); (126553, 126553); (126555, 126555); (126557, 126557);
   (126559, 126559); (126561, 126562); (126564, 126564); (126567, 126570);
   (126572, 126578); (126580, 126583); (126585, 126588); (126590, 126590);
   (126592, 126601); (126603, 126619); (126625, 126627); (126629, 126633);
   (126635, 126651); (131072, 173791); (173824, 177976); (177984, 178205);
   (178208, 183969); (183984, 191456); (194560, 195101); (196608, 201546)].

(** The characters with a decimal digit value (category Nd), in runs of
    ten (or a multiple of ten) that start at a zero. *)
Definition decimal_digits : list (Z * Z) :=
  [(48, 57); (1632, 1641); (1776, 1785); (1984, 1993); (2406, 2415);
   (2534, 2543); (2662, 2671); (2790, 2799); (2918, 2927); (3046, 3055);
   (3174, 3183); (3302, 3311); (3430, 3439); (3558, 3567); (3664, 3673);
   (3792, 3801); (3872, 3881); (4160, 4169); (4240, 4249); (6112, 6121);
   (6160, 6169); (6470, 6479); (6608, 6617); (6784, 6793); (6800, 6809);
   (6992, 7001); (7088, 7097); (7232, 7241); (7248, 7257); (42528, 42537);
   (43216, 43225); (43264, 43273); (43472, 43481); (43504, 43513);
   (43600, 43609); (44016, 44025); (65296, 65305); (66720, 66729);
   (68912, 68921); (69734, 69743); (69872, 69881); (69942, 69951);
   (70096, 70105); (70384, 70393); (70736, 70745); (70864, 70873);
   (71248, 71257); (71360, 71369); (71472, 71481); (71904, 71913);
   (72016, 72025); (72784, 72793); (73040, 73049); (73120, 73129);
   (92768, 92777); (92864, 92873); (93008, 93017); (120782, 120831);
   (123200, 123209); (123632, 123641); (125264, 125273); (130032, 130041)].

(** The characters [str.isspace()] accepts. *)
Definition white_space : list (Z * Z) :=
  [(9, 13); (28, 32); (133, 133); (160, 160); (5760, 5760); (8192, 8202);
   (8232, 8233); (8239, 8239); (8287, 8287); (12288, 12288)].

Definition in_ranges (c : Z) (ranges : list (Z * Z)) : bool :=
  existsb (fun r => (fst r <=? c) && (c <=? snd r)) ranges.

Definition is_alpha (c : Z) : bool := in_ranges c letters.
Definition is_space (c : Z) : bool := in_ranges c white_space.

(** The value of a decimal digit. *)
Definition decimal (c : Z) : option Z :=
  match find (fun r => (fst r <=? c) && (c <=? snd r)) decimal_digits with
  | Some r => Some ((c - fst r) mod 10)
  | None => None
  end.

End Unicode.

(** ** Text *)

Module Text.

Definition chars (s : string) : list ascii := list_ascii_of_string s.
Definition of_chars (l : list ascii) : string := string_of_list_ascii l.

Definition code (c : ascii) : Z := Z.of_N (N_of_ascii c).

Definition is_upper (c : ascii) : bool := (65 <=? code c) && (code c <=? 90).
Definition is_lower (c : ascii) : bool := (97 <=? code c) && (code c <=? 122).
Definition is_letter (c : ascii) : bool := is_upper c || is_lower c.
Definition is_digit (c : ascii) : bool := (48 <=? code c) && (code c <=? 57).

(** Whitespace as [int()], [float()] and SQLite's number reader skip it:
    space, tab, line feed, vertical tab, form feed, carriage return. *)
Definition is_space (c : ascii) : bool :=
  (code c =? 32) || ((9 <=? code c) && (code c <=? 13)).

Definition lower_char (c : ascii) : ascii :=
  if is_upper c then ascii_of_N (N_of_ascii c + 32) else c.
Definition upper_char (c : ascii) : ascii :=
  if is_lower c then ascii_of_N (N_of_ascii c - 32) else c.

(** [s.lower()] and [s.upper()] *)
Definition lower (s : string) : string := of_chars (map lower_char (chars s)).
Definition upper (s : string) : string := of_chars (map upper_char (chars s)).

(** [s[:-1]] *)
Definition drop_last (s : string) : string := of_chars (removelast (chars s)).

(** [sep.join(l)] *)
Fixpoint join (sep : string) (l : list string) : string :=
  match l with
  | [] => ""
  | [x] => x
  | x :: rest => x +:+ sep +:+ join sep rest
  end.

(** *** Text as characters

    A string holds the bytes of its text in UTF-8, the encoding Python
    reads standard input in.  [code_points] gives the characters of the
    text.  A byte that is no part of a well-formed sequence is given as
    Python gives it under the [surrogateescape] handler: as the lone
    surrogate U+DC00 + byte, which is no letter, no digit and no space. *)

Definition continues (b : Z) : bool := (128 <=? b) && (b <=? 191).

(** The character the well-formed sequence that starts with [b] encodes,
    and the number of bytes that follow [b] in it; [rest] is what follows
    [b].  Overlong forms, surrogates and values past U+10FFFF are not
    well formed. *)
Definition sequence (b : Z) (rest : list Z) : option (Z * nat) :=
  if b <? 128 then Some (b, 0%nat)
  else if (194 <=? b) && (b <=? 223) then
    match rest with
    | b1 :: _ =>
        if continues b1 then Some ((b - 192) * 64 + (b1 - 128), 1%nat) else None
    | _ => None
    end
  else if (224 <=? b) && (b <=? 239) then
    match rest with
    | b1 :: b2 :: _ =>
        let c := (b - 224) * 4096 + (b1 - 128) * 64 + (b2 - 128) in
        if continues b1 && continues b2 && (2048 <=? c)
           && negb ((55296 <=? c) && (c <=? 57343))
        then Some (c, 2%nat) else None
    | _ => None
    end
  else if (240 <=? b) && (b <=? 244) then
    match rest with
    | b1 :: b2 :: b3 :: _ =>
        let c := (b - 240) * 262144 + (b1 - 128) * 4096 + (b2 - 128) * 64
                 + (b3 - 128) in
        if continues b1 && continues b2 && continues b3 && (65536 <=? c)
           && (c <=? 1114111)
        then Some (c, 3%nat) else None
    | _ => None
    end
  else None.

(** [skip] counts the bytes still to pass over: those of the sequence
    whose character was just given. *)
Fixpoint decode (skip : nat) (l : list Z) : list Z :=
  match l with
  | [] => []
  | b :: rest =>
      match skip with
      | S k => decode k rest
      | O =>
          match sequence b rest with
          | Some (c, n) => c :: decode n rest
          | None => (56320 + b) :: decode 0 rest
          end
      end
  end.

Definition code_points (s : string) : list Z := decode 0 (map code (chars s)).

(** [s.isalpha()]: at least one character, and letters only. *)
Definition isalpha (s : string) : bool :=
  match code_points s with
  | [] => false
  | l => forallb Unicode.is_alpha l
  end.

Fixpoint lstrip (l : list ascii) : list ascii :=
  match l with
  | c :: rest => if is_space c then lstrip rest else l
  | [] => []
  end.

Definition strip (l : list ascii) : list ascii := rev (lstrip (rev (lstrip l))).

(** [needle in hay] *)
Fixpoint contains_chars (needle hay : list ascii) : bool :=
  match hay with
  | [] => match needle with [] => true | _ => false end
  | _ :: rest =>
      if decide (take (length needle) hay = needle) then true
      else contains_chars needle rest
  end.

Definition contains (needle hay : string) : bool :=
  contains_chars (chars needle) (chars hay).

(** An integer in decimal: what SQLite makes of an integer turned into
    text, and what [str(n)] gives for an [int] of at most 4300 digits
    (for a longer one [str] raises [ValueError]; no integer SQLite
    stores, of 64 bits, comes near). *)
Definition of_Z (z : Z) : string := NilZero.string_of_int (Z.to_int z).

Definition digit_value (c : ascii) : Z := code c - 48.

(** Decimal digits, a single underscore allowed between two digits. *)
Fixpoint digits_value (acc : Z) (after_digit : bool) (l : list ascii) : option Z :=
  match l with
  | [] => if after_digit then Some acc else None
  | c :: rest =>
      if is_digit c then digits_value (10 * acc + digit_value c) true rest
      else if decide (c = "_"%char) then
        if after_digit then digits_value acc false rest else None
      else None
  end.

Definition signed (l : list ascii) : bool * list ascii :=
  match l with
  | c :: rest =>
      if decide (c = "-"%char) then (true, rest)
      else if decide (c = "+"%char) then (false, rest)
      else (false, l)
  | [] => (false, [])
  end.

(** What [int()] reads in place of a character: an ASCII character as
    it is, any other white space as a space, any other decimal digit as
    the ASCII digit of its value, anything else as a character no number
    holds. *)
Definition to_ascii (c : Z) : ascii :=
  if c <? 127 then ascii_of_N (Z.to_N c)
  else if Unicode.is_space c then " "%char
  else
    match Unicode.decimal c with
    | Some d => ascii_of_N (Z.to_N (48 + d))
    | None => "?"%char
    end.

(** The longest run of digits [int()] converts, and [str()] prints. *)
Definition max_str_digits : Z := 4300.

Definition count_digits (l : list ascii) : nat := length (filter is_digit l).

(** [int(s)]: [None] stands for [ValueError]. *)
Definition py_int (s : string) : option Z :=
  let (neg, body) := signed (strip (map to_ascii (code_points s))) in
  if max_str_digits <? Z.of_nat (count_digits body) then None
  else
    match digits_value 0 false body with
    | Some n => Some (if neg then - n else n)
    | None => None
    end.

End Text.

(** ** Floating point numbers

    Python's [float] and SQLite's REAL are the same IEEE doubles.  The
    program only moves them around, so the embedding asks for the
    operations it meets and nothing about how they are computed. *)

Class Float := {
  real : Type;
  (** [x == y] on two floats *)
  real_eqb : real -> real -> bool;
  real_is_nan : real -> bool;
  (** the order SQLite sorts stored reals by *)
  real_compare : real -> real -> comparison;
  (** an integer against a real, compared exactly *)
  int_real_compare : Z -> real -> comparison;
  (** a 64-bit integer as a double *)
  real_of_int : Z -> real;
  (** the integer a real stands for, when the conversion loses nothing and
      the integer is strictly inside the 64-bit range *)
  real_exact_int : real -> option Z;
  (** [x + 1] *)
  real_succ : real -> real;
  (** SQLite's rendering of a real as text, and its reading of a numeric
      literal that is not a plain integer *)
  sql_text_of_real : real -> string;
  sql_real_of_text : string -> option real;
  (** [float(s)], [None] for [ValueError], and [str(x)] *)
  py_float : string -> option real;
  py_str_of_real : real -> string
}.

(** ** Values *)

Section Values.
Context `{Float}.

(** What a cell holds and what the program passes as a parameter:
    [None]/NULL, [int]/INTEGER, [float]/REAL, [str]/TEXT. *)
Inductive value : Type :=
| VNull
| VInt (z : Z)
| VReal (r : real)
| VText (s : string).

Definition row : Type := list value.

(** An integer against a real.  No integer equals a NaN: SQLite ranks a
    NaN with NULL, below every integer, and Python's [==] is false. *)
Definition int_vs_real (x : Z) (r : real) : comparison :=
  if real_is_nan r then Gt else int_real_compare x r.

(** [a == b] in Python *)
Definition py_eq (a b : value) : bool :=
  match a, b with
  | VNull, VNull => true
  | VInt x, VInt y => x =? y
  | VInt x, VReal r | VReal r, VInt x =>
      match int_vs_real x r with Eq => true | _ => false end
  | VReal r, VReal q => real_eqb r q
  | VText s, VText t => String.eqb s t
  | _, _ => false
  end.

(** [str(cell)] *)
Definition py_str (v : value) : string :=
  match v with
  | VNull => "None"
  | VInt z => Text.of_Z z
  | VReal r => py_str_of_real r
  | VText s => s
  end.

End Values.

(** ** The SQLite engine

    The part of SQLite the program's five statements reach: tables with
    declared column types, column affinity on insertion and in
    comparisons, NULL in comparisons and aggregates, and the errors raised
    when a statement is prepared. *)

Module Sqlite.

Inductive affinity : Type := AffText | AffNumeric | AffInteger | AffReal | AffBlob.

(** The affinity of a declared type, by the substrings SQLite looks for. *)
Definition affinity_of_type (decl : string) : affinity :=
  let t := Text.upper decl in
  if Text.contains "INT" t then AffInteger
  else if Text.contains "CHAR" t || Text.contains "CLOB" t || Text.contains "TEXT" t
  then AffText
  else if Text.contains "BLOB" t || String.eqb t "" then AffBlob
  else if Text.contains "REAL" t || Text.contains "FLOA" t || Text.contains "DOUB" t
  then AffReal
  else AffNumeric.

Record column : Type := Column { col_name : string; col_type : string }.

Definition col_affinity (c : column) : affinity := affinity_of_type (col_type c).

Definition int64_min : Z := - 2 ^ 63.
Definition int64_max : Z := 2 ^ 63 - 1.
Definition in_int64 (z : Z) : bool := (int64_min <=? z) && (z <=? int64_max).

Fixpoint digits_plain (acc : Z) (seen : bool) (l : list ascii) : option Z :=
  match l with
  | [] => if seen then Some acc else None
  | c :: rest =>
      if Text.is_digit c then digits_plain (10 * acc + Text.digit_value c) true rest
      else None
  end.

(** A text that is an integer literal fitting 64 bits: blanks, a sign,
    digits, blanks. *)
Definition sql_int_of_text (s : string) : option Z :=
  let (neg, body) := Text.signed (Text.strip (Text.chars s)) in
  match digits_plain 0 false body with
  | Some n => let z := if neg then - n else n in
              if in_int64 z then Some z else None
  | None => None
  end.

(** Names are compared without regard to case. *)
Definition same_name (a b : string) : bool := String.eqb (Text.lower a) (Text.lower b).

(** The declared column a name stands for.  (SQLite itself also knows
    [rowid], [oid], [_rowid_] and a few literal names where no column is
    declared under them; here a name that is no declared column stands
    for nothing.) *)
Fixpoint find_column (cols : list column) (key : string) : option nat :=
  match cols with
  | [] => None
  | c :: rest =>
      if same_name (col_name c) key then Some 0%nat
      else option_map S (find_column rest key)
  end.

(** The first column whose name an earlier column already has. *)
Fixpoint duplicate_column (seen : list string) (cols : list column) : option string :=
  match cols with
  | [] => None
  | c :: rest =>
      if existsb (same_name (col_name c)) seen then Some (col_name c)
      else duplicate_column (col_name c :: seen) rest
  end.

(** *** Column definitions that carry no constraint

    After its type a column definition of SQLite may carry constraints,
    a default, a collation or a generated value; a table with such a
    column does more on insertion than store the row (it may refuse it,
    give it an identifier, or replace a stored row).  None of this is
    modelled.  [plain] picks the column definitions without any: an
    identifier that is no keyword of SQLite, followed by one of the usual
    type names or by nothing.  The definitions of the program are such. *)

Definition keywords : list string :=
  ["ABORT"; "ACTION"; "ADD"; "AFTER"; "ALL"; "ALTER"; "ALWAYS"; "ANALYZE"; "AND";
   "AS"; "ASC"; "ATTACH"; "AUTOINCREMENT"; "BEFORE"; "BEGIN"; "BETWEEN"; "BY";
   "CASCADE"; "CASE"; "CAST"; "CHECK"; "COLLATE"; "COLUMN"; "COMMIT"; "CONFLICT";
   "CONSTRAINT"; "CREATE"; "CROSS"; "CURRENT"; "CURRENT_DATE"; "CURRENT_TIME";
   "CURRENT_TIMESTAMP"; "DATABASE"; "DEFAULT"; "DEFERRABLE"; "DEFERRED"; "DELETE";
   "DESC"; "DETACH"; "DISTINCT"; "DO"; "DROP"; "EACH"; "ELSE"; "END"; "ESCAPE";
   "EXCEPT"; "EXCLUDE"; "EXCLUSIVE"; "EXISTS"; "EXPLAIN"; "FAIL"; "FILTER"; "FIRST";
   "FOLLOWING"; "FOR"; "FOREIGN"; "FROM"; "FULL"; "GENERATED"; "GLOB"; "GROUP";
   "GROUPS"; "HAVING"; "IF"; "IGNORE"; "IMMEDIATE"; "IN"; "INDEX"; "INDEXED";
   "INITIALLY"; "INNER"; "INSERT"; "INSTEAD"; "INTERSECT"; "INTO"; "IS"; "ISNULL";
   "JOIN"; "KEY"; "LAST"; "LEFT"; "LIKE"; "LIMIT"; "MATCH"; "MATERIALIZED";
   "NATURAL"; "NO"; "NOT"; "NOTHING"; "NOTNULL"; "NULL"; "NULLS"; "OF"; "OFFSET";
   "ON"; "OR"; "ORDER"; "OTHERS"; "OUTER"; "OVER"; "PARTITION"; "PLAN"; "PRAGMA";
   "PRECEDING"; "PRIMARY"; "QUERY"; "RAISE"; "RANGE"; "RECURSIVE"; "REFERENCES";
   "REGEXP"; "REINDEX"; "RELEASE"; "RENAME"; "REPLACE"; "RESTRICT"; "RETURNING";
   "RIGHT"; "ROLLBACK"; "ROW"; "ROWS"; "SAVEPOINT"; "SELECT"; "SET"; "TABLE";
   "TEMP"; "TEMPORARY"; "THEN"; "TIES"; "TO"; "TRANSACTION"; "TRIGGER";
   "UNBOUNDED"; "UNION"; "UNIQUE"; "UPDATE"; "USING"; "VACUUM"; "VALUES"; "VIEW";
   "VIRTUAL"; "WHEN"; "WHERE"; "WINDOW"; "WITH"; "WITHOUT"]%string.

Definition type_names : list string :=
  [""; "INT"; "INTEGER"; "TINYINT"; "SMALLINT"; "MEDIUMINT"; "BIGINT"; "TEXT";
   "CLOB"; "CHARACTER"; "VARCHAR"; "NCHAR"; "NVARCHAR"; "BLOB"; "REAL"; "DOUBLE";
   "FLOAT"; "NUMERIC"; "DECIMAL"; "BOOLEAN"; "DATE"; "DATETIME"]%string.

Definition name_char (c : ascii) : bool :=
  Text.is_letter c || Text.is_digit c || Ascii.eqb c "_".

Definition identifier (s : string) : bool :=
  match Text.chars s with
  | [] => false
  | c :: rest =>
      negb (Text.is_digit c) && forallb name_char (c :: rest)
      && negb (existsb (String.eqb (Text.upper s)) keywords)
  end.

Definition plain (c : column) : bool :=
  identifier (col_name c) && existsb (String.eqb (Text.upper (col_type c))) type_names.

Section Engine.
Context `{Float}.

Record table : Type := Table {
  tbl_name : string;
  tbl_columns : list column;
  tbl_rows : list row
}.

(** A database file: its tables, under their lower-cased names. *)
Abbreviation database := (gmap string table).

Definition table_key (name : string) : string := Text.lower name.

Definition with_rows (t : table) (rows : list row) : table :=
  {| tbl_name := tbl_name t; tbl_columns := tbl_columns t; tbl_rows := rows |}.

(** *** Affinity *)

Definition integer_if_exact (r : real) : value :=
  match real_exact_int r with Some z => VInt z | None => VReal r end.

Definition numeric_of_text (s : string) : value :=
  match sql_int_of_text s with
  | Some z => VInt z
  | None =>
      match sql_real_of_text s with
      | Some r => integer_if_exact r
      | None => VText s
      end
  end.

Definition to_numeric (v : value) : value :=
  match v with
  | VText s => numeric_of_text s
  | VReal r => integer_if_exact r
  | _ => v
  end.

Definition to_text (v : value) : value :=
  match v with
  | VInt z => VText (Text.of_Z z)
  | VReal r => VText (sql_text_of_real r)
  | _ => v
  end.

Definition force_real (v : value) : value :=
  match v with VInt z => VReal (real_of_int z) | _ => v end.

(** The value a column of the given affinity gives back for a value
    stored in it. *)
Definition apply_affinity (a : affinity) (v : value) : value :=
  match a with
  | AffText => to_text v
  | AffNumeric | AffInteger => to_numeric v
  | AffReal => force_real (to_numeric v)
  | AffBlob => v
  end.

(** The operand of [column = ?]: a numeric column reads a text operand
    as a number, a TEXT column turns a number into text. *)
Definition comparison_operand (a : affinity) (v : value) : value :=
  match a with
  | AffText => to_text v
  | AffNumeric | AffInteger | AffReal => to_numeric v
  | AffBlob => v
  end.

(** *** Comparison *)

(** The order of stored values: NULL, then numbers by value, then text
    by its bytes. *)
Definition sql_compare (a b : value) : comparison :=
  match a, b with
  | VNull, VNull => Eq
  | VNull, _ => Lt
  | _, VNull => Gt
  | VInt x, VInt y => x ?= y
  | VInt x, VReal r => int_vs_real x r
  | VReal r, VInt y => CompOpp (int_vs_real y r)
  | VReal r, VReal q => real_compare r q
  | VText s, VText t => String.compare s t
  | VText _, _ => Gt
  | _, VText _ => Lt
  end.

(** [a = b] holds; a comparison with NULL never does. *)
Definition sql_equal (a b : value) : bool :=
  match a, b with
  | VNull, _ | _, VNull => false
  | _, _ => match sql_compare a b with Eq => true | _ => false end
  end.

(** [MAX(...)] over the cells of a column: NULLs are skipped, an earlier
    value is kept against an equal later one, no value gives NULL. *)
Definition max_step (best v : value) : value :=
  match v, best with
  | VNull, _ => best
  | _, VNull => v
  | _, _ => match sql_compare best v with Lt => v | _ => best end
  end.

Definition sql_max (cells : list value) : value := fold_left max_step cells VNull.

(** *** Statements *)

Inductive statement : Type :=
| CreateTableIfNotExists (name : string) (columns : list column)
| InsertValues (name : string) (placeholders : nat)
| SelectCountWhere (name : string) (keys : list string)
| SelectAll (name : string)
| SelectMax (col : string) (name : string).

Definition column_text (c : column) : string := col_name c +:+ " " +:+ col_type c.

(** The statement as the source spells it. *)
Definition sql_text (s : statement) : string :=
  match s with
  | CreateTableIfNotExists name columns =>
      "CREATE TABLE IF NOT EXISTS " +:+ name +:+ "("
        +:+ Text.join ", " (map column_text columns) +:+ ")"
  | InsertValues name n =>
      "INSERT INTO " +:+ name +:+ " VALUES ("
        +:+ Text.join ", " (replicate n "?"%string) +:+ ")"
  | SelectCountWhere name keys =>
      "SELECT COUNT(*) FROM " +:+ name +:+ " WHERE "
        +:+ Text.join " AND " (map (fun key => key +:+ " = ?") keys)
  | SelectAll name => "SELECT * FROM " +:+ name
  | SelectMax col name => "SELECT MAX(" +:+ col +:+ ") FROM " +:+ name
  end.

Definition placeholders (s : statement) : nat :=
  match s with
  | InsertValues _ n => n
  | SelectCountWhere _ keys => length keys
  | _ => 0%nat
  end.

Inductive sql_error : Type :=
| SyntaxError
| NoSuchTable (name : string)
| NoSuchColumn (name : string)
| DuplicateColumn (name : string)
| WrongArity (name : string) (columns values : nat).

(** How a statement touches the file: not at all, at once (a schema
    statement runs outside any transaction), or inside the transaction
    the connection opens for it, which [commit] ends. *)
Inductive write_mode : Type := ReadOnly | Immediate | InTransaction.

Definition write_mode_of (s : statement) : write_mode :=
  match s with
  | CreateTableIfNotExists _ _ => Immediate
  | InsertValues _ _ => InTransaction
  | _ => ReadOnly
  end.

(** A statement that passed preparation. *)
Inductive plan : Type :=
| PlanNothing
| PlanCreate (t : table)
| PlanInsert (name : string) (t : table)
| PlanCount (t : table) (cols : list nat)
| PlanAll (t : table)
| PlanMax (t : table) (col : string) (i : nat).

Definition find_table (db : database) (name : string) : sql_error + table :=
  match db !! table_key name with
  | Some t => inr t
  | None => inl (NoSuchTable name)
  end.

Fixpoint find_columns (cols : list column) (keys : list string) : sql_error + list nat :=
  match keys with
  | [] => inr []
  | key :: rest =>
      match find_column cols key with
      | None => inl (NoSuchColumn key)
      | Some i =>
          match find_columns cols rest with
          | inl e => inl e
          | inr l => inr (i :: l)
          end
      end
  end.

(** Preparation: the grammar first, then the names, then the arity.
    What a column definition carries after its type is not looked at;
    see [plain]. *)
Definition prepare (s : statement) (db : database) : sql_error + plan :=
  match s with
  | CreateTableIfNotExists name columns =>
      match columns with
      | [] => inl SyntaxError
      | _ =>
          match db !! table_key name with
          | Some _ => inr PlanNothing
          | None =>
              match duplicate_column [] columns with
              | Some c => inl (DuplicateColumn c)
              | None => inr (PlanCreate (Table name columns []))
              end
          end
      end
  | InsertValues name n =>
      match n with
      | O => inl SyntaxError
      | _ =>
          match find_table db name with
          | inl e => inl e
          | inr t =>
              if decide (length (tbl_columns t) = n) then inr (PlanInsert name t)
              else inl (WrongArity (tbl_name t) (length (tbl_columns t)) n)
          end
      end
  | SelectCountWhere name keys =>
      match keys with
      | [] => inl SyntaxError
      | _ =>
          match find_table db name with
          | inl e => inl e
          | inr t =>
              match find_columns (tbl_columns t) keys with
              | inl e => inl e
              | inr cols => inr (PlanCount t cols)
              end
          end
      end
  | SelectAll name =>
      match find_table db name with
      | inl e => inl e
      | inr t => inr (PlanAll t)
      end
  | SelectMax col name =>
      match find_table db name with
      | inl e => inl e
      | inr t =>
          match find_column (tbl_columns t) col with
          | None => inl (NoSuchColumn col)
          | Some i => inr (PlanMax t col i)
          end
      end
  end.

(** What a cursor holds after [execute]: the column names and the rows. *)
Record cursor : Type := Cursor {
  description : list string;
  cur_rows : list row
}.

Definition cell (r : row) (i : nat) : value := default VNull (r !! i).

Definition column_affinity (t : table) (i : nat) : affinity :=
  match tbl_columns t !! i with
  | Some c => col_affinity c
  | None => AffBlob
  end.

(** One term [column = ?] of the filter, on one row; text is compared
    byte by byte, which is the collation of a column that names none. *)
Definition term_holds (t : table) (r : row) (i : nat) (param : value) : bool :=
  sql_equal (cell r i) (comparison_operand (column_affinity t i) param).

Fixpoint row_matches (t : table) (r : row) (cols : list nat) (params : list value) : bool :=
  match cols, params with
  | i :: cols', p :: params' => term_holds t r i p && row_matches t r cols' params'
  | _, _ => true
  end.

Definition count_matching (t : table) (cols : list nat) (params : list value) : Z :=
  Z.of_nat (length (filter (fun r => row_matches t r cols params = true) (tbl_rows t))).

Definition stored_row (t : table) (params : list value) : row :=
  zip_with apply_affinity (map col_affinity (tbl_columns t)) params.

(** Running a prepared statement on its bound parameters.  An insertion
    stores the row after the rows that are there, which is what SQLite
    does in a table whose columns carry no constraint. *)
Definition step (p : plan) (params : list value) (db : database) : database * cursor :=
  match p with
  | PlanNothing => (db, Cursor [] [])
  | PlanCreate t => (<[table_key (tbl_name t) := t]> db, Cursor [] [])
  | PlanInsert name t =>
      (<[table_key name := with_rows t (tbl_rows t ++ [stored_row t params])]> db,
       Cursor [] [])
  | PlanCount t cols =>
      (db, Cursor ["COUNT(*)"%string] [[VInt (count_matching t cols params)]])
  | PlanAll t => (db, Cursor (map col_name (tbl_columns t)) (tbl_rows t))
  | PlanMax t col i =>
      (db, Cursor ["MAX(" +:+ col +:+ ")"] [[sql_max (map (fun r => cell r i) (tbl_rows t))]])
  end.

(** Python's adapter: an [int] outside 64 bits is an [OverflowError]
    ([None] here), a NaN is bound as NULL. *)
Definition bind_value (v : value) : option value :=
  match v with
  | VInt z => if in_int64 z then Some v else None
  | VReal r => Some (if real_is_nan r then VNull else v)
  | _ => Some v
  end.

Fixpoint bind_all (params : list value) : option (list value) :=
  match params with
  | [] => Some []
  | v :: rest =>
      match bind_value v with
      | None => None
      | Some b =>
          match bind_all rest with
          | None => None
          | Some l => Some (b :: l)
          end
      end
  end.

End Engine.

End Sqlite.

(** ** The world, and the exceptions a call can end in *)

Section World.
Context `{Float}.

Inductive exn : Type :=
| OperationalError (e : Sqlite.sql_error)
| ProgrammingError
| OverflowError
| TypeError
| IndexError
| EOFError.

(** An open connection: its file, and the database as its uncommitted
    transaction left it, if it has one. *)
Record connection : Type := Connection {
  conn_file : string;
  conn_pending : option (gmap string Sqlite.table)
}.

(** The calls made on the [sqlite3] module, in order. *)
Inductive event : Type :=
| Connected (h : nat) (file : string)
| Executed (h : nat) (sql : string)
| Committed (h : nat)
| Closed (h : nat).

Record world : Type := World {
  files : gmap string (gmap string Sqlite.table);
  conns : gmap nat connection;
  trace : list event;
  stdin : list string;
  stdout : list string
}.

Definition set_files (f : gmap string (gmap string Sqlite.table)) (w : world) : world :=
  World f (conns w) (trace w) (stdin w) (stdout w).
Definition set_conns (c : gmap nat connection) (w : world) : world :=
  World (files w) c (trace w) (stdin w) (stdout w).
Definition set_stdin (l : list string) (w : world) : world :=
  World (files w) (conns w) (trace w) l (stdout w).
Definition log (e : event) (w : world) : world :=
  World (files w) (conns w) (trace w ++ [e]) (stdin w) (stdout w).
(** Text written to standard output, one entry per write. *)
Definition write (s : string) (w : world) : world :=
  World (files w) (conns w) (trace w) (stdin w) (stdout w ++ [s]).

(** The database in a file; a file that does not exist yet is an empty
    database, which connecting creates. *)
Definition database_of (w : world) (file : string) : gmap string Sqlite.table :=
  default ∅ (files w !! file).

Inductive outcome (A : Type) : Type :=
| Ok (a : A) (w : world)
| Raise (e : exn) (w : world).
#[global] Arguments Ok {A} a w.
#[global] Arguments Raise {A} e w.

Definition M (A : Type) : Type := world -> outcome A.

Definition ret {A : Type} (a : A) : M A := fun w => Ok a w.
Definition raise {A : Type} (e : exn) : M A := fun w => Raise e w.
Definition bind {A B : Type} (m : M A) (k : A -> M B) : M B :=
  fun w => match m w with
           | Ok a w' => k a w'
           | Raise e w' => Raise e w'
           end.

Definition final {A : Type} (o : outcome A) : world :=
  match o with Ok _ w | Raise _ w => w end.

End World.

Notation "'let*' x ':=' m 'in' k" := (bind m (fun x => k))
  (at level 10, x name, m at level 100, k at level 200).
Notation "m ';;' k" := (bind m (fun _ => k))
  (at level 100, k at level 200, right associativity).

(** ** The calls of the [sqlite3] module and of the console *)

Section Calls.
Context `{Float}.

(** [sqlite3.connect(file)]: the new connection gets a handle no open
    connection has. *)
Definition connect (file : string) : M nat := fun w =>
  let h := fresh (dom (conns w)) in
  Ok h (log (Connected h file) (set_conns (<[h := Connection file None]> (conns w)) w)).

Definition view (w : world) (c : connection) : gmap string Sqlite.table :=
  match conn_pending c with
  | Some db => db
  | None => database_of w (conn_file c)
  end.

(** Where the database a statement leaves goes. *)
Definition keep (h : nat) (c : connection) (m : Sqlite.write_mode)
    (db : gmap string Sqlite.table) (w : world) : world :=
  match m, conn_pending c with
  | Sqlite.ReadOnly, _ => w
  | Sqlite.Immediate, None => set_files (<[conn_file c := db]> (files w)) w
  | _, _ => set_conns (<[h := Connection (conn_file c) (Some db)]> (conns w)) w
  end.

(** A statement on its parameters: prepare, check the number of
    parameters, bind them, run. *)
Definition run_statement (s : Sqlite.statement) (params : list value)
    (db : gmap string Sqlite.table)
    : exn + (gmap string Sqlite.table * Sqlite.cursor) :=
  match Sqlite.prepare s db with
  | inl e => inl (OperationalError e)
  | inr p =>
      if decide (length params = Sqlite.placeholders s) then
        match Sqlite.bind_all params with
        | None => inl OverflowError
        | Some bound => inr (Sqlite.step p bound db)
        end
      else inl ProgrammingError
  end.

(** [conn.cursor().execute(sql, params)] *)
Definition execute (h : nat) (s : Sqlite.statement) (params : list value) : M Sqlite.cursor :=
  fun w =>
  match conns w !! h with
  | None => Raise ProgrammingError w
  | Some c =>
      let w1 := log (Executed h (Sqlite.sql_text s)) w in
      match run_statement s params (view w c) with
      | inl e => Raise e w1
      | inr (db, cur) => Ok cur (keep h c (Sqlite.write_mode_of s) db w1)
      end
  end.

(** [conn.commit()] *)
Definition commit (h : nat) : M unit := fun w =>
  match conns w !! h with
  | None => Raise ProgrammingError w
  | Some c =>
      let w1 := log (Committed h) w in
      match conn_pending c with
      | None => Ok tt w1
      | Some db =>
          Ok tt (set_conns (<[h := Connection (conn_file c) None]> (conns w1))
                   (set_files (<[conn_file c := db]> (files w1)) w1))
      end
  end.

(** [conn.close()]: whatever was not committed is dropped. *)
Definition close (h : nat) : M unit := fun w =>
  Ok tt (log (Closed h) (set_conns (delete h (conns w)) w)).

(** [cur.fetchone()[0]] *)
Definition fetchone_0 (cur : Sqlite.cursor) : M value :=
  match Sqlite.cur_rows cur with
  | [] => raise TypeError
  | [] :: _ => raise IndexError
  | (v :: _) :: _ => ret v
  end.

(** [input(prompt)]: the prompt is written, one line is taken; at the end
    of the input it raises [EOFError]. *)
Definition input (prompt : string) : M string := fun w =>
  let w1 := write prompt w in
  match stdin w1 with
  | [] => Raise EOFError w1
  | line :: rest => Ok line (set_stdin rest w1)
  end.

Definition newline : string := String (ascii_of_nat 10) "".
Definition tab : string := String (ascii_of_nat 9) "".

(** [print(s)] *)
Definition print (s : string) : M unit := fun w => Ok tt (write (s +:+ newline) w).

End Calls.

(** ** The program *)

Definition DB : string := "AlcoholIntakeTracker.db".

Section Functions.
Context `{Float}.

(** The three readers are one loop: prompt, read a line, return what it
    parses to or complain and go round again.  The loop runs on the lines
    that are left; when none is, [input] raises [EOFError], which none of
    the readers catches. *)
Fixpoint ask_until {A : Type} (parse : string -> option A) (complaint : string)
    (display_string : string) (lines : list string) (w : world) : outcome A :=
  match lines with
  | [] => Raise EOFError (write display_string w)
  | user_input :: rest =>
      let w1 := set_stdin rest (write display_string w) in
      match parse user_input with
      | Some a => Ok a w1
      | None => ask_until parse complaint display_string rest
                  (write (complaint +:+ newline) w1)
      end
  end.

Definition get_int (display_string : string) : M Z := fun w =>
  ask_until Text.py_int "<<< Please enter whole numbers only >>>"
    display_string (stdin w) w.

Definition get_float (display_string : string) : M real := fun w =>
  ask_until py_float "<<< Please enter numbers only >>>"
    display_string (stdin w) w.

Definition get_str (display_string : string) : M string := fun w =>
  ask_until (fun user_input => if Text.isalpha user_input then Some user_input else None)
    "<<< Please enter letters only >>>"
    display_string (stdin w) w.

Definition create_table (db_name table_name : string) (columns : list Sqlite.column)
    : M unit :=
  let* conn := connect db_name in
  execute conn (Sqlite.CreateTableIfNotExists table_name columns) [] ;;
  commit conn ;;
  close conn.

Definition insert_into_table (db_name table_name : string) (values : row) : M unit :=
  let* conn := connect db_name in
  execute conn (Sqlite.InsertValues table_name (length values)) values ;;
  commit conn ;;
  close conn.

(** [result > 0] *)
Definition greater_than_0 (result : value) : M bool :=
  match result with
  | VInt n => ret (0 <? n)
  | VReal r => ret (match int_vs_real 0 r with Lt => true | _ => false end)
  | _ => raise TypeError
  end.

(** [kwargs] is the keyword dictionary, in the order the keywords were
    given. *)
Definition entry_already_exists (table : string) (kwargs : list (string * value))
    : M bool :=
  let* conn := connect DB in
  let* cur := execute conn (Sqlite.SelectCountWhere table (map fst kwargs))
                (map snd kwargs) in
  let* result := fetchone_0 cur in
  close conn ;;
  greater_than_0 result.

(** [entry_class] is used through its [create()] alone, which is what is
    passed here. *)
Definition ask_and_insert_entry (table : string) (entry_class : M row) : M unit :=
  let entry_type := Text.lower (Text.drop_last table) in
  let* entry_data := entry_class in
  let* entry_id := match entry_data with
                   | [] => raise IndexError
                   | v :: _ => ret v
                   end in
  let* found := entry_already_exists table [("id"%string, entry_id)] in
  if found then print ("This " +:+ entry_type +:+ " already exists.")
  else insert_into_table DB table entry_data.

Fixpoint for_each {A : Type} (l : list A) (body : A -> M unit) : M unit :=
  match l with
  | [] => ret tt
  | a :: rest => body a ;; for_each rest body
  end.

Definition view_table (table_name : string) : M unit :=
  let* conn := connect DB in
  let* cur := execute conn (Sqlite.SelectAll table_name) [] in
  let rows := Sqlite.cur_rows cur in
  let col_names := Sqlite.description cur in
  print (Text.join tab col_names) ;;
  for_each rows (fun row => print (Text.join tab (map py_str row))) ;;
  close conn.

(** [max_id + 1 if max_id is not None else 1] *)
Definition next_id (max_id : value) : M value :=
  match max_id with
  | VNull => ret (VInt 1)
  | VInt n => ret (VInt (n + 1))
  | VReal r => ret (VReal (real_succ r))
  | VText _ => raise TypeError
  end.

(** The first lines of both [create()]: the largest identifier of the
    table, then the identifier of the new entry. *)
Definition new_id (table : string) : M value :=
  let* conn := connect DB in
  let* cur := execute conn (Sqlite.SelectMax "id" table) [] in
  let* max_id := fetchone_0 cur in
  close conn ;;
  next_id max_id.

End Functions.

Module Drink.
Section Drink.
Context `{Float}.

Definition create : M row :=
  let* drink_id := new_id "Drinks" in
  let* name := input "Enter drink name, e.g. Negroni, Gin & Tonic, Sangria: " in
  let* description := input "If you wish, enter a description here: " in
  let* method := input "How is the drink is prepared, e.g. Shaken, Stirred: " in
  let* garnish := input "If appropriate, enter a garnish here: " in
  ret [drink_id; VText name; VText description; VText method; VText garnish].

End Drink.
End Drink.

Module Ingredient.
Section Ingredient.
Context `{Float}.

Definition ask_abv : M real := get_float "Enter the ABV: ".

Definition create : M row :=
  let* ingredient_id := new_id "Ingredients" in
  let* category := input "Enter the category, e.g. Beer, Wine, Spirit: " in
  let* group := input "Enter the type of ingredient, e.g. Ale, White wine, Whiskey: " in
  let* name := input "Enter product name, e.g. Neck Oil, Gran Reserva, Green Label: " in
  let* brand := input "Enter the brand name, e.g. Beavertown, Luis Felipe Edwards, Johnny Walker: " in
  let* description := input "If you wish, enter a description here: " in
  let* measure := input "What units is the ingredient measured in, e.g. ml, dashes? " in
  let* abv := ask_abv in
  ret [ingredient_id; VText category; VText group; VText name; VText brand;
       VText description; VText measure; VReal abv].

End Ingredient.
End Ingredient.

Section Main.
Context `{Float}.

Definition drinks_columns : list Sqlite.column :=
  [Sqlite.Column "id" "INTEGER"; Sqlite.Column "drink_name" "TEXT";
   Sqlite.Column "drink_description" "TEXT"; Sqlite.Column "drink_method" "TEXT";
   Sqlite.Column "drink_garnish" "TEXT"].

Definition ingredients_columns : list Sqlite.column :=
  [Sqlite.Column "id" "INTEGER"; Sqlite.Column "ingredient_category" "TEXT";
   Sqlite.Column "ingredient_group" "TEXT"; Sqlite.Column "ingredient_name" "TEXT";
   Sqlite.Column "ingredient_brand" "TEXT";
   Sqlite.Column "ingredient_description" "TEXT";
   Sqlite.Column "ingredient_measure" "TEXT"; Sqlite.Column "ingredient_abv" "REAL"].

Definition drink_recipes_columns : list Sqlite.column :=
  [Sqlite.Column "id" "INTEGER"; Sqlite.Column "drink_id" "INTEGER";
   Sqlite.Column "ingredient_id" "INTEGER"; Sqlite.Column "ingredient_volume" "REAL"].

Definition main : M unit :=
  create_table DB "Drinks" drinks_columns ;;
  create_table DB "Ingredients" ingredients_columns ;;
  create_table DB "DrinkRecipes" drink_recipes_columns ;;
  ask_and_insert_entry "Drinks" Drink.create ;;
  ask_and_insert_entry "Ingredients" Ingredient.create ;;
  view_table "Drinks" ;;
  view_table "Ingredients" ;;
  view_table "DrinkRecipes".

(** A first run: no file yet, nothing open, the given lines to read. *)
Definition start (lines : list string) : world := World ∅ ∅ [] lines [].

End Main.

(** ** IEEE doubles, to run the program on *)

Module Ieee.

Definition prec : Z := 53.
Definition emax : Z := 1024.

Definition double : Type := spec_float.

(** The double nearest to [n / d], for [0 <= n] and [0 < d]: the quotient
    is taken with enough bits and a sticky bit, and rounded once. *)
Definition of_ratio (neg : bool) (n d : Z) : double :=
  if n =? 0 then S754_zero neg
  else
    let s := Z.max 0 (Z.log2 d - Z.log2 n + 66) in
    let q := (n * 2 ^ s) / d in
    let sticky := if (n * 2 ^ s) mod d =? 0 then 0 else 1 in
    let f := binary_normalize prec emax (2 * q + sticky) (- (s + 1)) false in
    if neg then SFopp f else f.

(** The double nearest to [m * 10 ^ e], for [0 <= m]. *)
Definition of_decimal (neg : bool) (m e : Z) : double :=
  if 0 <=? e then of_ratio neg (m * 10 ^ e) 1 else of_ratio neg m (10 ^ (- e)).

(** A finite non-zero double as a fraction. *)
Definition ratio (m : positive) (e : Z) : Z * Z :=
  if 0 <=? e then (Z.pos m * 2 ^ e, 1) else (Z.pos m, 2 ^ (- e)).

Definition eqb (x y : double) : bool := SFeqb x y.
Definition is_nan (x : double) : bool :=
  match x with S754_nan => true | _ => false end.
Definition compare (x y : double) : comparison :=
  match SFcompare x y with Some c => c | None => Eq end.

Definition int_compare (z : Z) (x : double) : comparison :=
  match x with
  | S754_zero _ => z ?= 0
  | S754_infinity s => if s then Gt else Lt
  | S754_nan => Gt
  | S754_finite s m e =>
      let (n, d) := ratio m e in
      (z * d ?= cond_Zopp s n)
  end.

Definition of_int (z : Z) : double := binary_normalize prec emax z 0 false.

Definition exact_int (x : double) : option Z :=
  match x with
  | S754_zero _ => Some 0
  | S754_finite s m e =>
      let (n, d) := ratio m e in
      if n mod d =? 0 then
        let z := cond_Zopp s (n / d) in
        if (Sqlite.int64_min <? z) && (z <? Sqlite.int64_max) then Some z else None
      else None
  | _ => None
  end.

Definition succ (x : double) : double := SFadd prec emax x (of_int 1).

(** *** Reading decimal literals *)

(** A run of digits; with [us], single underscores between digits. *)
Fixpoint digit_run (us after_digit : bool) (acc : Z) (n : nat) (l : list ascii)
    : Z * nat * list ascii :=
  match l with
  | [] => (acc, n, [])
  | c :: rest =>
      if Text.is_digit c then
        digit_run us true (10 * acc + Text.digit_value c) (S n) rest
      else if us && after_digit && bool_decide (c = "_"%char)
                && match rest with d :: _ => Text.is_digit d | [] => false end
      then digit_run us false acc n rest
      else (acc, n, l)
  end.

Definition is_e (c : ascii) : bool := bool_decide (c = "e"%char) || bool_decide (c = "E"%char).

(** [digits [. digits] [e [sign] digits]], at least one digit before the
    exponent: the sign, the digits as an integer, the power of ten. *)
Definition decimal_literal (us : bool) (l : list ascii) : option (bool * Z * Z) :=
  let (neg, l1) := Text.signed l in
  let '(ip, ni, r1) := digit_run us false 0 0%nat l1 in
  let '(m, nf, r2) :=
    match r1 with
    | c :: r => if bool_decide (c = "."%char) then
                  let '(m, nf, r2) := digit_run us false ip 0%nat r in (m, nf, r2)
                else (ip, 0%nat, r1)
    | [] => (ip, 0%nat, r1)
    end in
  if (ni + nf =? 0)%nat then None
  else
    match r2 with
    | [] => Some (neg, m, - Z.of_nat nf)
    | c :: r =>
        if is_e c then
          let (eneg, r3) := Text.signed r in
          match digit_run us false 0 0%nat r3 with
          | (ev, S _, []) => Some (neg, m, (if eneg then - ev else ev) - Z.of_nat nf)
          | _ => None
          end
        else None
    end.

Definition read (us : bool) (l : list ascii) : option double :=
  match decimal_literal us l with
  | Some (neg, m, e) => Some (of_decimal neg m e)
  | None => None
  end.

(** [float(s)] *)
Definition py_float (s : string) : option double :=
  let l := Text.strip (map Text.to_ascii (Text.code_points s)) in
  let (neg, body) := Text.signed l in
  let word := Text.lower (Text.of_chars body) in
  if String.eqb word "inf" || String.eqb word "infinity" then Some (S754_infinity neg)
  else if String.eqb word "nan" then Some S754_nan
  else read true l.

(** SQLite's reading of a numeric literal *)
Definition sql_real_of_text (s : string) : option double :=
  read false (Text.strip (Text.chars s)).

(** *** Writing decimal digits *)

Definition digits10 (n : Z) : Z := Z.of_nat (String.length (Text.of_Z n)).

(** [10 ^ p <= n / d] *)
Definition pow10_le (p n d : Z) : bool :=
  if 0 <=? p then 10 ^ p * d <=? n else d <=? n * 10 ^ (- p).

Definition round_half_even (n d : Z) : Z :=
  let q := n / d in
  let r := n mod d in
  match 2 * r ?= d with
  | Lt => q
  | Gt => q + 1
  | Eq => if Z.even q then q else q + 1
  end.

(** [n / d] to [k] significant digits: the digits as an integer, and the
    position of the decimal point before them. *)
Definition round_sig (k n d : Z) : Z * Z :=
  let e0 := digits10 n - digits10 d in
  let e := if pow10_le e0 n d then e0 else e0 - 1 in
  let p := k - 1 - e in
  let t := if 0 <=? p then round_half_even (n * 10 ^ p) d
           else round_half_even n (d * 10 ^ (- p)) in
  if t =? 10 ^ k then (10 ^ (k - 1), e + 2) else (t, e + 1).

Fixpoint strip_zeros (fuel : nat) (t : Z) : Z :=
  match fuel with
  | O => t
  | S f => if (t mod 10 =? 0) && negb (t =? 0) then strip_zeros f (t / 10) else t
  end.

(** The fewest digits that read back as the same double. *)
Fixpoint shortest (fuel : nat) (k : Z) (m : positive) (e : Z) : Z * Z :=
  let (n, d) := ratio m e in
  let (t, pt) := round_sig k n d in
  match fuel with
  | O => (t, pt)
  | S f =>
      if SFeqb (of_decimal false t (pt - k)) (S754_finite false m e) then (t, pt)
      else shortest f (k + 1) m e
  end.

Definition zeros (n : Z) : string := Text.of_chars (replicate (Z.to_nat n) "0"%char).

Definition exponent_text (x : Z) : string :=
  (if x <? 0 then "-" else "+") +:+ (if Z.abs x <? 10 then "0" else "") +:+ Text.of_Z (Z.abs x).

Definition take_text (n : Z) (s : string) : string := Text.of_chars (take (Z.to_nat n) (Text.chars s)).
Definition drop_text (n : Z) (s : string) : string := Text.of_chars (drop (Z.to_nat n) (Text.chars s)).

(** Digits [ds] with the decimal point [pt] places in, written out in
    full; an integer gets [.0]. *)
Definition fixed (ds : string) (pt : Z) : string :=
  let nd := Z.of_nat (String.length ds) in
  if pt <=? 0 then "0." +:+ zeros (- pt) +:+ ds
  else if nd <=? pt then ds +:+ zeros (pt - nd) +:+ ".0"
  else take_text pt ds +:+ "." +:+ drop_text pt ds.

(** [str(x)] *)
Definition py_str (x : double) : string :=
  match x with
  | S754_zero s => if s then "-0.0" else "0.0"
  | S754_infinity s => if s then "-inf" else "inf"
  | S754_nan => "nan"
  | S754_finite s m e =>
      let (t, pt) := shortest 16 1 m e in
      let ds := Text.of_Z (strip_zeros 17 t) in
      (if s then "-" else "") +:+
      (if (-4 <? pt) && (pt <=? 16) then fixed ds pt
       else take_text 1 ds
            +:+ (if (1 <? String.length ds)%nat then "." +:+ drop_text 1 ds else "")
            +:+ "e" +:+ exponent_text (pt - 1))
  end.

(** SQLite's text for a real: fifteen significant digits. *)
Definition sql_text (x : double) : string :=
  match x with
  | S754_zero _ => "0.0"
  | S754_infinity s => if s then "-Inf" else "Inf"
  | S754_nan => "NaN"
  | S754_finite s m e =>
      let (n, d) := ratio m e in
      let (t, pt) := round_sig 15 n d in
      let ds := Text.of_Z (strip_zeros 15 t) in
      (if s then "-" else "") +:+
      (if (-4 <? pt) && (pt <=? 15) then fixed ds pt
       else take_text 1 ds +:+ "."
            +:+ (if (1 <? String.length ds)%nat then drop_text 1 ds else "0")
            +:+ "e" +:+ exponent_text (pt - 1))
  end.

End Ieee.

#[export] Instance ieee : Float := {
  real := Ieee.double;
  real_eqb := Ieee.eqb;
  real_is_nan := Ieee.is_nan;
  real_compare := Ieee.compare;
  int_real_compare := Ieee.int_compare;
  real_of_int := Ieee.of_int;
  real_exact_int := Ieee.exact_int;
  real_succ := Ieee.succ;
  sql_text_of_real := Ieee.sql_text;
  sql_real_of_text := Ieee.sql_real_of_text;
  py_float := Ieee.py_float;
  py_str_of_real := Ieee.py_str
}.

(** ** The words the properties are stated in *)

Section Vocabulary.
Context `{Float}.

(** What the console shows while [pre] is rejected line by line: the
    prompt and the complaint for each line. *)
Definition rejections (display_string complaint : string) (pre : list string)
    : list string :=
  flat_map (fun _ => [display_string; complaint +:+ newline]) pre.

Definition int_complaint : string := "<<< Please enter whole numbers only >>>".
Definition str_complaint : string := "<<< Please enter letters only >>>".

(** The handle the next connection gets. *)
Definition handle (w : world) : nat := fresh (dom (conns w)).

(** The world after an access that ran to its end: the files as the
    statement left them, the connection gone, the four (or three) calls
    in the trace. *)
Definition accessed (file : string) (s : Sqlite.statement) (commits : bool)
    (f : gmap string (gmap string Sqlite.table)) (w : world) : world :=
  World f (conns w)
    (trace w ++ [Connected (handle w) file; Executed (handle w) (Sqlite.sql_text s)]
       ++ (if commits then [Committed (handle w)] else []) ++ [Closed (handle w)])
    (stdin w) (stdout w).

(** The world after an access whose statement raised: nothing written,
    the connection still open, no call after [execute]. *)
Definition abandoned (file : string) (s : Sqlite.statement) (w : world) : world :=
  World (files w) (<[handle w := Connection file None]> (conns w))
    (trace w ++ [Connected (handle w) file; Executed (handle w) (Sqlite.sql_text s)])
    (stdin w) (stdout w).

Definition write_all (lines : list string) (w : world) : world :=
  World (files w) (conns w) (trace w) (stdin w) (stdout w ++ lines).

(** The lines [view_table] prints for a table. *)
Definition table_lines (t : Sqlite.table) : list string :=
  (Text.join tab (map Sqlite.col_name (Sqlite.tbl_columns t)) +:+ newline)
  :: map (fun r => Text.join tab (map py_str r) +:+ newline) (Sqlite.tbl_rows t).

(** What one access leaves behind.  When its statement runs: the connect,
    execute, commit (for a writing access) and close calls in the trace,
    no connection more than before, and the files as the statement left
    them if it writes.  When its statement raises: the exception goes up
    from [execute], no call follows, and the connection stays open. *)
Definition one_access {A : Type} (file : string) (s : Sqlite.statement)
    (params : list value) (writes : bool) (w : world) (o : outcome A) : Prop :=
  match run_statement s params (database_of w file) with
  | inr (db, _) =>
      trace (final o) =
        trace w ++ [Connected (handle w) file; Executed (handle w) (Sqlite.sql_text s)]
          ++ (if writes then [Committed (handle w)] else []) ++ [Closed (handle w)]
      /\ conns (final o) = conns w
      /\ files (final o) = (if writes then <[file := db]> (files w) else files w)
  | inl e => o = Raise e (abandoned file s w)
  end.

(** A stored row meets one constraint [key = value]: the cell under the
    column [key] equals, as SQLite compares, the value once bound and
    brought to the column's affinity. *)
Definition meets (t : Sqlite.table) (r : row) (constraint : string * value) : Prop :=
  exists i bound,
    Sqlite.find_column (Sqlite.tbl_columns t) (fst constraint) = Some i
    /\ Sqlite.bind_value (snd constraint) = Some bound
    /\ Sqlite.term_holds t r i bound = true.

(** The line printed for a duplicate. *)
Definition duplicate_message (table : string) : string :=
  "This " +:+ Text.lower (Text.drop_last table) +:+ " already exists.".

(** A value its column gives back as it was stored: NULL anywhere, a
    64-bit integer in an INTEGER, NUMERIC or untyped column, text in a
    TEXT or untyped column, a real that is not a NaN in an untyped column,
    or in a REAL column when the column's integer form of it, if it has
    one, turns back into it. *)
Definition fits (a : Sqlite.affinity) (v : value) : Prop :=
  match v with
  | VNull => True
  | VInt z =>
      Sqlite.in_int64 z = true
      /\ (a = Sqlite.AffInteger \/ a = Sqlite.AffNumeric \/ a = Sqlite.AffBlob)
  | VText _ => a = Sqlite.AffText \/ a = Sqlite.AffBlob
  | VReal r =>
      real_is_nan r = false
      /\ (a = Sqlite.AffBlob
          \/ (a = Sqlite.AffReal
              /\ forall z, real_exact_int r = Some z -> real_of_int z = r))
  end.

(** The rows of a table of a database; a table that is not there has
    none. *)
Definition rows_in (db : gmap string Sqlite.table) (key : string) : list row :=
  match db !! key with
  | Some t => Sqlite.tbl_rows t
  | None => []
  end.

(** The rows stored in a file under a table. *)
Definition rows_of (w : world) (file key : string) : list row :=
  rows_in (database_of w file) key.

Definition rows_unchanged (w w' : world) : Prop :=
  forall file key, rows_of w' file key = rows_of w file key.

Definition one_row_appended (w w' : world) : Prop :=
  exists file key r,
    rows_of w' file key = rows_of w file key ++ [r]
    /\ forall file' key',
         (file', key') <> (file, key) -> rows_of w' file' key' = rows_of w file' key'.

(** A table, a database and a store all of whose columns carry no
    constraint. *)
Definition plain_table (t : Sqlite.table) : Prop :=
  forallb Sqlite.plain (Sqlite.tbl_columns t) = true.

Definition plain_database (db : gmap string Sqlite.table) : Prop :=
  forall key t, db !! key = Some t -> plain_table t.

Definition plain_store (w : world) : Prop :=
  forall file db, files w !! file = Some db -> plain_database db.

(** The states the program's operations reach from an empty store, with
    any arguments but column definitions that carry a constraint (the
    program's own carry none). *)
Inductive reachable : world -> Prop :=
| reachable_start lines : reachable (start lines)
| reachable_create_table w db_name table_name columns :
    reachable w ->
    forallb Sqlite.plain columns = true ->
    reachable (final (create_table db_name table_name columns w))
| reachable_insert_into_table w db_name table_name values :
    reachable w ->
    reachable (final (insert_into_table db_name table_name values w))
| reachable_entry_already_exists w table kwargs :
    reachable w ->
    reachable (final (entry_already_exists table kwargs w))
| reachable_view_table w table_name :
    reachable w ->
    reachable (final (view_table table_name w))
| reachable_drink w table :
    reachable w ->
    reachable (final (ask_and_insert_entry table Drink.create w))
| reachable_ingredient w table :
    reachable w ->
    reachable (final (ask_and_insert_entry table Ingredient.create w)).

(** Calls that leave the files alone. *)
Definition reads_only {A : Type} (m : M A) : Prop :=
  forall w, files (final (m w)) = files w.

End Vocabulary.

(** The number a run of decimal digits stands for, most significant
    digit first, after the digits already read. *)
Fixpoint uint_value (acc : Z) (d : Decimal.uint) : Z :=
  match d with
  | Decimal.Nil => acc
  | Decimal.D0 d => uint_value (10 * acc) d
  | Decimal.D1 d => uint_value (10 * acc + 1) d
  | Decimal.D2 d => uint_value (10 * acc + 2) d
  | Decimal.D3 d => uint_value (10 * acc + 3) d
  | Decimal.D4 d => uint_value (10 * acc + 4) d
  | Decimal.D5 d => uint_value (10 * acc + 5) d
  | Decimal.D6 d => uint_value (10 * acc + 6) d
  | Decimal.D7 d => uint_value (10 * acc + 7) d
  | Decimal.D8 d => uint_value (10 * acc + 8) d
  | Decimal.D9 d => uint_value (10 * acc + 9) d
  end.

(** How many decimal digits an integer has. *)
Definition digits_of (z : Z) : nat := String.length (Text.of_Z (Z.abs z)).

Section MoreVocabulary.
Context `{Float}.

Definition float_complaint : string := "<<< Please enter numbers only >>>".

(** The world a reader leaves when the input ran out: every line taken,
    a prompt and a complaint shown for each, and the prompt once more. *)
Definition exhausted (display_string complaint : string) (w : world) : world :=
  World (files w) (conns w) (trace w) []
    (stdout w ++ rejections display_string complaint (stdin w) ++ [display_string]).

Definition is_text (v : value) : Prop :=
  match v with VText _ => True | _ => False end.

(** What [Drink.create] and [Ingredient.create] show before the record
    is complete; the ABV prompt comes after those of the ingredient. *)
Definition drink_prompts : list string :=
  ["Enter drink name, e.g. Negroni, Gin & Tonic, Sangria: ";
   "If you wish, enter a description here: ";
   "How is the drink is prepared, e.g. Shaken, Stirred: ";
   "If appropriate, enter a garnish here: "]%string.

Definition ingredient_prompts : list string :=
  ["Enter the category, e.g. Beer, Wine, Spirit: ";
   "Enter the type of ingredient, e.g. Ale, White wine, Whiskey: ";
   "Enter product name, e.g. Neck Oil, Gran Reserva, Green Label: ";
   "Enter the brand name, e.g. Beavertown, Luis Felipe Edwards, Johnny Walker: ";
   "If you wish, enter a description here: ";
   "What units is the ingredient measured in, e.g. ml, dashes? "]%string.

Definition abv_prompt : string := "Enter the ABV: ".

End MoreVocabulary.

(** ** Worlds to run the examples in *)

(** The name Jose with an acute accent on its last letter U+00E9, in UTF-8. *)
Definition jose : string :=
  String "J" (String "o" (String "s" (String "195" (String "169" "")))).

(** The Drinks table just created, and three lines to read. *)
Definition empty_cellar : world :=
  final (create_table DB "Drinks" drinks_columns
           (start ["Negroni"; "Classic"; "Stirred"; "Orange peel"]%string)).

Definition negroni : row :=
  [VInt 3; VText "Negroni"; VText "Classic"; VText "Stirred"; VText "Orange peel"].

(** One drink stored, with the identifier 3. *)
Definition cellar : world := final (insert_into_table DB "Drinks" negroni empty_cellar).

Definition drinks_with (rows : list row) : Sqlite.table :=
  Sqlite.Table "Drinks" drinks_columns rows.

Definition water : row := [VNull; VText "Water"; VText ""; VText ""; VText ""].

(** One drink stored without an identifier. *)
Definition unnamed_cellar : world := final (insert_into_table DB "Drinks" water empty_cellar).

(** A record with an integer where the name goes. *)
Definition numbered : row := [VInt 1; VInt 7; VText ""; VText "Stirred"; VText ""].

(** The Ingredients table just created, and the given lines to read. *)
Definition pantry (lines : list string) : world :=
  final (create_table DB "Ingredients" ingredients_columns (start lines)).

Definition ingredients_with (rows : list row) : Sqlite.table :=
  Sqlite.Table "Ingredients" ingredients_columns rows.

(** 43.1 as a double. *)
Definition abv_43_1 : real := S754_finite false 6065785748114637 (-47).

Definition gin : list string := ["Spirit"; "Gin"; "Dry"; "Tanqueray"; ""; "ml"]%string.

Definition last_drink : row :=
  [VInt Sqlite.int64_max; VText "Last"; VText ""; VText ""; VText ""].

(** The Drinks table with the largest identifier there is taken. *)
Definition full_cellar : world :=
  final (insert_into_table DB "Drinks" last_drink empty_cellar).

(** A table whose identifiers are text, with one row, stored with the
    integer 3 for its identifier. *)
Definition notes : world :=
  final (insert_into_table DB "Notes" [VInt 3; VText "first"]
           (final (create_table DB "Notes"
                     [Sqlite.Column "id" "TEXT"; Sqlite.Column "body" "TEXT"]
                     (start [])))).

Definition answers : list string :=
  ["Negroni"; "Classic"; "Stirred"; "Orange peel";
   "Spirit"; "Gin"; "Dry"; "Tanqueray"; ""; "ml"; "43.1"]%string.

(** The two rows a first run on [answers] stores. *)
Definition negroni_1 : row :=
  [VInt 1; VText "Negroni"; VText "Classic"; VText "Stirred"; VText "Orange peel"].

Definition gin_1 : row :=
  [VInt 1; VText "Spirit"; VText "Gin"; VText "Dry"; VText "Tanqueray"; VText "";
   VText "ml"; VReal abv_43_1].

(** The world a first run on [answers] leaves, with the answers for a
    second run waiting. *)
Definition second_evening : world :=
  World {[ DB := {[ "drinks"%string := drinks_with [negroni_1];
                    "ingredients"%string := ingredients_with [gin_1];
                    "drinkrecipes"%string :=
                      Sqlite.Table "DrinkRecipes" drink_recipes_columns [] ]} ]}
    ∅ [] answers [].

(** * Properties *)

Section Properties.
Context `{Float}.

#[local] Arguments Sqlite.sql_text : simpl never.
#[local] Arguments Sqlite.find_table : simpl never.
#[local] Arguments Sqlite.find_columns : simpl never.
#[local] Arguments Sqlite.find_column : simpl never.
#[local] Arguments Sqlite.bind_all : simpl never.
#[local] Arguments Sqlite.count_matching : simpl never.
#[local] Arguments Sqlite.sql_max : simpl never.

Lemma ask_until_first {A : Type} (parse : string -> option A) complaint display_string
    pre line a post w :
  Forall (fun s => parse s = None) pre ->
  parse line = Some a ->
  ask_until parse complaint display_string (pre ++ line :: post) w =
  Ok a (World (files w) (conns w) (trace w) post
          (stdout w ++ rejections display_string complaint pre ++ [display_string])).
Proof.
  intros Hpre Hline. revert w.
  induction Hpre as [|s pre Hs Hpre IH]; intros w; simpl.
  - rewrite Hline. reflexivity.
  - rewrite Hs, IH. simpl. do 2 f_equal.
    rewrite <- !app_assoc. reflexivity.
Qed.

Lemma ask_until_returns {A : Type} (parse : string -> option A) complaint display_string
    lines w a w' :
  ask_until parse complaint display_string lines w = Ok a w' ->
  exists line, In line lines /\ parse line = Some a.
Proof.
  revert w. induction lines as [|l lines IH]; intros w; simpl; [discriminate|].
  destruct (parse l) as [b|] eqn:Hl.
  - intros [= <- <-]. exists l. auto.
  - intros Hrun. destruct (IH _ Hrun) as (line & Hin & Hp). exists line. auto.
Qed.

Lemma code_points_nil s : Text.code_points s = [] <-> s = ""%string.
Proof.
  split; [|intros ->; reflexivity].
  destruct s as [|c s]; [reflexivity|].
  unfold Text.code_points, Text.chars. simpl.
  destruct (Text.sequence _ _) as [[x n]|]; discriminate.
Qed.

Lemma isalpha_letters s :
  Text.isalpha s = true <->
  s <> ""%string /\ Forall (fun c => Unicode.is_alpha c = true) (Text.code_points s).
Proof.
  unfold Text.isalpha. destruct (Text.code_points s) as [|c l] eqn:Hs.
  - apply code_points_nil in Hs. subst s.
    split; [discriminate | intros [Hne _]; congruence].
  - assert (Hne : s <> ""%string).
    { intros ->. discriminate. }
    rewrite forallb_forall, List.Forall_forall. tauto.
Qed.

Lemma isalpha_rejects s c :
  In c (Text.code_points s) -> Unicode.is_alpha c = false -> Text.isalpha s = false.
Proof.
  intros Hin Hc. destruct (Text.isalpha s) eqn:Ha; [|reflexivity].
  apply isalpha_letters in Ha as [_ Hall].
  rewrite List.Forall_forall in Hall. rewrite (Hall _ Hin) in Hc. discriminate.
Qed.

(** C6: on the lines "abc", "12.5", "7" the integer reader complains
    about the first two, prompting again each time, and returns 7; on any
    input it returns the value of the first line that [int()] accepts,
    after a prompt and a complaint for every line before it. *)
Theorem get_int_first_integer display_string w :
  (forall rest,
     stdin w = "abc" :: "12.5" :: "7" :: rest ->
     get_int display_string w =
     Ok 7 (World (files w) (conns w) (trace w) rest
             (stdout w ++ [display_string; int_complaint +:+ newline;
                           display_string; int_complaint +:+ newline;
                           display_string])))
  /\
  (forall pre line n post,
     stdin w = pre ++ line :: post ->
     Forall (fun s => Text.py_int s = None) pre ->
     Text.py_int line = Some n ->
     get_int display_string w =
     Ok n (World (files w) (conns w) (trace w) post
             (stdout w ++ rejections display_string int_complaint pre
                ++ [display_string]))).
Proof.
  assert (General : forall pre line n post,
            stdin w = pre ++ line :: post ->
            Forall (fun s => Text.py_int s = None) pre ->
            Text.py_int line = Some n ->
            get_int display_string w =
            Ok n (World (files w) (conns w) (trace w) post
                    (stdout w ++ rejections display_string int_complaint pre
                       ++ [display_string]))).
  { intros pre line n post Hin Hpre Hline. unfold get_int. rewrite Hin.
    apply ask_until_first; assumption. }
  split; [|exact General].
  intros rest Hin.
  apply (General ["abc"; "12.5"]%string "7"%string 7 rest Hin).
  - repeat constructor.
  - reflexivity.
Qed.

(** C7: the alphabetic reader complains about every line that holds a
    character other than a letter (a digit, a space, punctuation) and
    prompts again, and returns the first line made of letters only; on
    "John3", "Ann Smith", "John" it returns "John".  Letters are the
    letters of Unicode, which is what [str.isalpha()] goes by. *)
Theorem get_str_first_alphabetic display_string w :
  (forall rest,
     stdin w = "John3" :: "Ann Smith" :: "John" :: rest ->
     get_str display_string w =
     Ok "John"%string
        (World (files w) (conns w) (trace w) rest
           (stdout w ++ [display_string; str_complaint +:+ newline;
                         display_string; str_complaint +:+ newline;
                         display_string])))
  /\
  (forall pre line post,
     stdin w = pre ++ line :: post ->
     Forall (fun s => exists c, In c (Text.code_points s)
                                /\ Unicode.is_alpha c = false) pre ->
     line <> ""%string ->
     Forall (fun c => Unicode.is_alpha c = true) (Text.code_points line) ->
     get_str display_string w =
     Ok line (World (files w) (conns w) (trace w) post
                (stdout w ++ rejections display_string str_complaint pre
                   ++ [display_string]))).
Proof.
  assert (General : forall pre line post,
            stdin w = pre ++ line :: post ->
            Forall (fun s => Text.isalpha s = false) pre ->
            Text.isalpha line = true ->
            get_str display_string w =
            Ok line (World (files w) (conns w) (trace w) post
                       (stdout w ++ rejections display_string str_complaint pre
                          ++ [display_string]))).
  { intros pre line post Hin Hpre Hline. unfold get_str. rewrite Hin.
    apply ask_until_first.
    - eapply Forall_impl; [exact Hpre|]. intros s Hs. simpl in Hs. rewrite Hs. reflexivity.
    - rewrite Hline. reflexivity. }
  split.
  - intros rest Hin.
    apply (General ["John3"; "Ann Smith"]%string "John"%string rest Hin).
    + repeat constructor.
    + reflexivity.
  - intros pre line post Hin Hpre Hne Hall.
    apply General; [exact Hin | | apply isalpha_letters; auto].
    eapply Forall_impl; [exact Hpre|].
    intros s (c & Hc & Hl). simpl. eapply isalpha_rejects; eauto.
Qed.

(** C10: the alphabetic reader never returns the empty string.  An empty
    line gets the complaint and a new prompt, like a line with a digit in
    it; whatever the reader returns is not empty and holds letters only. *)
Theorem get_str_never_empty display_string w :
  (forall rest,
     stdin w = ""%string :: rest ->
     get_str display_string w =
     get_str display_string
       (World (files w) (conns w) (trace w) rest
          (stdout w ++ [display_string; str_complaint +:+ newline])))
  /\
  (forall s w',
     get_str display_string w = Ok s w' ->
     s <> ""%string
     /\ Forall (fun c => Unicode.is_alpha c = true) (Text.code_points s)).
Proof.
  split.
  - intros rest Hin. unfold get_str. rewrite Hin. simpl.
    f_equal. unfold write, set_stdin; simpl. rewrite <- app_assoc. reflexivity.
  - intros s w' Hrun. unfold get_str in Hrun.
    apply ask_until_returns in Hrun as (line & _ & Hp).
    destruct (Text.isalpha line) eqn:Ha; [|discriminate].
    injection Hp as <-. apply isalpha_letters. exact Ha.
Qed.

Lemma handle_free w : conns w !! handle w = None.
Proof. unfold handle. apply not_elem_of_dom. apply (is_fresh (dom (conns w))). Qed.

Lemma world_eq f c t i o f' c' t' i' o' :
  f = f' -> c = c' -> t = t' -> i = i' -> o = o' -> World f c t i o = World f' c' t' i' o'.
Proof. congruence. Qed.

Lemma conns_restored w c1 c2 c3 :
  delete (handle w) (<[handle w := c3]> (<[handle w := c2]> (<[handle w := c1]> (conns w))))
  = conns w.
Proof. rewrite !insert_insert_eq. apply delete_insert_id, handle_free. Qed.

Lemma conns_restored1 w c1 :
  delete (handle w) (<[handle w := c1]> (conns w)) = conns w.
Proof. apply delete_insert_id, handle_free. Qed.

Ltac open_access w :=
  unfold bind, connect, execute, commit, close; simpl;
  fold (handle w); rewrite ?lookup_insert_eq; unfold view; simpl;
  unfold database_of; simpl.

Ltac world_norm w :=
  unfold accessed, abandoned, log, set_conns, set_files, set_stdin, write; simpl;
  apply world_eq; simpl;
  rewrite <- ?app_assoc, ?insert_insert_eq, ?(conns_restored1 w); reflexivity.

Ltac same_world w := f_equal; world_norm w.

Lemma create_table_spec db_name table_name columns w :
  create_table db_name table_name columns w =
  match run_statement (Sqlite.CreateTableIfNotExists table_name columns) []
          (database_of w db_name) with
  | inl e => Raise e (abandoned db_name (Sqlite.CreateTableIfNotExists table_name columns) w)
  | inr (db, _) =>
      Ok tt (accessed db_name (Sqlite.CreateTableIfNotExists table_name columns) true
               (<[db_name := db]> (files w)) w)
  end.
Proof.
  unfold create_table. open_access w. fold (database_of w db_name).
  destruct (run_statement _ _ _) as [e|[db cur]]; simpl; [same_world w|].
  rewrite lookup_insert_eq. simpl. same_world w.
Qed.

Lemma insert_into_table_spec db_name table_name values w :
  insert_into_table db_name table_name values w =
  match run_statement (Sqlite.InsertValues table_name (length values)) values
          (database_of w db_name) with
  | inl e => Raise e (abandoned db_name (Sqlite.InsertValues table_name (length values)) w)
  | inr (db, _) =>
      Ok tt (accessed db_name (Sqlite.InsertValues table_name (length values)) true
               (<[db_name := db]> (files w)) w)
  end.
Proof.
  unfold insert_into_table. open_access w. fold (database_of w db_name).
  destruct (run_statement _ _ _) as [e|[db cur]]; simpl; [same_world w|].
  rewrite !lookup_insert_eq. simpl. same_world w.
Qed.

(** *** What the three reading statements return *)

Lemma run_select_all name db :
  run_statement (Sqlite.SelectAll name) [] db =
  match Sqlite.find_table db name with
  | inl e => inl (OperationalError e)
  | inr t => inr (db, Sqlite.Cursor (map Sqlite.col_name (Sqlite.tbl_columns t))
                        (Sqlite.tbl_rows t))
  end.
Proof.
  unfold run_statement. simpl. destruct (Sqlite.find_table db name); reflexivity.
Qed.

Lemma run_select_max col name db :
  run_statement (Sqlite.SelectMax col name) [] db =
  match Sqlite.find_table db name with
  | inl e => inl (OperationalError e)
  | inr t =>
      match Sqlite.find_column (Sqlite.tbl_columns t) col with
      | None => inl (OperationalError (Sqlite.NoSuchColumn col))
      | Some i =>
          inr (db, Sqlite.Cursor ["MAX(" +:+ col +:+ ")"]
                     [[Sqlite.sql_max (map (fun r => Sqlite.cell r i) (Sqlite.tbl_rows t))]])
      end
  end.
Proof.
  unfold run_statement. simpl. destruct (Sqlite.find_table db name) as [e|t]; [reflexivity|].
  destruct (Sqlite.find_column _ _); reflexivity.
Qed.

Lemma run_select_count name keys params db :
  run_statement (Sqlite.SelectCountWhere name keys) params db =
  match keys with
  | [] => inl (OperationalError Sqlite.SyntaxError)
  | _ =>
      match Sqlite.find_table db name with
      | inl e => inl (OperationalError e)
      | inr t =>
          match Sqlite.find_columns (Sqlite.tbl_columns t) keys with
          | inl e => inl (OperationalError e)
          | inr cols =>
              if decide (length params = length keys) then
                match Sqlite.bind_all params with
                | None => inl OverflowError
                | Some bound =>
                    inr (db, Sqlite.Cursor ["COUNT(*)"%string]
                               [[VInt (Sqlite.count_matching t cols bound)]])
                end
              else inl ProgrammingError
          end
      end
  end.
Proof.
  unfold run_statement. simpl. destruct keys as [|k keys]; [reflexivity|].
  destruct (Sqlite.find_table db name) as [e|t]; [reflexivity|].
  destruct (Sqlite.find_columns _ _) as [e|cols]; [reflexivity|].
  simpl. destruct (decide _); [|reflexivity].
  destruct (Sqlite.bind_all params); reflexivity.
Qed.

Lemma entry_already_exists_spec table kwargs w :
  entry_already_exists table kwargs w =
  match run_statement (Sqlite.SelectCountWhere table (map fst kwargs)) (map snd kwargs)
          (database_of w DB) with
  | inl e => Raise e (abandoned DB (Sqlite.SelectCountWhere table (map fst kwargs)) w)
  | inr (_, cur) =>
      match Sqlite.cur_rows cur with
      | [[VInt n]] =>
          Ok (0 <? n) (accessed DB (Sqlite.SelectCountWhere table (map fst kwargs)) false
                         (files w) w)
      | _ => Raise TypeError w
      end
  end.
Proof.
  unfold entry_already_exists. open_access w. fold (database_of w DB).
  rewrite run_select_count.
  destruct (map fst kwargs) as [|k keys] eqn:Hkeys; simpl; [same_world w|].
  destruct (Sqlite.find_table _ _) as [e|t]; simpl; [same_world w|].
  destruct (Sqlite.find_columns _ _) as [e|cols]; simpl; [same_world w|].
  destruct (decide _); simpl; [|same_world w].
  destruct (Sqlite.bind_all _); simpl; [|same_world w].
  same_world w.
Qed.

Lemma print_spec s w : print s w = Ok tt (write (s +:+ newline) w).
Proof. reflexivity. Qed.

Lemma for_each_print {A : Type} (l : list A) (line : A -> string) w :
  for_each l (fun a => print (line a)) w =
  Ok tt (World (files w) (conns w) (trace w) (stdin w)
           (stdout w ++ map (fun a => line a +:+ newline) l)).
Proof.
  revert w. induction l as [|a l IH]; intros w; simpl.
  - unfold ret. rewrite app_nil_r. destruct w; reflexivity.
  - unfold bind, print. simpl. rewrite IH. simpl.
    rewrite <- app_assoc. reflexivity.
Qed.

Lemma view_table_spec table_name w :
  view_table table_name w =
  match Sqlite.find_table (database_of w DB) table_name with
  | inl e => Raise (OperationalError e) (abandoned DB (Sqlite.SelectAll table_name) w)
  | inr t =>
      Ok tt (write_all (table_lines t)
               (accessed DB (Sqlite.SelectAll table_name) false (files w) w))
  end.
Proof.
  unfold view_table. open_access w. fold (database_of w DB).
  rewrite run_select_all.
  destruct (Sqlite.find_table _ _) as [e|t]; simpl; [same_world w|].
  idtac.
  rewrite (for_each_print (A:=row) _ (fun r : row => Text.join tab (map py_str r))). simpl.
  unfold write_all, table_lines. same_world w.
Qed.

Lemma next_id_spec max_id w :
  next_id max_id w =
  match max_id with
  | VNull => Ok (VInt 1) w
  | VInt n => Ok (VInt (n + 1)) w
  | VReal r => Ok (VReal (real_succ r)) w
  | VText _ => Raise TypeError w
  end.
Proof. destruct max_id; reflexivity. Qed.

Lemma new_id_spec table w :
  new_id table w =
  match Sqlite.find_table (database_of w DB) table with
  | inl e => Raise (OperationalError e) (abandoned DB (Sqlite.SelectMax "id" table) w)
  | inr t =>
      match Sqlite.find_column (Sqlite.tbl_columns t) "id" with
      | None => Raise (OperationalError (Sqlite.NoSuchColumn "id"))
                  (abandoned DB (Sqlite.SelectMax "id" table) w)
      | Some i =>
          next_id (Sqlite.sql_max (map (fun r => Sqlite.cell r i) (Sqlite.tbl_rows t)))
            (accessed DB (Sqlite.SelectMax "id" table) false (files w) w)
      end
  end.
Proof.
  unfold new_id. open_access w. fold (database_of w DB).
  rewrite run_select_max.
  destruct (Sqlite.find_table _ _) as [e|t]; simpl; [same_world w|].
  destruct (Sqlite.find_column _ _) as [i|]; simpl; [|same_world w].
  f_equal. world_norm w.
Qed.

(** C8, as the code has it: every access to the store opens a new
    connection, runs one statement, commits if it writes, and closes the
    connection when the statement went through.  When the statement
    raises, the exception leaves the function at once: [close] is not
    called and the connection stays open. *)
Theorem access_closes_unless_statement_raises w :
  (forall db_name table_name columns,
     one_access db_name (Sqlite.CreateTableIfNotExists table_name columns) [] true w
       (create_table db_name table_name columns w))
  /\ (forall db_name table_name values,
        one_access db_name (Sqlite.InsertValues table_name (length values)) values true w
          (insert_into_table db_name table_name values w))
  /\ (forall table kwargs,
        one_access DB (Sqlite.SelectCountWhere table (map fst kwargs)) (map snd kwargs)
          false w (entry_already_exists table kwargs w))
  /\ (forall table_name,
        one_access DB (Sqlite.SelectAll table_name) [] false w (view_table table_name w))
  /\ (forall table,
        one_access DB (Sqlite.SelectMax "id" table) [] false w (new_id table w)).
Proof.
  unfold one_access. split; [|split; [|split; [|split]]]; intros.
  - rewrite create_table_spec.
    destruct (run_statement _ _ _) as [e|[db cur]]; simpl; auto.
  - rewrite insert_into_table_spec.
    destruct (run_statement _ _ _) as [e|[db cur]]; simpl; auto.
  - rewrite entry_already_exists_spec, run_select_count.
    destruct (map fst kwargs); [reflexivity|].
    destruct (Sqlite.find_table _ _); [reflexivity|].
    destruct (Sqlite.find_columns _ _); [reflexivity|].
    destruct (decide _); [|reflexivity].
    destruct (Sqlite.bind_all _); simpl; auto.
  - rewrite view_table_spec, run_select_all.
    destruct (Sqlite.find_table _ _); simpl; auto.
  - rewrite new_id_spec, run_select_max.
    destruct (Sqlite.find_table _ _) as [e|t]; [reflexivity|].
    destruct (Sqlite.find_column _ _); [|reflexivity].
    rewrite next_id_spec. destruct (Sqlite.sql_max _); simpl; auto.
Qed.


Lemma count_positive {A : Type} (P : A -> bool) (l : list A) :
  (0 <? Z.of_nat (length (List.filter P l))) = existsb P l.
Proof.
  induction l as [|a l IH]; simpl; [reflexivity|].
  destruct (P a); simpl; [|exact IH].
  apply Z.ltb_lt. lia.
Qed.

Lemma filter_stdpp {A : Type} (P : A -> bool) (l : list A) :
  filter (fun a => P a = true) l = List.filter P l.
Proof.
  induction l as [|a l IH]; [reflexivity|].
  rewrite filter_cons. simpl.
  destruct (decide (P a = true)) as [Ha|Ha].
  - rewrite Ha. f_equal. exact IH.
  - destruct (P a); [congruence | exact IH].
Qed.

Lemma count_matching_positive t cols params :
  (0 <? Sqlite.count_matching t cols params)
  = existsb (fun r => Sqlite.row_matches t r cols params) (Sqlite.tbl_rows t).
Proof.
  unfold Sqlite.count_matching. rewrite filter_stdpp. apply count_positive.
Qed.

Lemma find_columns_cons cols key keys l :
  Sqlite.find_columns cols (key :: keys) = inr l ->
  exists i l', l = i :: l' /\ Sqlite.find_column cols key = Some i
               /\ Sqlite.find_columns cols keys = inr l'.
Proof.
  unfold Sqlite.find_columns; fold Sqlite.find_columns.
  destruct (Sqlite.find_column cols key) as [i|]; [|discriminate].
  destruct (Sqlite.find_columns cols keys) as [e|l']; [discriminate|].
  intros [= <-]. eauto.
Qed.

Lemma bind_all_cons v vs l :
  Sqlite.bind_all (v :: vs) = Some l ->
  exists b l', l = b :: l' /\ Sqlite.bind_value v = Some b /\ Sqlite.bind_all vs = Some l'.
Proof.
  unfold Sqlite.bind_all; fold Sqlite.bind_all.
  destruct (Sqlite.bind_value v) as [b|]; [|discriminate].
  destruct (Sqlite.bind_all vs) as [l'|]; [|discriminate].
  intros [= <-]. eauto.
Qed.

Lemma row_matches_meets t r kwargs cols bound :
  Sqlite.find_columns (Sqlite.tbl_columns t) (map fst kwargs) = inr cols ->
  Sqlite.bind_all (map snd kwargs) = Some bound ->
  Sqlite.row_matches t r cols bound = true <-> Forall (meets t r) kwargs.
Proof.
  revert cols bound. induction kwargs as [|[key value] kwargs IH]; intros cols bound Hc Hb.
  - injection Hc as <-. split; [constructor | reflexivity].
  - simpl in Hc, Hb.
    apply find_columns_cons in Hc as (i & cols' & -> & Hi & Hc).
    apply bind_all_cons in Hb as (b & bound' & -> & Hbv & Hb).
    simpl. rewrite andb_true_iff, (IH _ _ Hc Hb). split.
    + intros [Hterm Hrest]. constructor; [|exact Hrest].
      exists i, b. auto.
    + intros Hall. inversion Hall as [|? ? (i' & b' & Hi' & Hb' & Hterm) Hrest]; subst.
      simpl in Hi', Hb'. rewrite Hi in Hi'. rewrite Hbv in Hb'.
      injection Hi' as <-. injection Hb' as <-. auto.
Qed.

(** On a column that is not TEXT, an integer is compared as it is, and
    SQLite's [=] agrees with Python's [==]. *)
Lemma integer_term t r i n :
  Sqlite.column_affinity t i <> Sqlite.AffText ->
  Sqlite.term_holds t r i (VInt n) = py_eq (Sqlite.cell r i) (VInt n).
Proof.
  intros Haff. unfold Sqlite.term_holds.
  assert (Sqlite.comparison_operand (Sqlite.column_affinity t i) (VInt n) = VInt n) as ->.
  { destruct (Sqlite.column_affinity t i); try reflexivity. congruence. }
  destruct (Sqlite.cell r i) as [|m|x|s]; simpl; try reflexivity.
  - destruct (Z.compare_spec m n) as [->|Hlt|Hgt].
    + symmetry. apply Z.eqb_refl.
    + symmetry. apply Z.eqb_neq. lia.
    + symmetry. apply Z.eqb_neq. lia.
  - destruct (int_vs_real n x); reflexivity.
Qed.

Lemma existsb_same {A : Type} (f g : A -> bool) (l : list A) :
  (forall a, f a = g a) -> existsb f l = existsb g l.
Proof.
  intros Hfg. induction l as [|a l IH]; simpl; [reflexivity|].
  rewrite Hfg, IH. reflexivity.
Qed.

Lemma find_columns_total cols (kwargs : list (string * value)) :
  (forall c, In c kwargs -> is_Some (Sqlite.find_column cols (fst c))) ->
  exists l, Sqlite.find_columns cols (map fst kwargs) = inr l.
Proof.
  induction kwargs as [|c kwargs IH]; intros Hall; [exists []; reflexivity|].
  destruct (Hall c (or_introl eq_refl)) as [i Hi].
  destruct IH as [l Hl]; [intros; apply Hall; right; assumption|].
  exists (i :: l). simpl. unfold Sqlite.find_columns; fold Sqlite.find_columns.
  rewrite Hi, Hl. reflexivity.
Qed.

Lemma bind_all_total (kwargs : list (string * value)) :
  (forall c, In c kwargs -> is_Some (Sqlite.bind_value (snd c))) ->
  exists l, Sqlite.bind_all (map snd kwargs) = Some l.
Proof.
  induction kwargs as [|c kwargs IH]; intros Hall; [exists []; reflexivity|].
  destruct (Hall c (or_introl eq_refl)) as [b Hb].
  destruct IH as [l Hl]; [intros; apply Hall; right; assumption|].
  exists (b :: l). simpl. unfold Sqlite.bind_all; fold Sqlite.bind_all.
  rewrite Hb, Hl. reflexivity.
Qed.

Lemma entry_already_exists_counts table kwargs w t cols bound :
  kwargs <> [] ->
  Sqlite.find_table (database_of w DB) table = inr t ->
  Sqlite.find_columns (Sqlite.tbl_columns t) (map fst kwargs) = inr cols ->
  Sqlite.bind_all (map snd kwargs) = Some bound ->
  entry_already_exists table kwargs w =
  Ok (existsb (fun r => Sqlite.row_matches t r cols bound) (Sqlite.tbl_rows t))
     (accessed DB (Sqlite.SelectCountWhere table (map fst kwargs)) false (files w) w).
Proof.
  intros Hne Ht Hc Hb.
  rewrite entry_already_exists_spec, run_select_count, Ht, Hc, Hb.
  rewrite decide_True by (rewrite !length_map; reflexivity).
  destruct kwargs as [|c kwargs]; [congruence|].
  simpl. rewrite count_matching_positive. reflexivity.
Qed.

(** X20: what [entry_already_exists] answers.  On a table whose columns
    carry no constraint, for keywords that are columns of the table (at
    least one) and values that can be bound, it returns true exactly
    when some stored row meets every constraint at once, equality being
    SQLite's [=] (nothing equals NULL, and the expected value is first
    brought to the column's affinity).  With the single constraint
    [id = n], [n] an integer and [id] not a TEXT column, it returns true
    exactly when some stored row has an identifier equal to [n], whatever
    its other cells hold. *)
Theorem entry_already_exists_iff table kwargs w t :
  kwargs <> [] ->
  Sqlite.find_table (database_of w DB) table = inr t ->
  plain_table t ->
  (forall c, In c kwargs -> is_Some (Sqlite.find_column (Sqlite.tbl_columns t) (fst c))) ->
  (forall c, In c kwargs -> is_Some (Sqlite.bind_value (snd c))) ->
  exists found,
    entry_already_exists table kwargs w =
      Ok found (accessed DB (Sqlite.SelectCountWhere table (map fst kwargs)) false
                  (files w) w)
    /\ (found = true <->
        exists r, In r (Sqlite.tbl_rows t) /\ Forall (meets t r) kwargs)
    /\ (forall n i,
          kwargs = [("id"%string, VInt n)] ->
          Sqlite.find_column (Sqlite.tbl_columns t) "id" = Some i ->
          Sqlite.column_affinity t i <> Sqlite.AffText ->
          (found = true <->
           exists r, In r (Sqlite.tbl_rows t) /\ py_eq (Sqlite.cell r i) (VInt n) = true)).
Proof.
  intros Hne Ht _ Hcols Hbind.
  destruct (find_columns_total _ _ Hcols) as [cols Hc].
  destruct (bind_all_total _ Hbind) as [bound Hb].
  eexists. split; [apply (entry_already_exists_counts _ _ _ _ _ _ Hne Ht Hc Hb)|].
  rewrite existsb_exists. split.
  - split; intros (r & Hr & Hm); exists r; (split; [exact Hr|]);
      apply (row_matches_meets t r kwargs cols bound Hc Hb); exact Hm.
  - intros n i -> Hi Haff.
    simpl in Hc, Hb. unfold Sqlite.find_columns in Hc. rewrite Hi in Hc.
    injection Hc as <-.
    unfold Sqlite.bind_all in Hb. simpl in Hb.
    destruct (Sqlite.in_int64 n); [|discriminate]. injection Hb as <-.
    rewrite existsb_exists. split; intros (r & Hr & Hm); exists r; (split; [exact Hr|]).
    + simpl in Hm. rewrite andb_true_r in Hm.
      rewrite <- (integer_term t r i n Haff). exact Hm.
    + simpl. rewrite andb_true_r, (integer_term t r i n Haff). exact Hm.
Qed.

(** C1: when the builder hands over a record whose identifier is a 64-bit
    integer, and the table has an [id] column that is not TEXT,
    [ask_and_insert_entry] looks at identifiers alone.  If a stored row
    has an identifier equal to the candidate's, it prints the message and
    returns: the files are as the builder left them, no row added or
    changed.  If no stored row has, it passes the whole record to
    [insert_into_table]. *)
Theorem ask_and_insert_entry_by_identifier table entry_class w n rest w1 t i :
  entry_class w = Ok (VInt n :: rest) w1 ->
  Sqlite.in_int64 n = true ->
  Sqlite.find_table (database_of w1 DB) table = inr t ->
  Sqlite.find_column (Sqlite.tbl_columns t) "id" = Some i ->
  Sqlite.column_affinity t i <> Sqlite.AffText ->
  ask_and_insert_entry table entry_class w =
  if existsb (fun r => py_eq (Sqlite.cell r i) (VInt n)) (Sqlite.tbl_rows t)
  then Ok tt (write (duplicate_message table +:+ newline)
                (accessed DB (Sqlite.SelectCountWhere table ["id"%string]) false
                   (files w1) w1))
  else insert_into_table DB table (VInt n :: rest)
         (accessed DB (Sqlite.SelectCountWhere table ["id"%string]) false
            (files w1) w1).
Proof.
  intros Hbuild Hn Ht Hi Haff.
  unfold ask_and_insert_entry, bind at 1. rewrite Hbuild.
  unfold bind at 1. unfold ret at 1.
  unfold bind at 1.
  rewrite (entry_already_exists_counts table [("id"%string, VInt n)] w1 t [i] [VInt n]);
    try assumption; try discriminate.
  - assert (Hsame : forall r, Sqlite.row_matches t r [i] [VInt n]
                              = py_eq (Sqlite.cell r i) (VInt n)).
    { intros r. simpl. rewrite andb_true_r. apply integer_term, Haff. }
    rewrite (existsb_same _ _ _ Hsame).
    destruct (existsb _ _); reflexivity.
  - simpl. unfold Sqlite.find_columns. rewrite Hi. reflexivity.
  - simpl. unfold Sqlite.bind_all. simpl. rewrite Hn. reflexivity.
Qed.

Lemma fold_max_ints l a :
  fold_left Sqlite.max_step (map VInt l) (VInt a) = VInt (fold_left Z.max l a).
Proof.
  revert a. induction l as [|x l IH]; intros a; simpl; [reflexivity|].
  rewrite <- IH. f_equal. unfold Z.max. destruct (a ?= x); reflexivity.
Qed.

Lemma fold_max_bounds l a :
  a <= fold_left Z.max l a
  /\ Forall (fun x => x <= fold_left Z.max l a) l
  /\ In (fold_left Z.max l a) (a :: l).
Proof.
  revert a. induction l as [|x l IH]; intros a; simpl.
  - split; [lia|]. split; [constructor | left; reflexivity].
  - destruct (IH (Z.max a x)) as (Hge & Hall & Hin). split; [lia|]. split.
    + constructor; [lia | exact Hall].
    + destruct Hin as [Hin|Hin]; [|right; right; exact Hin].
      rewrite <- Hin. destruct (Z.max_spec a x) as [[_ ->]|[_ ->]]; auto.
Qed.

Lemma sql_max_ints ids m :
  In m ids -> Forall (fun x => x <= m) ids -> Sqlite.sql_max (map VInt ids) = VInt m.
Proof.
  intros Hin Hall. destruct ids as [|x l]; [destruct Hin|].
  unfold Sqlite.sql_max. simpl. rewrite fold_max_ints. f_equal.
  destruct (fold_max_bounds l x) as (Hge & Hle & Hmem).
  assert (fold_left Z.max l x <= m).
  { rewrite List.Forall_forall in Hall. apply Hall. exact Hmem. }
  assert (m <= fold_left Z.max l x).
  { destruct Hin as [<-|Hin]; [exact Hge|].
    rewrite List.Forall_forall in Hle. apply Hle. exact Hin. }
  lia.
Qed.

(** The identifier the builders assign: 1 for a table without rows, one
    more than the largest identifier otherwise. *)
Lemma new_id_integers table w t i :
  Sqlite.find_table (database_of w DB) table = inr t ->
  Sqlite.find_column (Sqlite.tbl_columns t) "id" = Some i ->
  (Sqlite.tbl_rows t = [] ->
   new_id table w = Ok (VInt 1) (accessed DB (Sqlite.SelectMax "id" table) false (files w) w))
  /\ (forall ids m,
        map (fun r => Sqlite.cell r i) (Sqlite.tbl_rows t) = map VInt ids ->
        In m ids -> Forall (fun x => x <= m) ids ->
        new_id table w =
        Ok (VInt (m + 1)) (accessed DB (Sqlite.SelectMax "id" table) false (files w) w)).
Proof.
  intros Ht Hi. split.
  - intros Hrows. rewrite new_id_spec, Ht, Hi, Hrows. reflexivity.
  - intros ids m Hids Hin Hall.
    rewrite new_id_spec, Ht, Hi, Hids, (sql_max_ints ids m Hin Hall). reflexivity.
Qed.

Lemma input_spec prompt w line rest :
  stdin w = line :: rest ->
  input prompt w =
  Ok line (World (files w) (conns w) (trace w) rest (stdout w ++ [prompt])).
Proof. intros Hin. unfold input. simpl. rewrite Hin. reflexivity. Qed.

Lemma input_line prompt f c t line rest o :
  input prompt (World f c t (line :: rest) o) =
  Ok line (World f c t rest (o ++ [prompt])).
Proof. reflexivity. Qed.

Lemma drink_create_runs w drink_id w0 name description method garnish rest :
  new_id "Drinks" w = Ok drink_id w0 ->
  stdin w0 = name :: description :: method :: garnish :: rest ->
  exists w',
    Drink.create w =
    Ok [drink_id; VText name; VText description; VText method; VText garnish] w'.
Proof.
  intros Hid Hin. unfold Drink.create.
  unfold bind at 1. rewrite Hid.
  destruct w0 as [f c t i o]. simpl in Hin. subst i.
  unfold bind. rewrite !input_line. eexists. reflexivity.
Qed.

Lemma ingredient_create_runs w ingredient_id w0 category group name brand description
    measure abv_line abv rest :
  new_id "Ingredients" w = Ok ingredient_id w0 ->
  stdin w0 = category :: group :: name :: brand :: description :: measure
               :: abv_line :: rest ->
  py_float abv_line = Some abv ->
  exists w',
    Ingredient.create w =
    Ok [ingredient_id; VText category; VText group; VText name; VText brand;
        VText description; VText measure; VReal abv] w'.
Proof.
  intros Hid Hin Habv. unfold Ingredient.create.
  unfold bind at 1. rewrite Hid.
  destruct w0 as [f c t i o]. simpl in Hin. subst i.
  unfold bind. rewrite !input_line.
  unfold Ingredient.ask_abv, get_float. simpl. rewrite Habv.
  eexists. reflexivity.
Qed.

(** C2: both builders give the new record the identifier 1 when their
    table has no row, and one more than the largest identifier in the
    table when it has rows (identifiers being integers); the other fields
    are the lines read, in the order of the columns. *)
Theorem create_assigns_next_identifier w :
  (forall t i name description method garnish rest,
     Sqlite.find_table (database_of w DB) "Drinks" = inr t ->
     Sqlite.find_column (Sqlite.tbl_columns t) "id" = Some i ->
     stdin w = name :: description :: method :: garnish :: rest ->
     (Sqlite.tbl_rows t = [] ->
      exists w',
        Drink.create w =
        Ok [VInt 1; VText name; VText description; VText method; VText garnish] w')
     /\ (forall ids m,
           Sqlite.tbl_rows t <> [] ->
           map (fun r => Sqlite.cell r i) (Sqlite.tbl_rows t) = map VInt ids ->
           In m ids -> Forall (fun x => x <= m) ids ->
           exists w',
             Drink.create w =
             Ok [VInt (m + 1); VText name; VText description; VText method;
                 VText garnish] w'))
  /\
  (forall t i category group name brand description measure abv_line abv rest,
     Sqlite.find_table (database_of w DB) "Ingredients" = inr t ->
     Sqlite.find_column (Sqlite.tbl_columns t) "id" = Some i ->
     stdin w = category :: group :: name :: brand :: description :: measure
                 :: abv_line :: rest ->
     py_float abv_line = Some abv ->
     (Sqlite.tbl_rows t = [] ->
      exists w',
        Ingredient.create w =
        Ok [VInt 1; VText category; VText group; VText name; VText brand;
            VText description; VText measure; VReal abv] w')
     /\ (forall ids m,
           Sqlite.tbl_rows t <> [] ->
           map (fun r => Sqlite.cell r i) (Sqlite.tbl_rows t) = map VInt ids ->
           In m ids -> Forall (fun x => x <= m) ids ->
           exists w',
             Ingredient.create w =
             Ok [VInt (m + 1); VText category; VText group; VText name; VText brand;
                 VText description; VText measure; VReal abv] w')).
Proof.
  split.
  - intros t i name description method garnish rest Ht Hi Hin.
    destruct (new_id_integers "Drinks" w t i Ht Hi) as [Hempty Hrows]. split.
    + intros Hnone. eapply drink_create_runs; [apply Hempty, Hnone | exact Hin].
    + intros ids m _ Hids Hm Hall.
      eapply drink_create_runs; [apply (Hrows ids m Hids Hm Hall) | exact Hin].
  - intros t i category group name brand description measure abv_line abv rest
      Ht Hi Hin Habv.
    destruct (new_id_integers "Ingredients" w t i Ht Hi) as [Hempty Hrows]. split.
    + intros Hnone.
      eapply ingredient_create_runs; [apply Hempty, Hnone | exact Hin | exact Habv].
    + intros ids m _ Hids Hm Hall.
      eapply ingredient_create_runs;
        [apply (Hrows ids m Hids Hm Hall) | exact Hin | exact Habv].
Qed.

Lemma fits_kept a v :
  fits a v -> Sqlite.bind_value v = Some v /\ Sqlite.apply_affinity a v = v.
Proof.
  destruct v as [|z|r|s]; simpl.
  - intros _. split; [reflexivity | destruct a; reflexivity].
  - intros [Hz Ha]. rewrite Hz. split; [reflexivity|].
    destruct Ha as [->|[->| ->]]; reflexivity.
  - intros [Hnan Ha]. rewrite Hnan. split; [reflexivity|].
    destruct Ha as [->|[-> Hexact]]; [reflexivity|].
    simpl. unfold Sqlite.integer_if_exact.
    destruct (real_exact_int r) as [z|] eqn:Hz; simpl; [|reflexivity].
    rewrite (Hexact z eq_refl). reflexivity.
  - intros Ha. split; [reflexivity|]. destruct Ha as [->| ->]; reflexivity.
Qed.

Lemma fits_row affs values bound :
  Forall2 fits affs values ->
  Sqlite.bind_all values = Some bound ->
  bound = values /\ zip_with Sqlite.apply_affinity affs values = values.
Proof.
  intros Hfits. revert bound.
  induction Hfits as [|a v affs values Hv Hrest IH]; intros bound Hb.
  - injection Hb as <-. split; reflexivity.
  - apply bind_all_cons in Hb as (b & l & -> & Hbv & Hl).
    destruct (fits_kept a v Hv) as [Hbind Haff].
    rewrite Hbind in Hbv. injection Hbv as <-.
    destruct (IH l Hl) as [-> Hzip]. split; [reflexivity|].
    simpl. rewrite Haff, Hzip. reflexivity.
Qed.

Lemma run_insert name values db t bound :
  values <> [] ->
  Sqlite.find_table db name = inr t ->
  length values = length (Sqlite.tbl_columns t) ->
  Sqlite.bind_all values = Some bound ->
  run_statement (Sqlite.InsertValues name (length values)) values db =
  inr (<[Sqlite.table_key name :=
           Sqlite.with_rows t (Sqlite.tbl_rows t ++ [Sqlite.stored_row t bound])]> db,
       Sqlite.Cursor [] []).
Proof.
  intros Hne Ht Hlen Hb. unfold run_statement. simpl.
  destruct values as [|v values]; [congruence|]. simpl length. cbv iota beta.
  rewrite Ht. rewrite decide_True by (symmetry; exact Hlen).
  simpl. rewrite decide_True by reflexivity. rewrite Hb. reflexivity.
Qed.

Lemma find_table_inserted db name t :
  Sqlite.find_table (<[Sqlite.table_key name := t]> db) name = inr t.
Proof. unfold Sqlite.find_table. rewrite lookup_insert_eq. reflexivity. Qed.

(** C4, as the code has it: inserting [values] into a table with as many
    columns, none of which carries a constraint, and then fetching all
    its rows, yields the old rows followed by one new row: [values] in
    the same column order, each value bound and brought to the affinity
    of its column.  [view_table] prints these rows.  The new row is
    [values] itself when every value fits its column. *)
Theorem insert_then_fetch table values w t bound :
  values <> [] ->
  Sqlite.find_table (database_of w DB) table = inr t ->
  plain_table t ->
  length values = length (Sqlite.tbl_columns t) ->
  Sqlite.bind_all values = Some bound ->
  let t' := Sqlite.with_rows t (Sqlite.tbl_rows t ++ [Sqlite.stored_row t bound]) in
  exists w1,
    insert_into_table DB table values w = Ok tt w1
    /\ Sqlite.find_table (database_of w1 DB) table = inr t'
    /\ view_table table w1 =
       Ok tt (write_all (table_lines t')
                (accessed DB (Sqlite.SelectAll table) false (files w1) w1))
    /\ (Forall2 fits (map Sqlite.col_affinity (Sqlite.tbl_columns t)) values ->
        Sqlite.stored_row t bound = values).
Proof.
  intros Hne Ht _ Hlen Hb t'.
  eexists. split; [|split; [|split]].
  - rewrite insert_into_table_spec, (run_insert _ _ _ _ _ Hne Ht Hlen Hb). reflexivity.
  - unfold database_of, accessed. simpl. rewrite lookup_insert_eq. simpl.
    apply find_table_inserted.
  - rewrite view_table_spec.
    unfold database_of at 1, accessed at 1. simpl. rewrite lookup_insert_eq. simpl.
    rewrite find_table_inserted. reflexivity.
  - intros Hfits. unfold Sqlite.stored_row.
    destruct (fits_row _ _ _ Hfits Hb) as [-> Hzip]. exact Hzip.
Qed.

Lemma same_files_rows w w' : files w' = files w -> rows_unchanged w w'.
Proof. intros Hf file key. unfold rows_of, database_of. rewrite Hf. reflexivity. Qed.

Lemma rows_unchanged_trans w1 w2 w3 :
  rows_unchanged w1 w2 -> rows_unchanged w2 w3 -> rows_unchanged w1 w3.
Proof. intros H12 H23 file key. rewrite H23. apply H12. Qed.

Lemma rows_of_written w w' file db file' key :
  files w' = <[file := db]> (files w) ->
  rows_of w' file' key
  = if decide (file = file') then rows_in db key else rows_of w file' key.
Proof.
  intros Hf. unfold rows_of, database_of. rewrite Hf.
  destruct (decide (file = file')) as [->|Hne].
  - rewrite lookup_insert_eq. reflexivity.
  - rewrite lookup_insert_ne by exact Hne. reflexivity.
Qed.

(** What the two writing statements do to the rows. *)
Lemma run_create_rows name columns db db' cur :
  run_statement (Sqlite.CreateTableIfNotExists name columns) [] db = inr (db', cur) ->
  forall key, rows_in db' key = rows_in db key.
Proof.
  unfold run_statement. simpl. destruct columns as [|c cs]; [discriminate|].
  destruct (db !! Sqlite.table_key name) as [t|] eqn:Ht.
  - simpl. intros [= <- _]. reflexivity.
  - destruct (Sqlite.duplicate_column _ _); [discriminate|]. simpl.
    intros [= <- _] key. unfold rows_in.
    destruct (decide (Sqlite.table_key name = key)) as [<-|Hne].
    + rewrite lookup_insert_eq, Ht. reflexivity.
    + rewrite lookup_insert_ne by exact Hne. reflexivity.
Qed.

Lemma run_insert_rows name n values db db' cur :
  run_statement (Sqlite.InsertValues name n) values db = inr (db', cur) ->
  exists r,
    rows_in db' (Sqlite.table_key name) = rows_in db (Sqlite.table_key name) ++ [r]
    /\ forall key, key <> Sqlite.table_key name -> rows_in db' key = rows_in db key.
Proof.
  unfold run_statement. simpl. destruct n as [|n]; [discriminate|].
  unfold Sqlite.find_table.
  destruct (db !! Sqlite.table_key name) as [t|] eqn:Ht; [|discriminate].
  destruct (decide (length (Sqlite.tbl_columns t) = S n)); [|discriminate].
  simpl. destruct (decide _); [|discriminate].
  destruct (Sqlite.bind_all values) as [bound|]; [|discriminate].
  simpl. intros [= <- _]. eexists. split.
  - unfold rows_in. rewrite lookup_insert_eq, Ht. reflexivity.
  - intros key Hne. unfold rows_in. rewrite lookup_insert_ne by congruence. reflexivity.
Qed.

Lemma create_table_rows db_name table_name columns w :
  rows_unchanged w (final (create_table db_name table_name columns w)).
Proof.
  rewrite create_table_spec.
  destruct (run_statement _ _ _) as [e|[db cur]] eqn:Hrun; simpl.
  - apply same_files_rows. reflexivity.
  - intros file key. rewrite (rows_of_written w _ db_name db) by reflexivity.
    destruct (decide (db_name = file)) as [<-|Hne]; [|reflexivity].
    apply (run_create_rows _ _ _ _ _ Hrun).
Qed.

Lemma insert_into_table_rows db_name table_name values w :
  rows_unchanged w (final (insert_into_table db_name table_name values w))
  \/ one_row_appended w (final (insert_into_table db_name table_name values w)).
Proof.
  rewrite insert_into_table_spec.
  destruct (run_statement _ _ _) as [e|[db cur]] eqn:Hrun; simpl.
  - left. apply same_files_rows. reflexivity.
  - right. destruct (run_insert_rows _ _ _ _ _ _ Hrun) as (r & Hkey & Hother).
    exists db_name, (Sqlite.table_key table_name), r. split.
    + rewrite (rows_of_written w _ db_name db) by reflexivity.
      rewrite decide_True by reflexivity. exact Hkey.
    + intros file' key' Hne. rewrite (rows_of_written w _ db_name db) by reflexivity.
      destruct (decide (db_name = file')) as [<-|Hf]; [|reflexivity].
      apply Hother. congruence.
Qed.

Lemma entry_already_exists_files table kwargs w :
  files (final (entry_already_exists table kwargs w)) = files w.
Proof.
  rewrite entry_already_exists_spec, run_select_count.
  destruct (map fst kwargs); [reflexivity|].
  destruct (Sqlite.find_table _ _); [reflexivity|].
  destruct (Sqlite.find_columns _ _); [reflexivity|].
  destruct (decide _); [|reflexivity].
  destruct (Sqlite.bind_all _); reflexivity.
Qed.

Lemma view_table_files table_name w :
  files (final (view_table table_name w)) = files w.
Proof.
  rewrite view_table_spec. destruct (Sqlite.find_table _ _); reflexivity.
Qed.

Lemma reads_only_bind {A B : Type} (m : M A) (k : A -> M B) :
  reads_only m -> (forall a, reads_only (k a)) -> reads_only (bind m k).
Proof.
  intros Hm Hk w. unfold bind. specialize (Hm w).
  destruct (m w) as [a w'|e w']; simpl in *; [|exact Hm].
  rewrite Hk. exact Hm.
Qed.

Lemma reads_only_ret {A : Type} (a : A) : reads_only (ret a).
Proof. intros w. reflexivity. Qed.

Lemma reads_only_input prompt : reads_only (input prompt).
Proof. intros w. unfold input. simpl. destruct (stdin w); reflexivity. Qed.

Lemma reads_only_ask_until {A : Type} (parse : string -> option A) complaint
    display_string lines w :
  files (final (ask_until parse complaint display_string lines w)) = files w.
Proof.
  revert w. induction lines as [|l lines IH]; intros w; simpl; [reflexivity|].
  destruct (parse l); [reflexivity|]. rewrite IH. reflexivity.
Qed.

Lemma reads_only_new_id table : reads_only (new_id table).
Proof.
  intros w. rewrite new_id_spec.
  destruct (Sqlite.find_table _ _) as [e|t]; [reflexivity|].
  destruct (Sqlite.find_column _ _); [|reflexivity].
  rewrite next_id_spec. destruct (Sqlite.sql_max _); reflexivity.
Qed.

Lemma reads_only_drink : reads_only Drink.create.
Proof.
  unfold Drink.create.
  repeat (apply reads_only_bind; [first [apply reads_only_new_id | apply reads_only_input]|intros ?]).
  apply reads_only_ret.
Qed.

Lemma reads_only_ingredient : reads_only Ingredient.create.
Proof.
  unfold Ingredient.create.
  repeat (apply reads_only_bind; [first [apply reads_only_new_id | apply reads_only_input]|intros ?]).
  apply reads_only_bind; [|intros ?; apply reads_only_ret].
  intros w. apply reads_only_ask_until.
Qed.

Lemma ask_and_insert_entry_cases table entry_class w :
  reads_only entry_class ->
  files (final (ask_and_insert_entry table entry_class w)) = files w
  \/ exists entry_data w2,
       files w2 = files w
       /\ final (ask_and_insert_entry table entry_class w)
          = final (insert_into_table DB table entry_data w2).
Proof.
  intros Hbuild. unfold ask_and_insert_entry, bind, ret, raise.
  specialize (Hbuild w).
  destruct (entry_class w) as [entry_data w1|e w1]; simpl in Hbuild;
    [|left; exact Hbuild].
  destruct entry_data as [|entry_id rest]; [left; exact Hbuild|].
  pose proof (entry_already_exists_files table [("id"%string, entry_id)] w1) as Hcheck.
  destruct (entry_already_exists _ _ w1) as [found w2|e w2]; simpl in Hcheck;
    [|left; simpl; congruence].
  destruct found.
  - left. simpl. congruence.
  - right. exists (entry_id :: rest), w2. split; [congruence | reflexivity].
Qed.

Lemma ask_and_insert_entry_rows table entry_class w :
  reads_only entry_class ->
  rows_unchanged w (final (ask_and_insert_entry table entry_class w))
  \/ one_row_appended w (final (ask_and_insert_entry table entry_class w)).
Proof.
  intros Hbuild.
  destruct (ask_and_insert_entry_cases table entry_class w Hbuild)
    as [Hsame|(entry_data & w2 & Hfiles & ->)].
  - left. apply same_files_rows. exact Hsame.
  - assert (Hsame : rows_unchanged w w2) by (apply same_files_rows; exact Hfiles).
    destruct (insert_into_table_rows DB table entry_data w2) as [Hu|Ha].
    + left. eapply rows_unchanged_trans; eassumption.
    + right. destruct Ha as (file & key & r & Hkey & Hother).
      exists file, key, r. split.
      * rewrite Hkey, Hsame. reflexivity.
      * intros file' key' Hne. rewrite (Hother _ _ Hne). apply Hsame.
Qed.

(** *** The stores the program reaches *)

Lemma plain_database_of w file : plain_store w -> plain_database (database_of w file).
Proof.
  intros Hw. unfold database_of.
  destruct (files w !! file) as [db|] eqn:Hf; simpl.
  - eapply Hw. exact Hf.
  - intros key t Hk. rewrite lookup_empty in Hk. discriminate.
Qed.

Lemma plain_store_written w w' file db :
  files w' = <[file := db]> (files w) ->
  plain_store w -> plain_database db -> plain_store w'.
Proof.
  intros Hf Hw Hdb file' db' Hl. rewrite Hf in Hl.
  destruct (decide (file = file')) as [<-|Hne].
  - rewrite lookup_insert_eq in Hl. injection Hl as <-. exact Hdb.
  - rewrite lookup_insert_ne in Hl by exact Hne. eapply Hw. exact Hl.
Qed.

Lemma plain_store_same w w' : files w' = files w -> plain_store w -> plain_store w'.
Proof. intros Hf Hw file db Hl. rewrite Hf in Hl. eapply Hw. exact Hl. Qed.

Lemma run_create_plain name columns db db' cur :
  run_statement (Sqlite.CreateTableIfNotExists name columns) [] db = inr (db', cur) ->
  forallb Sqlite.plain columns = true ->
  plain_database db -> plain_database db'.
Proof.
  unfold run_statement. simpl. destruct columns as [|c cs]; [discriminate|].
  destruct (db !! Sqlite.table_key name) as [t|] eqn:Ht.
  - simpl. intros [= <- _] _ Hdb. exact Hdb.
  - destruct (Sqlite.duplicate_column _ _); [discriminate|]. simpl.
    intros [= <- _] Hcols Hdb key t Hk.
    destruct (decide (Sqlite.table_key name = key)) as [<-|Hne].
    + rewrite lookup_insert_eq in Hk. injection Hk as <-. exact Hcols.
    + rewrite lookup_insert_ne in Hk by exact Hne. eapply Hdb. exact Hk.
Qed.

Lemma run_insert_plain name n values db db' cur :
  run_statement (Sqlite.InsertValues name n) values db = inr (db', cur) ->
  plain_database db -> plain_database db'.
Proof.
  unfold run_statement. simpl. destruct n as [|n]; [discriminate|].
  unfold Sqlite.find_table.
  destruct (db !! Sqlite.table_key name) as [t|] eqn:Ht; [|discriminate].
  destruct (decide (length (Sqlite.tbl_columns t) = S n)); [|discriminate].
  simpl. destruct (decide _); [|discriminate].
  destruct (Sqlite.bind_all values) as [bound|]; [|discriminate].
  simpl. intros [= <- _] Hdb key t' Hk.
  destruct (decide (Sqlite.table_key name = key)) as [<-|Hne].
  - rewrite lookup_insert_eq in Hk. injection Hk as <-.
    apply (Hdb _ _ Ht).
  - rewrite lookup_insert_ne in Hk by exact Hne. eapply Hdb. exact Hk.
Qed.

Lemma create_table_plain db_name table_name columns w :
  forallb Sqlite.plain columns = true ->
  plain_store w -> plain_store (final (create_table db_name table_name columns w)).
Proof.
  intros Hcols Hw. rewrite create_table_spec.
  destruct (run_statement _ _ _) as [e|[db cur]] eqn:Hrun; simpl.
  - apply (plain_store_same w); [reflexivity | exact Hw].
  - apply (plain_store_written w _ db_name db); [reflexivity | exact Hw |].
    apply (run_create_plain _ _ _ _ _ Hrun Hcols), plain_database_of, Hw.
Qed.

Lemma insert_into_table_plain db_name table_name values w :
  plain_store w -> plain_store (final (insert_into_table db_name table_name values w)).
Proof.
  intros Hw. rewrite insert_into_table_spec.
  destruct (run_statement _ _ _) as [e|[db cur]] eqn:Hrun; simpl.
  - apply (plain_store_same w); [reflexivity | exact Hw].
  - apply (plain_store_written w _ db_name db); [reflexivity | exact Hw |].
    apply (run_insert_plain _ _ _ _ _ _ Hrun), plain_database_of, Hw.
Qed.

Lemma ask_and_insert_entry_plain table entry_class w :
  reads_only entry_class ->
  plain_store w -> plain_store (final (ask_and_insert_entry table entry_class w)).
Proof.
  intros Hbuild Hw.
  destruct (ask_and_insert_entry_cases table entry_class w Hbuild)
    as [Hsame|(entry_data & w2 & Hfiles & ->)].
  - apply (plain_store_same w); assumption.
  - apply insert_into_table_plain. apply (plain_store_same w); assumption.
Qed.

(** A store the program reaches holds only tables whose columns carry no
    constraint. *)
Lemma reachable_plain w : reachable w -> plain_store w.
Proof.
  induction 1 as [lines|w db_name table_name columns _ IH Hcols
                  |w db_name table_name values _ IH|w table kwargs _ IH
                  |w table_name _ IH|w table _ IH|w table _ IH].
  - intros file db Hl. unfold start in Hl. simpl in Hl.
    rewrite lookup_empty in Hl. discriminate.
  - apply create_table_plain; assumption.
  - apply insert_into_table_plain. exact IH.
  - apply (plain_store_same w); [apply entry_already_exists_files | exact IH].
  - apply (plain_store_same w); [apply view_table_files | exact IH].
  - apply ask_and_insert_entry_plain; [apply reads_only_drink | exact IH].
  - apply ask_and_insert_entry_plain; [apply reads_only_ingredient | exact IH].
Qed.

(** C9: the program only ever appends.  In every store it reaches, where
    no column carries a constraint, creating a table, checking for an
    entry and viewing a table leave every stored row as it was; inserting
    and the entry step with either builder leave every stored row as it
    was or add exactly one row at the end of one table.  No call changes
    or removes a stored row. *)
Theorem program_is_append_only w :
  reachable w ->
  plain_store w
  /\ (forall db_name table_name columns,
        rows_unchanged w (final (create_table db_name table_name columns w)))
  /\ (forall table kwargs,
        rows_unchanged w (final (entry_already_exists table kwargs w)))
  /\ (forall table_name, rows_unchanged w (final (view_table table_name w)))
  /\ (forall db_name table_name values,
        rows_unchanged w (final (insert_into_table db_name table_name values w))
        \/ one_row_appended w (final (insert_into_table db_name table_name values w)))
  /\ (forall table,
        rows_unchanged w (final (ask_and_insert_entry table Drink.create w))
        \/ one_row_appended w (final (ask_and_insert_entry table Drink.create w)))
  /\ (forall table,
        rows_unchanged w (final (ask_and_insert_entry table Ingredient.create w))
        \/ one_row_appended w (final (ask_and_insert_entry table Ingredient.create w))).
Proof.
  intros Hreach.
  split; [apply reachable_plain; exact Hreach|].
  split; [|split; [|split; [|split; [|split]]]]; intros.
  - apply create_table_rows.
  - apply same_files_rows, entry_already_exists_files.
  - apply same_files_rows, view_table_files.
  - apply insert_into_table_rows.
  - apply ask_and_insert_entry_rows, reads_only_drink.
  - apply ask_and_insert_entry_rows, reads_only_ingredient.
Qed.

(** ** Further properties of the readers *)

(** X1: the float reader returns what [float()] makes of the first line
    it accepts, after a prompt and the complaint for every line before
    it; the lines after it stay on the input.  What it returns is always
    [float()] of a line that was read. *)
Theorem get_float_first_float display_string w :
  (forall pre line x post,
     stdin w = pre ++ line :: post ->
     Forall (fun s => py_float s = None) pre ->
     py_float line = Some x ->
     get_float display_string w =
     Ok x (World (files w) (conns w) (trace w) post
             (stdout w ++ rejections display_string float_complaint pre
                ++ [display_string])))
  /\ (forall x w',
        get_float display_string w = Ok x w' ->
        exists line, In line (stdin w) /\ py_float line = Some x).
Proof.
  split.
  - intros pre line x post Hin Hpre Hline.
    unfold get_float. rewrite Hin. apply ask_until_first; assumption.
  - intros x w' Hrun. unfold get_float in Hrun.
    apply ask_until_returns in Hrun. exact Hrun.
Qed.

Lemma ask_until_exhausted {A : Type} (parse : string -> option A) complaint
    display_string lines w :
  stdin w = lines ->
  Forall (fun s => parse s = None) lines ->
  ask_until parse complaint display_string lines w =
  Raise EOFError
    (World (files w) (conns w) (trace w) []
       (stdout w ++ rejections display_string complaint lines ++ [display_string])).
Proof.
  intros Hin Hall. revert w Hin. induction Hall as [|line rest Hline _ IH]; intros w Hin.
  - simpl. unfold write. rewrite Hin. reflexivity.
  - simpl. rewrite Hline, IH by reflexivity. f_equal.
    unfold write, set_stdin; simpl. f_equal.
    rewrite <- !app_assoc. reflexivity.
Qed.

(** X2: none of the readers survives the end of the input.  When no line
    that is left is acceptable (none at all, for one), the reader takes
    them all, complains about each, prompts once more and raises
    [EOFError]. *)
Theorem readers_raise_at_end_of_input display_string w :
  (Forall (fun s => Text.py_int s = None) (stdin w) ->
   get_int display_string w = Raise EOFError (exhausted display_string int_complaint w))
  /\ (Forall (fun s => py_float s = None) (stdin w) ->
      get_float display_string w
      = Raise EOFError (exhausted display_string float_complaint w))
  /\ (Forall (fun s => Text.isalpha s = false) (stdin w) ->
      get_str display_string w = Raise EOFError (exhausted display_string str_complaint w)).
Proof.
  split; [|split]; intros Hall.
  - unfold get_int. apply ask_until_exhausted; [reflexivity | exact Hall].
  - unfold get_float. apply ask_until_exhausted; [reflexivity | exact Hall].
  - unfold get_str. apply ask_until_exhausted; [reflexivity|].
    eapply Forall_impl; [exact Hall|]. intros s Hs. simpl in Hs. rewrite Hs. reflexivity.
Qed.

(** ** Further properties of the store functions *)

(** X3: [view_table] on a table that exists prints one line of column
    names and then one line for each stored row, oldest first, the cells
    as [str()] gives them, tabs between; it reads no input and leaves the
    files and the connections as they were.  On a table that does not
    exist it raises the engine's error before printing anything. *)
Theorem view_table_prints_header_and_rows table_name w :
  (forall t,
     Sqlite.find_table (database_of w DB) table_name = inr t ->
     exists w',
       view_table table_name w = Ok tt w'
       /\ stdout w' = stdout w ++ table_lines t
       /\ length (table_lines t) = S (length (Sqlite.tbl_rows t))
       /\ files w' = files w /\ conns w' = conns w /\ stdin w' = stdin w)
  /\ (forall e,
        Sqlite.find_table (database_of w DB) table_name = inl e ->
        exists w',
          view_table table_name w = Raise (OperationalError e) w'
          /\ stdout w' = stdout w /\ files w' = files w /\ stdin w' = stdin w).
Proof.
  split.
  - intros t Ht. rewrite view_table_spec, Ht. eexists. split; [reflexivity|].
    simpl. rewrite length_map. repeat split; reflexivity.
  - intros e He. rewrite view_table_spec, He. eexists. split; [reflexivity|].
    simpl. repeat split; reflexivity.
Qed.

(** X4: called with nothing to put in the statement (no column, no
    value, no keyword) the three functions that build their statement
    from their arguments send SQLite a text it cannot parse: each raises
    [sqlite3.OperationalError], whatever the database holds, with nothing
    written and the connection left open. *)
Theorem empty_argument_lists_are_syntax_errors w :
  (forall db_name table_name,
     create_table db_name table_name [] w =
     Raise (OperationalError Sqlite.SyntaxError)
       (abandoned db_name (Sqlite.CreateTableIfNotExists table_name []) w))
  /\ (forall db_name table_name,
        insert_into_table db_name table_name [] w =
        Raise (OperationalError Sqlite.SyntaxError)
          (abandoned db_name (Sqlite.InsertValues table_name 0) w))
  /\ (forall table,
        entry_already_exists table [] w =
        Raise (OperationalError Sqlite.SyntaxError)
          (abandoned DB (Sqlite.SelectCountWhere table []) w)).
Proof.
  split; [|split]; intros.
  - rewrite create_table_spec. reflexivity.
  - rewrite insert_into_table_spec. reflexivity.
  - rewrite entry_already_exists_spec. reflexivity.
Qed.

Lemma database_of_file w file name t :
  Sqlite.find_table (database_of w file) name = inr t ->
  files w !! file = Some (database_of w file).
Proof.
  unfold Sqlite.find_table, database_of.
  destruct (files w !! file) as [db|]; simpl; [reflexivity|].
  rewrite lookup_empty. discriminate.
Qed.

Lemma find_table_key db name t :
  Sqlite.find_table db name = inr t -> db !! Sqlite.table_key name = Some t.
Proof.
  unfold Sqlite.find_table. destruct (db !! Sqlite.table_key name); congruence.
Qed.

(** X5: [create_table] never touches a table that is already there.
    Whatever columns it is called with (other names, other types, a name
    twice), if the table exists the call returns and the files are as
    before: the table keeps its columns and its rows. *)
Theorem create_table_keeps_existing_table db_name table_name columns w t :
  Sqlite.find_table (database_of w db_name) table_name = inr t ->
  columns <> [] ->
  exists w',
    create_table db_name table_name columns w = Ok tt w'
    /\ files w' = files w
    /\ Sqlite.find_table (database_of w' db_name) table_name = inr t.
Proof.
  intros Ht Hcols. rewrite create_table_spec.
  unfold run_statement, Sqlite.prepare.
  destruct columns as [|c columns]; [congruence|].
  rewrite (find_table_key _ _ _ Ht). simpl.
  assert (Hfiles : <[db_name := database_of w db_name]> (files w) = files w).
  { apply insert_id. eapply database_of_file. exact Ht. }
  eexists. split; [reflexivity|]. simpl. rewrite Hfiles. split; [reflexivity|].
  unfold database_of in *. simpl. exact Ht.
Qed.

Lemma bind_all_overflow values :
  Exists (fun v => exists z, v = VInt z /\ Sqlite.in_int64 z = false) values ->
  Sqlite.bind_all values = None.
Proof.
  induction 1 as [v rest [z [-> Hz]]|v rest _ IH];
    unfold Sqlite.bind_all; fold Sqlite.bind_all.
  - simpl. rewrite Hz. reflexivity.
  - rewrite IH. destruct (Sqlite.bind_value v); reflexivity.
Qed.

(** X6: what [insert_into_table] does with a record it cannot store.  A
    table that does not exist, a record with more or fewer values than
    the table has columns, an integer outside 64 bits: each raises (the
    engine's error for the first two, [OverflowError] for the third), and
    in each case nothing is written, no row added, and the connection is
    left open. *)
Theorem insert_into_table_rejects db_name table_name values w :
  values <> [] ->
  (forall e,
     Sqlite.find_table (database_of w db_name) table_name = inl e ->
     insert_into_table db_name table_name values w =
     Raise (OperationalError e)
       (abandoned db_name (Sqlite.InsertValues table_name (length values)) w))
  /\ (forall t,
        Sqlite.find_table (database_of w db_name) table_name = inr t ->
        length (Sqlite.tbl_columns t) <> length values ->
        insert_into_table db_name table_name values w =
        Raise (OperationalError
                 (Sqlite.WrongArity (Sqlite.tbl_name t) (length (Sqlite.tbl_columns t))
                    (length values)))
          (abandoned db_name (Sqlite.InsertValues table_name (length values)) w))
  /\ (forall t,
        Sqlite.find_table (database_of w db_name) table_name = inr t ->
        length (Sqlite.tbl_columns t) = length values ->
        Exists (fun v => exists z, v = VInt z /\ Sqlite.in_int64 z = false) values ->
        insert_into_table db_name table_name values w =
        Raise OverflowError
          (abandoned db_name (Sqlite.InsertValues table_name (length values)) w)).
Proof.
  intros Hvalues.
  assert (Hlen : exists n, length values = S n).
  { destruct values; [congruence|]. eexists. reflexivity. }
  destruct Hlen as [n Hn].
  split; [|split].
  - intros e He. rewrite insert_into_table_spec.
    unfold run_statement, Sqlite.prepare. rewrite Hn, He. reflexivity.
  - intros t Ht Hlen. rewrite insert_into_table_spec.
    unfold run_statement, Sqlite.prepare. rewrite Hn, Ht. rewrite <- Hn.
    rewrite decide_False by exact Hlen. reflexivity.
  - intros t Ht Hlen Hbig. rewrite insert_into_table_spec.
    unfold run_statement, Sqlite.prepare. rewrite Hn, Ht. rewrite <- Hn.
    rewrite decide_True by exact Hlen. simpl.
    rewrite decide_True by reflexivity.
    rewrite (bind_all_overflow _ Hbig). reflexivity.
Qed.

(** X7: what [entry_already_exists] does with a question it cannot ask.
    A table that does not exist raises the engine's error; keywords that
    are all columns of the table, with an integer outside 64 bits among
    the expected values, raise [OverflowError].  No answer is returned,
    and the connection is left open. *)
Theorem entry_already_exists_rejects table kwargs w :
  kwargs <> [] ->
  (forall e,
     Sqlite.find_table (database_of w DB) table = inl e ->
     entry_already_exists table kwargs w =
     Raise (OperationalError e)
       (abandoned DB (Sqlite.SelectCountWhere table (map fst kwargs)) w))
  /\ (forall t,
        Sqlite.find_table (database_of w DB) table = inr t ->
        (forall key, In key (map fst kwargs) ->
                     is_Some (Sqlite.find_column (Sqlite.tbl_columns t) key)) ->
        Exists (fun v => exists z, v = VInt z /\ Sqlite.in_int64 z = false)
          (map snd kwargs) ->
        entry_already_exists table kwargs w =
        Raise OverflowError
          (abandoned DB (Sqlite.SelectCountWhere table (map fst kwargs)) w)).
Proof.
  intros Hkw.
  assert (Hkeys : exists k ks, map fst kwargs = k :: ks).
  { destruct kwargs as [|c kwargs]; [congruence|]. simpl. eauto. }
  destruct Hkeys as [k [ks Hkeys]].
  split.
  - intros e He. rewrite entry_already_exists_spec, run_select_count, Hkeys, He.
    reflexivity.
  - intros t Ht Hcols Hbig.
    destruct (find_columns_total (Sqlite.tbl_columns t) kwargs) as [cols Hfind].
    { intros c Hc. apply Hcols. apply in_map. exact Hc. }
    rewrite entry_already_exists_spec, run_select_count.
    rewrite Ht, Hfind.
    rewrite decide_True by (rewrite !length_map; reflexivity).
    rewrite (bind_all_overflow _ Hbig). rewrite Hkeys. reflexivity.
Qed.

(** The entry step once the builder has handed over a record with a
    first value that can be bound: one question to the table, then the
    message or the insertion. *)
Lemma ask_and_insert_entry_steps table entry_class w v rest w1 t i b :
  entry_class w = Ok (v :: rest) w1 ->
  Sqlite.find_table (database_of w1 DB) table = inr t ->
  Sqlite.find_column (Sqlite.tbl_columns t) "id" = Some i ->
  Sqlite.bind_value v = Some b ->
  ask_and_insert_entry table entry_class w =
  if existsb (fun r => Sqlite.term_holds t r i b) (Sqlite.tbl_rows t)
  then Ok tt (write (duplicate_message table +:+ newline)
                (accessed DB (Sqlite.SelectCountWhere table ["id"%string]) false
                   (files w1) w1))
  else insert_into_table DB table (v :: rest)
         (accessed DB (Sqlite.SelectCountWhere table ["id"%string]) false
            (files w1) w1).
Proof.
  intros Hbuild Ht Hi Hb.
  unfold ask_and_insert_entry, bind at 1. rewrite Hbuild.
  unfold bind at 1. unfold ret at 1.
  unfold bind at 1.
  rewrite (entry_already_exists_counts table [("id"%string, v)] w1 t [i] [b]);
    try assumption; try discriminate.
  - assert (Hsame : forall r, Sqlite.row_matches t r [i] [b] = Sqlite.term_holds t r i b).
    { intros r. simpl. apply andb_true_r. }
    rewrite (existsb_same _ _ _ Hsame).
    destruct (existsb _ _); reflexivity.
  - simpl. unfold Sqlite.find_columns. rewrite Hi. reflexivity.
  - simpl. unfold Sqlite.bind_all. rewrite Hb. reflexivity.
Qed.

Lemma null_term t r i : Sqlite.term_holds t r i VNull = false.
Proof.
  unfold Sqlite.term_holds.
  assert (Sqlite.comparison_operand (Sqlite.column_affinity t i) VNull = VNull) as ->.
  { destruct (Sqlite.column_affinity t i); reflexivity. }
  destruct (Sqlite.cell r i); reflexivity.
Qed.

Lemma existsb_never {A : Type} (f : A -> bool) (l : list A) :
  (forall a, f a = false) -> existsb f l = false.
Proof.
  intros Hf. induction l as [|a l IH]; simpl; [reflexivity|].
  rewrite Hf, IH. reflexivity.
Qed.

(** C3, where the code departs from it: asked whether a row with the
    identifier [None] exists, [entry_already_exists] answers no, whatever
    the table holds, rows stored with the identifier [None] among them.
    The filter [id = ?] with NULL for the parameter holds of no row. *)
Theorem entry_already_exists_misses_none_identifier table w t i :
  Sqlite.find_table (database_of w DB) table = inr t ->
  Sqlite.find_column (Sqlite.tbl_columns t) "id" = Some i ->
  entry_already_exists table [("id"%string, VNull)] w =
  Ok false (accessed DB (Sqlite.SelectCountWhere table ["id"%string]) false
              (files w) w).
Proof.
  intros Ht Hi.
  rewrite (entry_already_exists_counts table [("id"%string, VNull)] w t [i] [VNull]);
    try assumption; try discriminate.
  - rewrite existsb_never; [reflexivity|].
    intros r. simpl. rewrite null_term. reflexivity.
  - simpl. unfold Sqlite.find_columns. rewrite Hi. reflexivity.
  - reflexivity.
Qed.

(** X8: a record whose identifier is [None] is never taken for a
    duplicate.  Whatever the table holds, rows without an identifier
    among them, the message is not printed and the whole record goes to
    [insert_into_table]. *)
Theorem none_identifier_is_never_a_duplicate table entry_class w rest w1 t i :
  entry_class w = Ok (VNull :: rest) w1 ->
  Sqlite.find_table (database_of w1 DB) table = inr t ->
  Sqlite.find_column (Sqlite.tbl_columns t) "id" = Some i ->
  ask_and_insert_entry table entry_class w =
  insert_into_table DB table (VNull :: rest)
    (accessed DB (Sqlite.SelectCountWhere table ["id"%string]) false (files w1) w1).
Proof.
  intros Hbuild Ht Hi.
  rewrite (ask_and_insert_entry_steps table entry_class w VNull rest w1 t i VNull
             Hbuild Ht Hi eq_refl).
  rewrite existsb_never; [reflexivity|]. intros r. apply null_term.
Qed.

(** ** Further properties of the builders *)

Lemma max_step_text best v :
  is_text best \/ is_text v -> is_text (Sqlite.max_step best v).
Proof.
  destruct best as [|a|x|s], v as [|b|y|u]; simpl; intros [[]|[]]; try exact I;
    destruct (String.compare s u); exact I.
Qed.

Lemma fold_max_text cells best :
  is_text best \/ Exists is_text cells ->
  is_text (fold_left Sqlite.max_step cells best).
Proof.
  revert best. induction cells as [|v cells IH]; intros best Hsome; simpl.
  - destruct Hsome as [Hbest|Hex]; [exact Hbest | inversion Hex].
  - apply IH. destruct Hsome as [Hbest|Hex].
    + left. apply max_step_text. left. exact Hbest.
    + inversion Hex as [? ? Hv|? ? Hrest]; subst.
      * left. apply max_step_text. right. exact Hv.
      * right. exact Hrest.
Qed.

Lemma new_id_text table w t i r s :
  Sqlite.find_table (database_of w DB) table = inr t ->
  Sqlite.find_column (Sqlite.tbl_columns t) "id" = Some i ->
  In r (Sqlite.tbl_rows t) -> Sqlite.cell r i = VText s ->
  new_id table w =
  Raise TypeError (accessed DB (Sqlite.SelectMax "id" table) false (files w) w).
Proof.
  intros Ht Hi Hr Hcell. rewrite new_id_spec, Ht, Hi.
  assert (Htext : is_text (Sqlite.sql_max (map (fun r => Sqlite.cell r i)
                                             (Sqlite.tbl_rows t)))).
  { unfold Sqlite.sql_max. apply fold_max_text. right.
    apply Stdlib.Lists.List.Exists_exists. exists (VText s). split; [|exact I].
    rewrite <- Hcell. apply (in_map (fun r => Sqlite.cell r i)). exact Hr. }
  destruct (Sqlite.sql_max _); try destruct Htext. reflexivity.
Qed.

Lemma new_id_missing table w e :
  Sqlite.find_table (database_of w DB) table = inl e ->
  new_id table w =
  Raise (OperationalError e) (abandoned DB (Sqlite.SelectMax "id" table) w).
Proof. intros He. rewrite new_id_spec, He. reflexivity. Qed.

Lemma drink_create_stops w e w' :
  new_id "Drinks" w = Raise e w' -> Drink.create w = Raise e w'.
Proof. intros Hid. unfold Drink.create, bind at 1. rewrite Hid. reflexivity. Qed.

Lemma ingredient_create_stops w e w' :
  new_id "Ingredients" w = Raise e w' -> Ingredient.create w = Raise e w'.
Proof. intros Hid. unfold Ingredient.create, bind at 1. rewrite Hid. reflexivity. Qed.

(** X9: both builders work out the identifier before they ask anything.
    When the table is not there, or some stored identifier is text (so
    that [max_id + 1] adds 1 to a [str]), the builder raises (the
    engine's error, [TypeError]) without having prompted or read a line. *)
Theorem create_fails_before_prompting w :
  (forall e,
     Sqlite.find_table (database_of w DB) "Drinks" = inl e ->
     Drink.create w =
     Raise (OperationalError e) (abandoned DB (Sqlite.SelectMax "id" "Drinks") w))
  /\ (forall e,
        Sqlite.find_table (database_of w DB) "Ingredients" = inl e ->
        Ingredient.create w =
        Raise (OperationalError e)
          (abandoned DB (Sqlite.SelectMax "id" "Ingredients") w))
  /\ (forall t i r s,
        Sqlite.find_table (database_of w DB) "Drinks" = inr t ->
        Sqlite.find_column (Sqlite.tbl_columns t) "id" = Some i ->
        In r (Sqlite.tbl_rows t) -> Sqlite.cell r i = VText s ->
        Drink.create w =
        Raise TypeError
          (accessed DB (Sqlite.SelectMax "id" "Drinks") false (files w) w))
  /\ (forall t i r s,
        Sqlite.find_table (database_of w DB) "Ingredients" = inr t ->
        Sqlite.find_column (Sqlite.tbl_columns t) "id" = Some i ->
        In r (Sqlite.tbl_rows t) -> Sqlite.cell r i = VText s ->
        Ingredient.create w =
        Raise TypeError
          (accessed DB (Sqlite.SelectMax "id" "Ingredients") false (files w) w)).
Proof.
  split; [|split; [|split]].
  - intros e He. apply drink_create_stops, new_id_missing, He.
  - intros e He. apply ingredient_create_stops, new_id_missing, He.
  - intros t i r s Ht Hi Hr Hcell. apply drink_create_stops.
    eapply new_id_text; eassumption.
  - intros t i r s Ht Hi Hr Hcell. apply ingredient_create_stops.
    eapply new_id_text; eassumption.
Qed.

Lemma drink_create_world w drink_id w0 name description method garnish rest :
  new_id "Drinks" w = Ok drink_id w0 ->
  stdin w0 = name :: description :: method :: garnish :: rest ->
  Drink.create w =
  Ok [drink_id; VText name; VText description; VText method; VText garnish]
     (World (files w0) (conns w0) (trace w0) rest (stdout w0 ++ drink_prompts)).
Proof.
  intros Hid Hin. unfold Drink.create.
  unfold bind at 1. rewrite Hid.
  destruct w0 as [f c t i o]. simpl in Hin. subst i.
  unfold bind. rewrite !input_line. unfold ret. simpl.
  rewrite <- !app_assoc. reflexivity.
Qed.

Lemma ingredient_create_world w ingredient_id w0 category group name brand description
    measure pre abv_line abv rest :
  new_id "Ingredients" w = Ok ingredient_id w0 ->
  stdin w0 = category :: group :: name :: brand :: description :: measure
               :: pre ++ abv_line :: rest ->
  Forall (fun s => py_float s = None) pre ->
  py_float abv_line = Some abv ->
  Ingredient.create w =
  Ok [ingredient_id; VText category; VText group; VText name; VText brand;
      VText description; VText measure; VReal abv]
     (World (files w0) (conns w0) (trace w0) rest
        (stdout w0 ++ ingredient_prompts
           ++ rejections abv_prompt float_complaint pre ++ [abv_prompt])).
Proof.
  intros Hid Hin Hpre Habv. unfold Ingredient.create.
  unfold bind at 1. rewrite Hid.
  destruct w0 as [f c t i o]. simpl in Hin. subst i.
  unfold bind. rewrite !input_line.
  unfold Ingredient.ask_abv, get_float.
  cbn [stdin].
  rewrite (ask_until_first py_float _ _ pre abv_line abv rest _ Hpre Habv).
  unfold ret. simpl. rewrite <- !app_assoc. reflexivity.
Qed.

(** ** The entry step with the program's builders *)

Lemma no_row_has t i ids next :
  Sqlite.column_affinity t i <> Sqlite.AffText ->
  map (fun r => Sqlite.cell r i) (Sqlite.tbl_rows t) = map VInt ids ->
  ~ In next ids ->
  existsb (fun r => Sqlite.term_holds t r i (VInt next)) (Sqlite.tbl_rows t) = false.
Proof.
  intros Haff. generalize (Sqlite.tbl_rows t). intros rows. revert ids.
  induction rows as [|r rows IH]; intros ids Hids Hnew; [reflexivity|].
  destruct ids as [|x ids]; [discriminate|]. simpl in Hids.
  injection Hids as Hcell Hrest. simpl.
  rewrite (integer_term t r i next Haff), Hcell. simpl.
  rewrite (IH ids Hrest) by (intros Hin; apply Hnew; right; exact Hin).
  rewrite orb_false_r. apply Z.eqb_neq. intros ->. apply Hnew. left. reflexivity.
Qed.

(** A record with an integer identifier no row has goes into the table. *)
Lemma fresh_record_is_inserted table entry_class w w1 next rest t i ids bound :
  entry_class w = Ok (VInt next :: rest) w1 ->
  Sqlite.find_table (database_of w1 DB) table = inr t ->
  Sqlite.find_column (Sqlite.tbl_columns t) "id" = Some i ->
  Sqlite.column_affinity t i <> Sqlite.AffText ->
  map (fun r => Sqlite.cell r i) (Sqlite.tbl_rows t) = map VInt ids ->
  ~ In next ids ->
  Sqlite.in_int64 next = true ->
  S (length rest) = length (Sqlite.tbl_columns t) ->
  Sqlite.bind_all (VInt next :: rest) = Some bound ->
  exists w',
    ask_and_insert_entry table entry_class w = Ok tt w'
    /\ database_of w' DB
       = <[Sqlite.table_key table :=
             Sqlite.with_rows t (Sqlite.tbl_rows t ++ [Sqlite.stored_row t bound])]>
           (database_of w1 DB)
    /\ conns w' = conns w1 /\ stdin w' = stdin w1 /\ stdout w' = stdout w1.
Proof.
  intros Hbuild Ht Hi Haff Hids Hnew Hnext Hlen Hbound.
  assert (Hb : Sqlite.bind_value (VInt next) = Some (VInt next)).
  { simpl. rewrite Hnext. reflexivity. }
  rewrite (ask_and_insert_entry_steps table entry_class w (VInt next) rest w1 t i
             (VInt next) Hbuild Ht Hi Hb).
  rewrite (no_row_has t i ids next Haff Hids Hnew).
  rewrite insert_into_table_spec.
  set (w2 := accessed DB (Sqlite.SelectCountWhere table ["id"%string]) false
               (files w1) w1).
  assert (Hdb : database_of w2 DB = database_of w1 DB) by reflexivity.
  rewrite Hdb.
  rewrite (run_insert table (VInt next :: rest) (database_of w1 DB) t bound);
    [|discriminate|exact Ht|exact Hlen|exact Hbound].
  eexists. split; [reflexivity|]. split.
  - unfold database_of at 1. simpl. rewrite lookup_insert_eq. reflexivity.
  - simpl. repeat split; reflexivity.
Qed.

Lemma next_is_new ids next :
  (ids = [] /\ next = 1) \/ (In (next - 1) ids /\ Forall (fun x => x <= next - 1) ids) ->
  ~ In next ids.
Proof.
  intros [[-> _]|[_ Hall]] Hin; [destruct Hin|].
  rewrite Stdlib.Lists.List.Forall_forall in Hall.
  specialize (Hall next Hin). simpl in Hall. lia.
Qed.

Lemma new_id_is_next table w t i ids next :
  Sqlite.find_table (database_of w DB) table = inr t ->
  Sqlite.find_column (Sqlite.tbl_columns t) "id" = Some i ->
  map (fun r => Sqlite.cell r i) (Sqlite.tbl_rows t) = map VInt ids ->
  (ids = [] /\ next = 1) \/ (In (next - 1) ids /\ Forall (fun x => x <= next - 1) ids) ->
  new_id table w =
  Ok (VInt next) (accessed DB (Sqlite.SelectMax "id" table) false (files w) w).
Proof.
  intros Ht Hi Hids Hnext.
  destruct (new_id_integers table w t i Ht Hi) as [Hempty Hrows].
  destruct Hnext as [[-> ->]|[Hin Hall]].
  - apply Hempty. destruct (Sqlite.tbl_rows t); [reflexivity|discriminate].
  - rewrite (Hrows ids (next - 1) Hids Hin Hall). do 2 f_equal. lia.
Qed.

Lemma new_drink_inserted w t ids next name description method garnish rest :
  Sqlite.find_table (database_of w DB) "Drinks" = inr t ->
  Sqlite.tbl_columns t = drinks_columns ->
  map (fun r => Sqlite.cell r 0) (Sqlite.tbl_rows t) = map VInt ids ->
  (ids = [] /\ next = 1) \/ (In (next - 1) ids /\ Forall (fun x => x <= next - 1) ids) ->
  Sqlite.in_int64 next = true ->
  stdin w = name :: description :: method :: garnish :: rest ->
  exists w',
    ask_and_insert_entry "Drinks" Drink.create w = Ok tt w'
    /\ database_of w' DB
       = <[Sqlite.table_key "Drinks" :=
             Sqlite.with_rows t
               (Sqlite.tbl_rows t
                  ++ [[VInt next; VText name; VText description; VText method;
                       VText garnish]])]> (database_of w DB)
    /\ conns w' = conns w /\ stdin w' = rest /\ stdout w' = stdout w ++ drink_prompts.
Proof.
  intros Ht Hcols Hids Hnext Hrange Hin.
  assert (Hi : Sqlite.find_column (Sqlite.tbl_columns t) "id" = Some 0%nat)
    by (rewrite Hcols; reflexivity).
  assert (Haff : Sqlite.column_affinity t 0 <> Sqlite.AffText)
    by (unfold Sqlite.column_affinity; rewrite Hcols; discriminate).
  pose proof (new_id_is_next "Drinks" w t 0%nat ids next Ht Hi Hids Hnext) as Hid.
  pose proof (drink_create_world w (VInt next) _ name description method garnish rest
                Hid Hin) as Hbuild.
  destruct (fresh_record_is_inserted "Drinks" Drink.create w _ next
              [VText name; VText description; VText method; VText garnish] t 0%nat ids
              [VInt next; VText name; VText description; VText method; VText garnish]
              Hbuild Ht Hi Haff Hids (next_is_new ids next Hnext) Hrange)
    as [w' [Hrun [Hdb Hrest]]].
  - rewrite Hcols. reflexivity.
  - unfold Sqlite.bind_all. simpl. rewrite Hrange. reflexivity.
  - exists w'. split; [exact Hrun|]. split; [|exact Hrest].
    rewrite Hdb. unfold Sqlite.stored_row. rewrite Hcols. reflexivity.
Qed.

(** X11: with [Drink.create] as the builder, the entry step on the
    Drinks table the program creates never finds a duplicate.  The
    identifiers stored being integers, the new one (1 for an empty table,
    the largest plus 1 otherwise) is none of them: the four lines read
    become a new last row under that identifier, the earlier rows stay,
    and nothing is printed but the four prompts. *)
Theorem new_drink_is_always_inserted w t ids next name description method garnish rest :
  Sqlite.find_table (database_of w DB) "Drinks" = inr t ->
  Sqlite.tbl_columns t = drinks_columns ->
  map (fun r => Sqlite.cell r 0) (Sqlite.tbl_rows t) = map VInt ids ->
  (ids = [] /\ next = 1) \/ (In (next - 1) ids /\ Forall (fun x => x <= next - 1) ids) ->
  Sqlite.in_int64 next = true ->
  stdin w = name :: description :: method :: garnish :: rest ->
  exists w',
    ask_and_insert_entry "Drinks" Drink.create w = Ok tt w'
    /\ Sqlite.find_table (database_of w' DB) "Drinks"
       = inr (Sqlite.with_rows t
                (Sqlite.tbl_rows t
                   ++ [[VInt next; VText name; VText description; VText method;
                        VText garnish]]))
    /\ ~ In next ids
    /\ conns w' = conns w /\ stdin w' = rest /\ stdout w' = stdout w ++ drink_prompts.
Proof.
  intros Ht Hcols Hids Hnext Hrange Hin.
  destruct (new_drink_inserted w t ids next name description method garnish rest
              Ht Hcols Hids Hnext Hrange Hin) as [w' [Hrun [Hdb Hrest]]].
  exists w'. split; [exact Hrun|]. split; [|split; [|exact Hrest]].
  - rewrite Hdb. apply find_table_inserted.
  - apply next_is_new. exact Hnext.
Qed.

(** X10: [Ingredient.create] does not give up on the ABV.  With integer
    identifiers in the table, it takes the next identifier and the six
    text fields, then asks for the ABV until a line is one [float()]
    accepts, complaining about each line that is not; that line's value
    is the record's last field, the lines after it are still to be read,
    and nothing has been written to the files. *)
Theorem ingredient_create_asks_abv_again w t i ids next category group name brand
    description measure pre abv_line abv rest :
  Sqlite.find_table (database_of w DB) "Ingredients" = inr t ->
  Sqlite.find_column (Sqlite.tbl_columns t) "id" = Some i ->
  map (fun r => Sqlite.cell r i) (Sqlite.tbl_rows t) = map VInt ids ->
  (ids = [] /\ next = 1) \/ (In (next - 1) ids /\ Forall (fun x => x <= next - 1) ids) ->
  stdin w = category :: group :: name :: brand :: description :: measure
              :: pre ++ abv_line :: rest ->
  Forall (fun s => py_float s = None) pre ->
  py_float abv_line = Some abv ->
  exists w',
    Ingredient.create w =
    Ok [VInt next; VText category; VText group; VText name; VText brand;
        VText description; VText measure; VReal abv] w'
    /\ stdin w' = rest
    /\ stdout w' = stdout w ++ ingredient_prompts
                     ++ rejections abv_prompt float_complaint pre ++ [abv_prompt]
    /\ files w' = files w.
Proof.
  intros Ht Hi Hids Hnext Hin Hpre Habv.
  pose proof (new_id_is_next "Ingredients" w t i ids next Ht Hi Hids Hnext) as Hid.
  rewrite (ingredient_create_world w (VInt next) _ category group name brand
             description measure pre abv_line abv rest Hid Hin Hpre Habv).
  eexists. split; [reflexivity|]. simpl. repeat split; reflexivity.
Qed.

Lemma new_ingredient_inserted w t ids next category group name brand
    description measure abv_line abv rest :
  Sqlite.find_table (database_of w DB) "Ingredients" = inr t ->
  Sqlite.tbl_columns t = ingredients_columns ->
  map (fun r => Sqlite.cell r 0) (Sqlite.tbl_rows t) = map VInt ids ->
  (ids = [] /\ next = 1) \/ (In (next - 1) ids /\ Forall (fun x => x <= next - 1) ids) ->
  Sqlite.in_int64 next = true ->
  stdin w = category :: group :: name :: brand :: description :: measure
              :: abv_line :: rest ->
  py_float abv_line = Some abv ->
  fits Sqlite.AffReal (VReal abv) ->
  exists w',
    ask_and_insert_entry "Ingredients" Ingredient.create w = Ok tt w'
    /\ database_of w' DB
       = <[Sqlite.table_key "Ingredients" :=
             Sqlite.with_rows t
               (Sqlite.tbl_rows t
                  ++ [[VInt next; VText category; VText group; VText name;
                       VText brand; VText description; VText measure; VReal abv]])]>
           (database_of w DB)
    /\ conns w' = conns w /\ stdin w' = rest
    /\ stdout w' = stdout w ++ ingredient_prompts ++ [abv_prompt].
Proof.
  intros Ht Hcols Hids Hnext Hrange Hin Habv Hfits.
  assert (Hi : Sqlite.find_column (Sqlite.tbl_columns t) "id" = Some 0%nat)
    by (rewrite Hcols; reflexivity).
  assert (Haff : Sqlite.column_affinity t 0 <> Sqlite.AffText)
    by (unfold Sqlite.column_affinity; rewrite Hcols; discriminate).
  pose proof (new_id_is_next "Ingredients" w t 0%nat ids next Ht Hi Hids Hnext) as Hid.
  pose proof (ingredient_create_world w (VInt next) _ category group name brand
                description measure [] abv_line abv rest Hid Hin
                (Stdlib.Lists.List.Forall_nil _) Habv)
    as Hbuild.
  set (record := [VInt next; VText category; VText group; VText name; VText brand;
                  VText description; VText measure; VReal abv]) in *.
  assert (Hrow : Forall2 fits (map Sqlite.col_affinity ingredients_columns) record).
  { unfold record.
    constructor; [split; [exact Hrange | left; reflexivity]|].
    do 6 (constructor; [left; reflexivity|]).
    constructor; [exact Hfits | constructor]. }
  destruct (Sqlite.bind_all record) as [bound|] eqn:Hbound.
  - destruct (fits_row _ _ _ Hrow Hbound) as [-> Hstored].
    destruct (fresh_record_is_inserted "Ingredients" Ingredient.create w _ next
                (tail record) t 0%nat ids record
                Hbuild Ht Hi Haff Hids (next_is_new ids next Hnext) Hrange)
      as [w' [Hrun [Hdb Hrest]]].
    + rewrite Hcols. reflexivity.
    + exact Hbound.
    + exists w'. split; [exact Hrun|]. split; [|exact Hrest].
      rewrite Hdb. unfold Sqlite.stored_row. rewrite Hcols, Hstored. reflexivity.
  - exfalso. revert Hbound. unfold record, Sqlite.bind_all. simpl. rewrite Hrange.
    discriminate.
Qed.

(** X12: the same with [Ingredient.create] on the Ingredients table the
    program creates: the six lines read and the ABV become a new last row
    under the next identifier.  The ABV is stored as entered when it is a
    number the REAL column gives back unchanged. *)
Theorem new_ingredient_is_always_inserted w t ids next category group name brand
    description measure abv_line abv rest :
  Sqlite.find_table (database_of w DB) "Ingredients" = inr t ->
  Sqlite.tbl_columns t = ingredients_columns ->
  map (fun r => Sqlite.cell r 0) (Sqlite.tbl_rows t) = map VInt ids ->
  (ids = [] /\ next = 1) \/ (In (next - 1) ids /\ Forall (fun x => x <= next - 1) ids) ->
  Sqlite.in_int64 next = true ->
  stdin w = category :: group :: name :: brand :: description :: measure
              :: abv_line :: rest ->
  py_float abv_line = Some abv ->
  fits Sqlite.AffReal (VReal abv) ->
  exists w',
    ask_and_insert_entry "Ingredients" Ingredient.create w = Ok tt w'
    /\ Sqlite.find_table (database_of w' DB) "Ingredients"
       = inr (Sqlite.with_rows t
                (Sqlite.tbl_rows t
                   ++ [[VInt next; VText category; VText group; VText name;
                        VText brand; VText description; VText measure; VReal abv]]))
    /\ ~ In next ids
    /\ conns w' = conns w /\ stdin w' = rest
    /\ stdout w' = stdout w ++ ingredient_prompts ++ [abv_prompt].
Proof.
  intros Ht Hcols Hids Hnext Hrange Hin Habv Hfits.
  destruct (new_ingredient_inserted w t ids next category group name brand description
              measure abv_line abv rest Ht Hcols Hids Hnext Hrange Hin Habv Hfits)
    as [w' [Hrun [Hdb Hrest]]].
  exists w'. split; [exact Hrun|]. split; [|split; [|exact Hrest]].
  - rewrite Hdb. apply find_table_inserted.
  - apply next_is_new. exact Hnext.
Qed.

Lemma entry_already_exists_overflow table w t i z :
  Sqlite.find_table (database_of w DB) table = inr t ->
  Sqlite.find_column (Sqlite.tbl_columns t) "id" = Some i ->
  Sqlite.in_int64 z = false ->
  entry_already_exists table [("id"%string, VInt z)] w =
  Raise OverflowError (abandoned DB (Sqlite.SelectCountWhere table ["id"%string]) w).
Proof.
  intros Ht Hi Hz. rewrite entry_already_exists_spec, run_select_count. simpl.
  rewrite Ht. unfold Sqlite.find_columns. rewrite Hi.
  try rewrite decide_True by reflexivity.
  unfold Sqlite.bind_all. simpl. rewrite Hz. reflexivity.
Qed.

Lemma ask_and_insert_entry_overflows table entry_class w n rest w1 t i :
  entry_class w = Ok (VInt n :: rest) w1 ->
  Sqlite.find_table (database_of w1 DB) table = inr t ->
  Sqlite.find_column (Sqlite.tbl_columns t) "id" = Some i ->
  Sqlite.in_int64 n = false ->
  ask_and_insert_entry table entry_class w =
  Raise OverflowError
    (abandoned DB (Sqlite.SelectCountWhere table ["id"%string]) w1).
Proof.
  intros Hbuild Ht Hi Hn.
  unfold ask_and_insert_entry, bind at 1. rewrite Hbuild.
  unfold bind at 1. unfold ret at 1. unfold bind at 1.
  rewrite (entry_already_exists_overflow table w1 t i n Ht Hi Hn). reflexivity.
Qed.

(** X13: identifiers end at the largest 64-bit integer.  When that number
    is a stored identifier, [Drink.create] still makes the next one (a
    Python [int] has no bound) and asks its four questions, but the
    entry step then raises [OverflowError] when it looks the identifier
    up: nothing is stored, and the four lines read are lost. *)
Theorem identifiers_stop_at_int64_max w t i ids name description method garnish rest :
  Sqlite.find_table (database_of w DB) "Drinks" = inr t ->
  Sqlite.find_column (Sqlite.tbl_columns t) "id" = Some i ->
  map (fun r => Sqlite.cell r i) (Sqlite.tbl_rows t) = map VInt ids ->
  In Sqlite.int64_max ids ->
  Forall (fun x => x <= Sqlite.int64_max) ids ->
  stdin w = name :: description :: method :: garnish :: rest ->
  exists w',
    ask_and_insert_entry "Drinks" Drink.create w = Raise OverflowError w'
    /\ files w' = files w /\ stdin w' = rest
    /\ stdout w' = stdout w ++ drink_prompts.
Proof.
  intros Ht Hi Hids Hmax Hall Hin.
  destruct (new_id_integers "Drinks" w t i Ht Hi) as [_ Hrows].
  pose proof (Hrows ids Sqlite.int64_max Hids Hmax Hall) as Hid.
  pose proof (drink_create_world w _ _ name description method garnish rest Hid Hin)
    as Hbuild.
  unfold ask_and_insert_entry, bind at 1. rewrite Hbuild.
  unfold bind at 1. unfold ret at 1. unfold bind at 1.
  rewrite (entry_already_exists_overflow "Drinks" _ t i); [| exact Ht | exact Hi | reflexivity].
  eexists. split; [reflexivity|]. simpl. repeat split; reflexivity.
Qed.

(** ** The whole program *)

Lemma bind_ok {A B : Type} (m : M A) (k : A -> M B) w a w' :
  m w = Ok a w' -> bind m k w = k a w'.
Proof. intros Hm. unfold bind. rewrite Hm. reflexivity. Qed.

Lemma create_table_new db_name table_name columns w :
  columns <> [] ->
  database_of w db_name !! Sqlite.table_key table_name = None ->
  Sqlite.duplicate_column [] columns = None ->
  exists w',
    create_table db_name table_name columns w = Ok tt w'
    /\ database_of w' db_name
       = <[Sqlite.table_key table_name := Sqlite.Table table_name columns []]>
           (database_of w db_name)
    /\ conns w' = conns w /\ stdin w' = stdin w /\ stdout w' = stdout w.
Proof.
  intros Hcols Hnew Hdup. rewrite create_table_spec.
  unfold run_statement, Sqlite.prepare.
  destruct columns as [|c columns]; [congruence|].
  rewrite Hnew, Hdup. simpl.
  eexists. split; [reflexivity|]. split.
  - unfold database_of at 1. simpl. rewrite lookup_insert_eq. reflexivity.
  - simpl. repeat split; reflexivity.
Qed.

Lemma view_table_found table_name w t :
  Sqlite.find_table (database_of w DB) table_name = inr t ->
  exists w',
    view_table table_name w = Ok tt w'
    /\ database_of w' DB = database_of w DB
    /\ conns w' = conns w /\ stdin w' = stdin w
    /\ stdout w' = stdout w ++ table_lines t.
Proof.
  intros Ht. rewrite view_table_spec, Ht. eexists. split; [reflexivity|].
  simpl. repeat split; reflexivity.
Qed.

Lemma database_of_start lines file : database_of (start lines) file = ∅.
Proof. unfold database_of, start. simpl. rewrite lookup_empty. reflexivity. Qed.

Ltac other_key := intros Hsame; vm_compute in Hsame; discriminate.

Ltac find_in_tables :=
  unfold Sqlite.find_table;
  repeat (rewrite lookup_insert_eq || rewrite lookup_insert_ne by other_key
          || rewrite lookup_empty);
  reflexivity.

(** X14: a first run of the program.  With no database file yet and the
    eleven answers on the input (four for the drink, six for the
    ingredient and an ABV that [float()] accepts at once), the program
    runs to its end: the file then holds the three tables, Drinks with
    the one drink under identifier 1, Ingredients with the one ingredient
    under identifier 1, DrinkRecipes without a row; every connection is
    closed; and the console shows the ten prompts, the ABV prompt and the
    three tables. *)
Theorem first_run_stores_one_drink_and_one_ingredient
    name description method garnish category group product brand note measure
    abv_line abv rest :
  py_float abv_line = Some abv ->
  fits Sqlite.AffReal (VReal abv) ->
  let drinks :=
    Sqlite.Table "Drinks" drinks_columns
      [[VInt 1; VText name; VText description; VText method; VText garnish]] in
  let ingredients :=
    Sqlite.Table "Ingredients" ingredients_columns
      [[VInt 1; VText category; VText group; VText product; VText brand; VText note;
        VText measure; VReal abv]] in
  let recipes := Sqlite.Table "DrinkRecipes" drink_recipes_columns [] in
  exists w',
    main (start (name :: description :: method :: garnish :: category :: group
                   :: product :: brand :: note :: measure :: abv_line :: rest))
    = Ok tt w'
    /\ Sqlite.find_table (database_of w' DB) "Drinks" = inr drinks
    /\ Sqlite.find_table (database_of w' DB) "Ingredients" = inr ingredients
    /\ Sqlite.find_table (database_of w' DB) "DrinkRecipes" = inr recipes
    /\ conns w' = ∅
    /\ stdin w' = rest
    /\ stdout w' = drink_prompts ++ ingredient_prompts ++ [abv_prompt]
                     ++ table_lines drinks ++ table_lines ingredients
                     ++ table_lines recipes.
Proof.
  intros Habv Hfits drinks ingredients recipes.
  set (lines := name :: description :: method :: garnish :: category :: group
                  :: product :: brand :: note :: measure :: abv_line :: rest).
  set (w0 := start lines).
  destruct (create_table_new DB "Drinks" drinks_columns w0)
    as [w1 [R1 [D1 [C1 [I1 O1]]]]];
    [discriminate | unfold w0; rewrite database_of_start; apply lookup_empty
     | reflexivity |].
  unfold w0 in D1; rewrite database_of_start in D1.
  destruct (create_table_new DB "Ingredients" ingredients_columns w1)
    as [w2 [R2 [D2 [C2 [I2 O2]]]]];
    [discriminate | rewrite D1; find_in_tables | reflexivity |].
  rewrite D1 in D2.
  destruct (create_table_new DB "DrinkRecipes" drink_recipes_columns w2)
    as [w3 [R3 [D3 [C3 [I3 O3]]]]];
    [discriminate | rewrite D2; find_in_tables | reflexivity |].
  rewrite D2 in D3.
  destruct (new_drink_inserted w3 (Sqlite.Table "Drinks" drinks_columns []) [] 1
              name description method garnish
              (category :: group :: product :: brand :: note :: measure
                 :: abv_line :: rest))
    as [w4 [R4 [D4 [C4 [I4 O4]]]]];
    [rewrite D3; find_in_tables | reflexivity | reflexivity
     | left; split; reflexivity | reflexivity
     | rewrite I3, I2, I1; reflexivity |].
  rewrite D3 in D4.
  destruct (new_ingredient_inserted w4
              (Sqlite.Table "Ingredients" ingredients_columns []) [] 1
              category group product brand note measure abv_line abv rest)
    as [w5 [R5 [D5 [C5 [I5 O5]]]]];
    [rewrite D4; find_in_tables | reflexivity | reflexivity
     | left; split; reflexivity | reflexivity | exact I4 | exact Habv | exact Hfits |].
  rewrite D4 in D5.
  destruct (view_table_found "Drinks" w5 drinks) as [w6 [R6 [D6 [C6 [I6 O6]]]]];
    [rewrite D5; find_in_tables|].
  destruct (view_table_found "Ingredients" w6 ingredients)
    as [w7 [R7 [D7 [C7 [I7 O7]]]]];
    [rewrite D6, D5; find_in_tables|].
  destruct (view_table_found "DrinkRecipes" w7 recipes)
    as [w8 [R8 [D8 [C8 [I8 O8]]]]];
    [rewrite D7, D6, D5; find_in_tables|].
  exists w8. split.
  - unfold main.
    rewrite (bind_ok _ _ _ _ _ R1), (bind_ok _ _ _ _ _ R2), (bind_ok _ _ _ _ _ R3),
      (bind_ok _ _ _ _ _ R4), (bind_ok _ _ _ _ _ R5), (bind_ok _ _ _ _ _ R6),
      (bind_ok _ _ _ _ _ R7).
    exact R8.
  - rewrite D8, D7, D6, D5.
    split; [find_in_tables|]. split; [find_in_tables|]. split; [find_in_tables|].
    split; [rewrite C8, C7, C6, C5, C4, C3, C2, C1; reflexivity|].
    split; [rewrite I8, I7, I6; exact I5|].
    rewrite O8, O7, O6, O5, O4, O3, O2, O1. unfold w0, start. simpl.
    rewrite <- ?app_assoc. reflexivity.
Qed.

Lemma create_table_found db_name table_name columns w t :
  Sqlite.find_table (database_of w db_name) table_name = inr t ->
  columns <> [] ->
  exists w',
    create_table db_name table_name columns w = Ok tt w'
    /\ database_of w' db_name = database_of w db_name
    /\ conns w' = conns w /\ stdin w' = stdin w /\ stdout w' = stdout w.
Proof.
  intros Ht Hcols. rewrite create_table_spec.
  unfold run_statement, Sqlite.prepare.
  destruct columns as [|c columns]; [congruence|].
  rewrite (find_table_key _ _ _ Ht). simpl.
  eexists. split; [reflexivity|]. split.
  - unfold database_of at 1. simpl. rewrite lookup_insert_eq. reflexivity.
  - simpl. repeat split; reflexivity.
Qed.

Lemma find_other_table db key t name :
  key <> Sqlite.table_key name ->
  Sqlite.find_table (<[key := t]> db) name = Sqlite.find_table db name.
Proof.
  intros Hkey. unfold Sqlite.find_table. rewrite lookup_insert_ne by exact Hkey.
  reflexivity.
Qed.

(** X15: a later run of the program.  On a file that holds the three
    tables as the program creates them, with integer identifiers, the
    three [create_table] calls change nothing and the run adds exactly
    one drink and one ingredient, each under the identifier after the
    largest one stored (1 in a table without rows), after the rows that
    were there; DrinkRecipes is
    as before, and every connection the run opened is closed. *)
Theorem later_run_adds_one_drink_and_one_ingredient
    w drinks ingredients recipes drink_ids ingredient_ids drink_id ingredient_id
    name description method garnish category group product brand note measure
    abv_line abv rest :
  Sqlite.find_table (database_of w DB) "Drinks" = inr drinks ->
  Sqlite.tbl_columns drinks = drinks_columns ->
  Sqlite.find_table (database_of w DB) "Ingredients" = inr ingredients ->
  Sqlite.tbl_columns ingredients = ingredients_columns ->
  Sqlite.find_table (database_of w DB) "DrinkRecipes" = inr recipes ->
  map (fun r => Sqlite.cell r 0) (Sqlite.tbl_rows drinks) = map VInt drink_ids ->
  (drink_ids = [] /\ drink_id = 1)
    \/ (In (drink_id - 1) drink_ids /\ Forall (fun x => x <= drink_id - 1) drink_ids) ->
  Sqlite.in_int64 drink_id = true ->
  map (fun r => Sqlite.cell r 0) (Sqlite.tbl_rows ingredients)
    = map VInt ingredient_ids ->
  (ingredient_ids = [] /\ ingredient_id = 1)
    \/ (In (ingredient_id - 1) ingredient_ids
        /\ Forall (fun x => x <= ingredient_id - 1) ingredient_ids) ->
  Sqlite.in_int64 ingredient_id = true ->
  stdin w = name :: description :: method :: garnish :: category :: group
              :: product :: brand :: note :: measure :: abv_line :: rest ->
  py_float abv_line = Some abv ->
  fits Sqlite.AffReal (VReal abv) ->
  exists w',
    main w = Ok tt w'
    /\ Sqlite.find_table (database_of w' DB) "Drinks"
       = inr (Sqlite.with_rows drinks
                (Sqlite.tbl_rows drinks
                   ++ [[VInt drink_id; VText name; VText description; VText method;
                        VText garnish]]))
    /\ Sqlite.find_table (database_of w' DB) "Ingredients"
       = inr (Sqlite.with_rows ingredients
                (Sqlite.tbl_rows ingredients
                   ++ [[VInt ingredient_id; VText category; VText group;
                        VText product; VText brand; VText note; VText measure;
                        VReal abv]]))
    /\ Sqlite.find_table (database_of w' DB) "DrinkRecipes" = inr recipes
    /\ conns w' = conns w
    /\ stdin w' = rest.
Proof.
  intros Hd Hdcols Hi Hicols Hr Hdids Hdnext Hdrange Hiids Hinext Hirange Hin Habv Hfits.
  destruct (create_table_found DB "Drinks" drinks_columns w drinks Hd)
    as [w1 [R1 [D1 [C1 [I1 O1]]]]]; [discriminate|].
  destruct (create_table_found DB "Ingredients" ingredients_columns w1 ingredients)
    as [w2 [R2 [D2 [C2 [I2 O2]]]]]; [rewrite D1; exact Hi | discriminate |].
  destruct (create_table_found DB "DrinkRecipes" drink_recipes_columns w2 recipes)
    as [w3 [R3 [D3 [C3 [I3 O3]]]]]; [rewrite D2, D1; exact Hr | discriminate |].
  rewrite D2, D1 in D3.
  destruct (new_drink_inserted w3 drinks drink_ids drink_id
              name description method garnish
              (category :: group :: product :: brand :: note :: measure
                 :: abv_line :: rest))
    as [w4 [R4 [D4 [C4 [I4 O4]]]]];
    [rewrite D3; exact Hd | exact Hdcols | exact Hdids | exact Hdnext
     | exact Hdrange | rewrite I3, I2, I1; exact Hin |].
  rewrite D3 in D4.
  destruct (new_ingredient_inserted w4 ingredients ingredient_ids ingredient_id
              category group product brand note measure abv_line abv rest)
    as [w5 [R5 [D5 [C5 [I5 O5]]]]];
    [rewrite D4, find_other_table by other_key; exact Hi | exact Hicols | exact Hiids
     | exact Hinext | exact Hirange | exact I4 | exact Habv | exact Hfits |].
  rewrite D4 in D5.
  assert (Fd : Sqlite.find_table (database_of w5 DB) "Drinks"
               = inr (Sqlite.with_rows drinks
                        (Sqlite.tbl_rows drinks
                           ++ [[VInt drink_id; VText name; VText description;
                                VText method; VText garnish]]))).
  { rewrite D5, find_other_table by other_key. apply find_table_inserted. }
  assert (Fi : Sqlite.find_table (database_of w5 DB) "Ingredients"
               = inr (Sqlite.with_rows ingredients
                        (Sqlite.tbl_rows ingredients
                           ++ [[VInt ingredient_id; VText category; VText group;
                                VText product; VText brand; VText note;
                                VText measure; VReal abv]]))).
  { rewrite D5. apply find_table_inserted. }
  assert (Fr : Sqlite.find_table (database_of w5 DB) "DrinkRecipes" = inr recipes).
  { rewrite D5, !find_other_table by other_key. exact Hr. }
  destruct (view_table_found "Drinks" w5 _ Fd) as [w6 [R6 [D6 [C6 [I6 O6]]]]].
  destruct (view_table_found "Ingredients" w6 _ ltac:(rewrite D6; exact Fi))
    as [w7 [R7 [D7 [C7 [I7 O7]]]]].
  destruct (view_table_found "DrinkRecipes" w7 _ ltac:(rewrite D7, D6; exact Fr))
    as [w8 [R8 [D8 [C8 [I8 O8]]]]].
  exists w8. split.
  - unfold main.
    rewrite (bind_ok _ _ _ _ _ R1), (bind_ok _ _ _ _ _ R2), (bind_ok _ _ _ _ _ R3),
      (bind_ok _ _ _ _ _ R4), (bind_ok _ _ _ _ _ R5), (bind_ok _ _ _ _ _ R6),
      (bind_ok _ _ _ _ _ R7).
    exact R8.
  - rewrite D8, D7, D6.
    split; [exact Fd|]. split; [exact Fi|]. split; [exact Fr|].
    split; [rewrite C8, C7, C6, C5, C4, C3, C2, C1; reflexivity|].
    rewrite I8, I7, I6. exact I5.
Qed.

Ltac by_cases :=
  repeat match goal with
         | |- context [match ?x with _ => _ end] => destruct x
         end;
  simpl; try split; reflexivity.

(** X16: the functions that go to the store keep away from the console.
    Whether they return or raise, [create_table], [insert_into_table],
    [entry_already_exists] and the identifier step of the builders read
    no line and print nothing; [view_table] prints but reads no line.
    The answers waiting on the input are only ever taken by a prompt. *)
Theorem store_access_is_silent w :
  (forall db_name table_name columns,
     stdin (final (create_table db_name table_name columns w)) = stdin w
     /\ stdout (final (create_table db_name table_name columns w)) = stdout w)
  /\ (forall db_name table_name values,
        stdin (final (insert_into_table db_name table_name values w)) = stdin w
        /\ stdout (final (insert_into_table db_name table_name values w)) = stdout w)
  /\ (forall table kwargs,
        stdin (final (entry_already_exists table kwargs w)) = stdin w
        /\ stdout (final (entry_already_exists table kwargs w)) = stdout w)
  /\ (forall table,
        stdin (final (new_id table w)) = stdin w
        /\ stdout (final (new_id table w)) = stdout w)
  /\ (forall table_name, stdin (final (view_table table_name w)) = stdin w).
Proof.
  split; [|split; [|split; [|split]]]; intros.
  - rewrite create_table_spec. by_cases.
  - rewrite insert_into_table_spec. by_cases.
  - rewrite entry_already_exists_spec. by_cases.
  - rewrite new_id_spec.
    destruct (Sqlite.find_table _ _) as [e|t]; [split; reflexivity|].
    destruct (Sqlite.find_column _ _) as [i|]; [|split; reflexivity].
    rewrite next_id_spec. by_cases.
  - rewrite view_table_spec. by_cases.
Qed.

(** ** Integers as text *)

Lemma uint_value_acc d acc :
  uint_value (Zpos acc) d = Zpos (Pos.of_uint_acc d acc).
Proof.
  revert acc. induction d; intros acc; simpl; try reflexivity;
    rewrite <- IHd; f_equal; lia.
Qed.

Lemma uint_value_of_uint d : uint_value 0 d = Z.of_N (Pos.of_uint d).
Proof.
  induction d; simpl; try reflexivity; try exact IHd;
    rewrite <- uint_value_acc; reflexivity.
Qed.

Lemma digits_value_uint d acc after_digit :
  d <> Decimal.Nil \/ after_digit = true ->
  Text.digits_value acc after_digit (Text.chars (NilEmpty.string_of_uint d))
  = Some (uint_value acc d).
Proof.
  revert acc after_digit.
  induction d; intros acc after_digit Hsome; simpl;
    try (apply IHd; right; reflexivity).
  - destruct Hsome as [Hnil| ->]; [congruence | reflexivity].
  - rewrite IHd by (right; reflexivity). do 2 f_equal.
    change (Text.digit_value "0") with 0. lia.
Qed.

Lemma digits_are_digits d :
  Forall (fun c => Text.is_digit c = true) (Text.chars (NilEmpty.string_of_uint d)).
Proof. induction d; simpl; constructor; try reflexivity; exact IHd. Qed.

Lemma lstrip_no_space l :
  Forall (fun c => Text.is_space c = false) l -> Text.lstrip l = l.
Proof. intros Hl. destruct Hl as [|c l Hc _]; simpl; [reflexivity|]. rewrite Hc. reflexivity. Qed.

Lemma strip_no_space l :
  Forall (fun c => Text.is_space c = false) l -> Text.strip l = l.
Proof.
  intros Hl. unfold Text.strip. rewrite (lstrip_no_space l Hl).
  rewrite lstrip_no_space by (apply Forall_rev; exact Hl).
  apply rev_involutive.
Qed.

Lemma digit_is_plain c :
  Text.is_digit c = true -> Text.code c < 127 /\ Text.is_space c = false.
Proof.
  unfold Text.is_digit, Text.is_space. intros Hc.
  apply andb_true_iff in Hc as [Hlo Hhi].
  apply Z.leb_le in Hlo. apply Z.leb_le in Hhi. split; [lia|].
  apply orb_false_iff. split; [apply Z.eqb_neq; lia|].
  apply andb_false_iff. right. apply Z.leb_gt. lia.
Qed.

Lemma to_ascii_code c : Text.code c < 127 -> Text.to_ascii (Text.code c) = c.
Proof.
  intros Hc. unfold Text.to_ascii.
  assert ((Text.code c <? 127) = true) as -> by (apply Z.ltb_lt; exact Hc).
  unfold Text.code. rewrite N2Z.id. apply ascii_N_embedding.
Qed.

(** Text of ASCII characters is read as it stands. *)
Lemma ascii_text_as_read l :
  Forall (fun c => Text.code c < 127) l ->
  map Text.to_ascii (Text.decode 0 (map Text.code l)) = l.
Proof.
  induction 1 as [|c l Hc _ IH]; [reflexivity|].
  simpl. unfold Text.sequence.
  assert ((Text.code c <? 128) = true) as -> by (apply Z.ltb_lt; lia).
  simpl. rewrite IH, to_ascii_code by exact Hc. reflexivity.
Qed.

Lemma count_all_digits l :
  Forall (fun c => Text.is_digit c = true) l -> Text.count_digits l = length l.
Proof.
  unfold Text.count_digits. induction 1 as [|c l Hc _ IH]; [reflexivity|].
  rewrite filter_cons. rewrite decide_True by (rewrite Hc; exact I).
  simpl. rewrite IH. reflexivity.
Qed.

Lemma chars_length s : length (Text.chars s) = String.length s.
Proof. induction s as [|c s IH]; simpl; [reflexivity|]. rewrite <- IH. reflexivity. Qed.

(** The integer a run of digits within the limit is read as. *)
Lemma py_int_digits d (neg : bool) :
  d <> Decimal.Nil ->
  Z.of_nat (String.length (NilEmpty.string_of_uint d)) <= Text.max_str_digits ->
  Text.py_int ((if neg then "-" else "") +:+ NilEmpty.string_of_uint d)
  = Some (if neg then - uint_value 0 d else uint_value 0 d).
Proof.
  intros Hnil Hlen.
  pose proof (digits_are_digits d) as Hdigits.
  set (digits := Text.chars (NilEmpty.string_of_uint d)) in *.
  assert (Hplain : Forall (fun c => Text.code c < 127 /\ Text.is_space c = false) digits).
  { eapply Forall_impl; [exact Hdigits|]. intros c Hc. apply digit_is_plain, Hc. }
  assert (Hread : Text.strip
                    (map Text.to_ascii
                       (Text.code_points
                          ((if neg then "-" else "") +:+ NilEmpty.string_of_uint d)))
                  = (if neg then ["-"%char] else []) ++ digits).
  { unfold Text.code_points.
    assert (Hchars : Text.chars ((if neg then "-" else "") +:+ NilEmpty.string_of_uint d)
                     = (if neg then ["-"%char] else []) ++ digits)
      by (destruct neg; reflexivity).
    rewrite Hchars, ascii_text_as_read.
    - apply strip_no_space. destruct neg; simpl.
      + constructor; [reflexivity|].
        eapply Forall_impl; [exact Hplain|]. intros c Hc. apply Hc.
      + eapply Forall_impl; [exact Hplain|]. intros c Hc. apply Hc.
    - destruct neg; simpl.
      + constructor; [vm_compute; reflexivity|].
        eapply Forall_impl; [exact Hplain|]. intros c Hc. apply Hc.
      + eapply Forall_impl; [exact Hplain|]. intros c Hc. apply Hc. }
  unfold Text.py_int. rewrite Hread.
  assert (Hsign : Text.signed ((if neg then ["-"%char] else []) ++ digits)
                  = (neg, digits)).
  { destruct neg; [reflexivity|]. unfold digits. destruct d; reflexivity. }
  rewrite Hsign.
  assert (Hcount : (Text.max_str_digits <? Z.of_nat (Text.count_digits digits)) = false).
  { apply Z.ltb_ge. rewrite (count_all_digits _ Hdigits). unfold digits.
    rewrite chars_length. exact Hlen. }
  rewrite Hcount. unfold digits.
  rewrite digits_value_uint by (left; exact Hnil). reflexivity.
Qed.

Lemma py_int_of_Z z :
  Z.of_nat (digits_of z) <= Text.max_str_digits ->
  Text.py_int (Text.of_Z z) = Some z.
Proof.
  unfold digits_of. destruct z as [|p|p]; intros Hlen.
  - reflexivity.
  - pose proof (Unsigned.to_uint_nonnil p) as Hnil.
    assert (Hstr : Text.of_Z (Z.pos p) = NilEmpty.string_of_uint (Pos.to_uint p)).
    { unfold Text.of_Z. simpl. destruct (Pos.to_uint p); try reflexivity. congruence. }
    change (Z.abs (Z.pos p)) with (Z.pos p) in Hlen. rewrite Hstr in *.
    replace (Z.pos p) with (uint_value 0 (Pos.to_uint p))
      by (rewrite uint_value_of_uint, Unsigned.of_to; reflexivity).
    exact (py_int_digits (Pos.to_uint p) false Hnil Hlen).
  - pose proof (Unsigned.to_uint_nonnil p) as Hnil.
    assert (Hstr : Text.of_Z (Z.pos p) = NilEmpty.string_of_uint (Pos.to_uint p)).
    { unfold Text.of_Z. simpl. destruct (Pos.to_uint p); try reflexivity. congruence. }
    assert (Hneg : Text.of_Z (Z.neg p)
                   = ("-" +:+ NilEmpty.string_of_uint (Pos.to_uint p))%string).
    { unfold Text.of_Z. simpl. destruct (Pos.to_uint p); try reflexivity. congruence. }
    change (Z.abs (Z.neg p)) with (Z.pos p) in Hlen. rewrite Hstr in Hlen. rewrite Hneg.
    replace (Z.neg p) with (- uint_value 0 (Pos.to_uint p))
      by (rewrite uint_value_of_uint, Unsigned.of_to; reflexivity).
    exact (py_int_digits (Pos.to_uint p) true Hnil Hlen).
Qed.

(** X17: [get_int] reads back what [str()] prints.  For every integer of
    at most 4300 digits, the most [str()] prints and [int()] reads, a
    line holding it in decimal, as Python prints it (and as [view_table]
    shows an identifier), is accepted at the first prompt and the reader
    returns that integer. *)
Theorem get_int_reads_back_str z display_string w rest :
  Z.of_nat (digits_of z) <= Text.max_str_digits ->
  stdin w = Text.of_Z z :: rest ->
  get_int display_string w =
  Ok z (World (files w) (conns w) (trace w) rest (stdout w ++ [display_string])).
Proof.
  intros Hlen Hin. unfold get_int. rewrite Hin.
  unfold ask_until. rewrite (py_int_of_Z z Hlen). reflexivity.
Qed.

(** ** How the store functions compose *)


Lemma insert_into_table_stores db_name table_name values w t bound :
  values <> [] ->
  Sqlite.find_table (database_of w db_name) table_name = inr t ->
  length values = length (Sqlite.tbl_columns t) ->
  Sqlite.bind_all values = Some bound ->
  exists w',
    insert_into_table db_name table_name values w = Ok tt w'
    /\ database_of w' db_name
       = <[Sqlite.table_key table_name :=
             Sqlite.with_rows t (Sqlite.tbl_rows t ++ [Sqlite.stored_row t bound])]>
           (database_of w db_name)
    /\ conns w' = conns w /\ stdin w' = stdin w /\ stdout w' = stdout w.
Proof.
  intros Hvalues Ht Hlen Hbound. rewrite insert_into_table_spec.
  rewrite (run_insert table_name values (database_of w db_name) t bound
             Hvalues Ht Hlen Hbound).
  eexists. split; [reflexivity|]. split.
  - unfold database_of at 1. simpl. rewrite lookup_insert_eq. reflexivity.
  - simpl. repeat split; reflexivity.
Qed.

(** X19: [insert_into_table] keeps no record out.  In a table whose
    columns carry no constraint it does not look at what is stored:
    called twice with the same record it stores the record twice, as the
    last two rows of the table.  Only the entry step, which asks
    [entry_already_exists] first, turns a known identifier away. *)
Theorem insert_into_table_does_not_deduplicate db_name table_name values w t bound :
  values <> [] ->
  Sqlite.find_table (database_of w db_name) table_name = inr t ->
  plain_table t ->
  length values = length (Sqlite.tbl_columns t) ->
  Sqlite.bind_all values = Some bound ->
  exists w1 w2,
    insert_into_table db_name table_name values w = Ok tt w1
    /\ insert_into_table db_name table_name values w1 = Ok tt w2
    /\ Sqlite.find_table (database_of w2 db_name) table_name
       = inr (Sqlite.with_rows t
                (Sqlite.tbl_rows t
                   ++ [Sqlite.stored_row t bound; Sqlite.stored_row t bound])).
Proof.
  intros Hvalues Ht _ Hlen Hbound.
  destruct (insert_into_table_stores db_name table_name values w t bound
              Hvalues Ht Hlen Hbound) as [w1 [R1 [D1 _]]].
  set (t1 := Sqlite.with_rows t (Sqlite.tbl_rows t ++ [Sqlite.stored_row t bound])).
  destruct (insert_into_table_stores db_name table_name values w1 t1 bound)
    as [w2 [R2 [D2 _]]]; try assumption.
  { rewrite D1. apply find_table_inserted. }
  exists w1, w2. split; [exact R1|]. split; [exact R2|].
  rewrite D2, find_table_inserted. f_equal.
  unfold t1, Sqlite.with_rows, Sqlite.stored_row. simpl.
  rewrite <- app_assoc. reflexivity.
Qed.

End Properties.

(** * The properties at work *)

Lemma get_int_first_integer_witness :
  get_int "Units: " (start ["abc"; "12.5"; "7"]%string) =
  Ok 7 (World ∅ ∅ [] []
          ["Units: "; int_complaint +:+ newline; "Units: ";
           int_complaint +:+ newline; "Units: "]%string).
Proof.
  apply (proj2 (get_int_first_integer "Units: " (start ["abc"; "12.5"; "7"]%string))
           ["abc"; "12.5"]%string "7"%string 7 []).
  - reflexivity.
  - repeat constructor.
  - reflexivity.
Defined.

Lemma get_str_first_alphabetic_witness :
  get_str "Name: " (start ["John3"; "Ann Smith"; "John"]%string) =
  Ok "John"%string
     (World ∅ ∅ [] []
        ["Name: "; str_complaint +:+ newline; "Name: ";
         str_complaint +:+ newline; "Name: "]%string).
Proof.
  apply (proj2 (get_str_first_alphabetic "Name: "
                  (start ["John3"; "Ann Smith"; "John"]%string))
           ["John3"; "Ann Smith"]%string "John"%string []).
  - reflexivity.
  - constructor; [exists 51; split; [vm_compute; tauto | reflexivity]|].
    constructor; [exists 32; split; [vm_compute; tauto | reflexivity]|].
    constructor.
  - discriminate.
  - repeat constructor.
Defined.

Lemma get_str_never_empty_witness :
  get_str "Name: " (start [""%string; jose]) =
  get_str "Name: " (World ∅ ∅ [] [jose]
                      ["Name: "; str_complaint +:+ newline]%string)
  /\ (jose <> ""%string
      /\ Forall (fun c => Unicode.is_alpha c = true) (Text.code_points jose)).
Proof.
  split.
  - apply (proj1 (get_str_never_empty "Name: " (start [""%string; jose])) [jose]).
    reflexivity.
  - apply (proj2 (get_str_never_empty "Name: " (start [jose])) jose
             (World ∅ ∅ [] [] ["Name: "%string])).
    reflexivity.
Defined.

Lemma ask_and_insert_entry_by_identifier_witness :
  ask_and_insert_entry "Drinks" (ret negroni) cellar =
  Ok tt (write (duplicate_message "Drinks" +:+ newline)
           (accessed DB (Sqlite.SelectCountWhere "Drinks" ["id"%string]) false
              (files cellar) cellar)).
Proof.
  apply (ask_and_insert_entry_by_identifier "Drinks" (ret negroni) cellar 3
           [VText "Negroni"; VText "Classic"; VText "Stirred"; VText "Orange peel"]
           cellar (drinks_with [negroni]) 0%nat).
  - reflexivity.
  - reflexivity.
  - reflexivity.
  - reflexivity.
  - vm_compute. discriminate.
Defined.

Lemma create_assigns_next_identifier_witness :
  exists w',
    Drink.create cellar =
    Ok [VInt 4; VText "Negroni"; VText "Classic"; VText "Stirred"; VText "Orange peel"] w'.
Proof.
  destruct (create_assigns_next_identifier cellar) as [Hdrink _].
  destruct (Hdrink (drinks_with [negroni]) 0%nat
              "Negroni"%string "Classic"%string "Stirred"%string "Orange peel"%string [])
    as [_ Hnext].
  - reflexivity.
  - reflexivity.
  - reflexivity.
  - apply (Hnext [3] 3).
    + discriminate.
    + reflexivity.
    + left. reflexivity.
    + repeat constructor. lia.
Defined.

(** C3 fails as stated: a stored row has the identifier [None], and the
    checker asked for [id = None] answers false. *)
Lemma null_identifier_is_never_found :
  (exists r, In r (rows_of unnamed_cellar DB "drinks")
             /\ Sqlite.cell r 0 = VNull /\ py_eq (Sqlite.cell r 0) VNull = true)
  /\ exists w', entry_already_exists "Drinks" [("id"%string, VNull)] unnamed_cellar
                = Ok false w'.
Proof.
  split.
  - exists water. split; [left; reflexivity | split; reflexivity].
  - eexists. reflexivity.
Qed.

Lemma entry_already_exists_iff_witness :
  exists found,
    entry_already_exists "Drinks" [("id"%string, VInt 3)] cellar =
      Ok found (accessed DB (Sqlite.SelectCountWhere "Drinks" ["id"%string]) false
                  (files cellar) cellar)
    /\ (found = true <->
        exists r, In r [negroni] /\ Forall (meets (drinks_with [negroni]) r)
                                      [("id"%string, VInt 3)])
    /\ (forall n i,
          [("id"%string, VInt 3)] = [("id"%string, VInt n)] ->
          Sqlite.find_column drinks_columns "id" = Some i ->
          Sqlite.column_affinity (drinks_with [negroni]) i <> Sqlite.AffText ->
          (found = true <->
           exists r, In r [negroni] /\ py_eq (Sqlite.cell r i) (VInt n) = true)).
Proof.
  apply (entry_already_exists_iff "Drinks" [("id"%string, VInt 3)] cellar
           (drinks_with [negroni])).
  - discriminate.
  - reflexivity.
  - reflexivity.
  - intros c [<-|[]]. eexists. reflexivity.
  - intros c [<-|[]]. eexists. reflexivity.
Defined.

(** C4 fails as stated: an integer stored in a TEXT column comes back as
    text, so the row fetched is not the row inserted. *)
Lemma integer_in_text_column_comes_back_as_text :
  exists w1,
    length numbered = length drinks_columns
    /\ insert_into_table DB "Drinks" numbered empty_cellar = Ok tt w1
    /\ rows_of w1 DB "drinks"
       = [[VInt 1; VText "7"; VText ""; VText "Stirred"; VText ""]]
    /\ ~ In numbered (rows_of w1 DB "drinks")
    /\ forallb (fun r => py_eq (Sqlite.cell r 1) (Sqlite.cell numbered 1))
         (rows_of w1 DB "drinks") = false.
Proof.
  eexists. split; [reflexivity|]. split; [reflexivity|]. split; [reflexivity|].
  split; [|reflexivity].
  intros [Heq|[]]. discriminate.
Qed.

Lemma insert_then_fetch_witness :
  exists w1,
    insert_into_table DB "Drinks" negroni empty_cellar = Ok tt w1
    /\ Sqlite.find_table (database_of w1 DB) "Drinks" = inr (drinks_with [negroni])
    /\ view_table "Drinks" w1 =
       Ok tt (write_all (table_lines (drinks_with [negroni]))
                (accessed DB (Sqlite.SelectAll "Drinks") false (files w1) w1))
    /\ (Forall2 fits (map Sqlite.col_affinity drinks_columns) negroni ->
        Sqlite.stored_row (drinks_with []) negroni = negroni).
Proof.
  apply (insert_then_fetch "Drinks" negroni empty_cellar (drinks_with []) negroni).
  - discriminate.
  - reflexivity.
  - reflexivity.
  - reflexivity.
  - reflexivity.
Defined.


(** C8 fails as stated: on a database without the table the statement
    raises, and the connection opened for it is still open afterwards;
    [close] was never called. *)
Lemma failed_statement_leaves_connection_open :
  entry_already_exists "Drinks" [("id"%string, VInt 1)] (start []) =
  Raise (OperationalError (Sqlite.NoSuchTable "Drinks"))
    (World ∅ {[ 0%nat := Connection DB None ]}
       [Connected 0 DB; Executed 0 "SELECT COUNT(*) FROM Drinks WHERE id = ?"]
       [] [])
  /\ conns (final (entry_already_exists "Drinks" [("id"%string, VInt 1)] (start [])))
     <> conns (start []).
Proof.
  split; [reflexivity|].
  change (({[ 0%nat := Connection DB None ]} : gmap nat connection) <> ∅).
  apply map_non_empty_singleton.
Qed.

Lemma create_table_keeps_existing_table_witness :
  exists w',
    create_table DB "Drinks" [Sqlite.Column "name" "TEXT"] cellar = Ok tt w'
    /\ files w' = files cellar
    /\ Sqlite.find_table (database_of w' DB) "Drinks" = inr (drinks_with [negroni]).
Proof.
  apply (create_table_keeps_existing_table DB "Drinks" [Sqlite.Column "name" "TEXT"]
           cellar (drinks_with [negroni])).
  - reflexivity.
  - discriminate.
Defined.

Lemma insert_into_table_rejects_witness :
  insert_into_table DB "Drinks" [VInt 1; VText "Gimlet"] cellar =
  Raise (OperationalError (Sqlite.WrongArity "Drinks" 5 2))
    (abandoned DB (Sqlite.InsertValues "Drinks" 2) cellar).
Proof.
  apply (proj1 (proj2 (insert_into_table_rejects DB "Drinks" [VInt 1; VText "Gimlet"]
                         cellar ltac:(discriminate)))
           (drinks_with [negroni])).
  - reflexivity.
  - simpl. lia.
Defined.

Lemma entry_already_exists_rejects_witness :
  entry_already_exists "Drinks" [("id"%string, VInt (2 ^ 63))] cellar =
  Raise OverflowError
    (abandoned DB (Sqlite.SelectCountWhere "Drinks" ["id"%string]) cellar).
Proof.
  apply (proj2 (entry_already_exists_rejects "Drinks"
                  [("id"%string, VInt (2 ^ 63))] cellar ltac:(discriminate))
           (drinks_with [negroni])).
  - reflexivity.
  - intros key [<-|[]]. eexists. reflexivity.
  - constructor. exists (2 ^ 63). split; reflexivity.
Defined.

Lemma none_identifier_is_never_a_duplicate_witness :
  ask_and_insert_entry "Drinks" (ret water) unnamed_cellar =
  insert_into_table DB "Drinks" water
    (accessed DB (Sqlite.SelectCountWhere "Drinks" ["id"%string]) false
       (files unnamed_cellar) unnamed_cellar).
Proof.
  apply (none_identifier_is_never_a_duplicate "Drinks" (ret water) unnamed_cellar
           [VText "Water"; VText ""; VText ""; VText ""] unnamed_cellar
           (drinks_with [water]) 0%nat).
  - reflexivity.
  - reflexivity.
  - reflexivity.
Defined.

Lemma ingredient_create_asks_abv_again_witness :
  exists w',
    Ingredient.create (pantry (gin ++ ["strong"; "43,1"; "43.1"; "next"]%string)) =
    Ok [VInt 1; VText "Spirit"; VText "Gin"; VText "Dry"; VText "Tanqueray"; VText "";
        VText "ml"; VReal abv_43_1] w'
    /\ stdin w' = ["next"%string]
    /\ stdout w' = stdout (pantry (gin ++ ["strong"; "43,1"; "43.1"; "next"]%string))
                     ++ ingredient_prompts
                     ++ rejections abv_prompt float_complaint ["strong"; "43,1"]%string
                     ++ [abv_prompt]
    /\ files w' = files (pantry (gin ++ ["strong"; "43,1"; "43.1"; "next"]%string)).
Proof.
  apply (ingredient_create_asks_abv_again
           (pantry (gin ++ ["strong"; "43,1"; "43.1"; "next"]%string))
           (ingredients_with []) 0%nat [] 1
           "Spirit" "Gin" "Dry" "Tanqueray" "" "ml" ["strong"; "43,1"]%string "43.1"
           abv_43_1 ["next"%string]).
  - reflexivity.
  - reflexivity.
  - reflexivity.
  - left. split; reflexivity.
  - reflexivity.
  - repeat constructor.
  - vm_compute. reflexivity.
Defined.

Lemma new_drink_is_always_inserted_witness :
  exists w',
    ask_and_insert_entry "Drinks" Drink.create cellar = Ok tt w'
    /\ Sqlite.find_table (database_of w' DB) "Drinks"
       = inr (Sqlite.with_rows (drinks_with [negroni])
                ([negroni]
                   ++ [[VInt 4; VText "Negroni"; VText "Classic"; VText "Stirred";
                        VText "Orange peel"]]))
    /\ ~ In 4 [3]
    /\ conns w' = conns cellar /\ stdin w' = []
    /\ stdout w' = stdout cellar ++ drink_prompts.
Proof.
  apply (new_drink_is_always_inserted cellar (drinks_with [negroni]) [3] 4
           "Negroni" "Classic" "Stirred" "Orange peel" []).
  - reflexivity.
  - reflexivity.
  - reflexivity.
  - right. split; [left; reflexivity | repeat constructor; lia].
  - reflexivity.
  - reflexivity.
Defined.

Lemma new_ingredient_is_always_inserted_witness :
  exists w',
    ask_and_insert_entry "Ingredients" Ingredient.create
      (pantry (gin ++ ["43.1"]%string)) = Ok tt w'
    /\ Sqlite.find_table (database_of w' DB) "Ingredients"
       = inr (Sqlite.with_rows (ingredients_with [])
                ([] ++ [[VInt 1; VText "Spirit"; VText "Gin"; VText "Dry";
                         VText "Tanqueray"; VText ""; VText "ml"; VReal abv_43_1]]))
    /\ ~ In 1 []
    /\ conns w' = conns (pantry (gin ++ ["43.1"]%string)) /\ stdin w' = []
    /\ stdout w' = stdout (pantry (gin ++ ["43.1"]%string))
                     ++ ingredient_prompts ++ [abv_prompt].
Proof.
  apply (new_ingredient_is_always_inserted (pantry (gin ++ ["43.1"]%string))
           (ingredients_with []) [] 1
           "Spirit" "Gin" "Dry" "Tanqueray" "" "ml" "43.1" abv_43_1 []).
  - reflexivity.
  - reflexivity.
  - reflexivity.
  - left. split; reflexivity.
  - reflexivity.
  - reflexivity.
  - vm_compute. reflexivity.
  - split; [reflexivity|]. right. split; [reflexivity|].
    intros z Hz. vm_compute in Hz. discriminate.
Defined.

Lemma identifiers_stop_at_int64_max_witness :
  exists w',
    ask_and_insert_entry "Drinks" Drink.create full_cellar = Raise OverflowError w'
    /\ files w' = files full_cellar /\ stdin w' = []
    /\ stdout w' = stdout full_cellar ++ drink_prompts.
Proof.
  apply (identifiers_stop_at_int64_max full_cellar (drinks_with [last_drink]) 0%nat
           [Sqlite.int64_max] "Negroni" "Classic" "Stirred" "Orange peel" []).
  - reflexivity.
  - reflexivity.
  - reflexivity.
  - left. reflexivity.
  - repeat constructor. lia.
  - reflexivity.
Defined.

Lemma first_run_stores_one_drink_and_one_ingredient_witness :
  exists w',
    main (start answers) = Ok tt w'
    /\ Sqlite.find_table (database_of w' DB) "Drinks" = inr (drinks_with [
         [VInt 1; VText "Negroni"; VText "Classic"; VText "Stirred";
          VText "Orange peel"]])
    /\ Sqlite.find_table (database_of w' DB) "Ingredients" = inr (ingredients_with [
         [VInt 1; VText "Spirit"; VText "Gin"; VText "Dry"; VText "Tanqueray";
          VText ""; VText "ml"; VReal abv_43_1]])
    /\ Sqlite.find_table (database_of w' DB) "DrinkRecipes"
       = inr (Sqlite.Table "DrinkRecipes" drink_recipes_columns [])
    /\ conns w' = ∅
    /\ stdin w' = []
    /\ stdout w'
       = drink_prompts ++ ingredient_prompts ++ [abv_prompt]
           ++ table_lines (drinks_with [
                [VInt 1; VText "Negroni"; VText "Classic"; VText "Stirred";
                 VText "Orange peel"]])
           ++ table_lines (ingredients_with [
                [VInt 1; VText "Spirit"; VText "Gin"; VText "Dry"; VText "Tanqueray";
                 VText ""; VText "ml"; VReal abv_43_1]])
           ++ table_lines (Sqlite.Table "DrinkRecipes" drink_recipes_columns []).
Proof.
  apply (first_run_stores_one_drink_and_one_ingredient
           "Negroni" "Classic" "Stirred" "Orange peel"
           "Spirit" "Gin" "Dry" "Tanqueray" "" "ml" "43.1" abv_43_1 []).
  - vm_compute. reflexivity.
  - split; [reflexivity|]. right. split; [reflexivity|].
    intros z Hz. vm_compute in Hz. discriminate.
Defined.

Lemma later_run_adds_one_drink_and_one_ingredient_witness :
  exists w',
    main second_evening = Ok tt w'
    /\ Sqlite.find_table (database_of w' DB) "Drinks"
       = inr (Sqlite.with_rows (drinks_with [negroni_1])
                ([negroni_1]
                   ++ [[VInt 2; VText "Negroni"; VText "Classic"; VText "Stirred";
                        VText "Orange peel"]]))
    /\ Sqlite.find_table (database_of w' DB) "Ingredients"
       = inr (Sqlite.with_rows (ingredients_with [gin_1])
                ([gin_1]
                   ++ [[VInt 2; VText "Spirit"; VText "Gin"; VText "Dry";
                        VText "Tanqueray"; VText ""; VText "ml"; VReal abv_43_1]]))
    /\ Sqlite.find_table (database_of w' DB) "DrinkRecipes"
       = inr (Sqlite.Table "DrinkRecipes" drink_recipes_columns [])
    /\ conns w' = conns second_evening
    /\ stdin w' = [].
Proof.
  apply (later_run_adds_one_drink_and_one_ingredient second_evening
           (drinks_with [negroni_1]) (ingredients_with [gin_1])
           (Sqlite.Table "DrinkRecipes" drink_recipes_columns []) [1] [1] 2 2
           "Negroni" "Classic" "Stirred" "Orange peel"
           "Spirit" "Gin" "Dry" "Tanqueray" "" "ml" "43.1" abv_43_1 []).
  - reflexivity.
  - reflexivity.
  - reflexivity.
  - reflexivity.
  - reflexivity.
  - reflexivity.
  - right. split; [left; reflexivity | repeat constructor; lia].
  - reflexivity.
  - reflexivity.
  - right. split; [left; reflexivity | repeat constructor; lia].
  - reflexivity.
  - reflexivity.
  - vm_compute. reflexivity.
  - split; [reflexivity|]. right. split; [reflexivity|].
    intros z Hz. vm_compute in Hz. discriminate.
Defined.

Lemma get_int_reads_back_str_witness :
  get_int "Enter an id: " (start ["-42"; "7"]%string) =
  Ok (-42) (World ∅ ∅ [] ["7"%string] ([] ++ ["Enter an id: "%string])).
Proof.
  apply (get_int_reads_back_str (-42) "Enter an id: " (start ["-42"; "7"]%string)
           ["7"%string]).
  - vm_compute. discriminate.
  - reflexivity.
Defined.


Lemma insert_into_table_does_not_deduplicate_witness :
  exists w1 w2,
    insert_into_table DB "Drinks" negroni cellar = Ok tt w1
    /\ insert_into_table DB "Drinks" negroni w1 = Ok tt w2
    /\ Sqlite.find_table (database_of w2 DB) "Drinks"
       = inr (Sqlite.with_rows (drinks_with [negroni])
                ([negroni]
                   ++ [Sqlite.stored_row (drinks_with [negroni]) negroni;
                       Sqlite.stored_row (drinks_with [negroni]) negroni])).
Proof.
  apply (insert_into_table_does_not_deduplicate DB "Drinks" negroni cellar
           (drinks_with [negroni]) negroni).
  - discriminate.
  - reflexivity.
  - reflexivity.
  - reflexivity.
  - reflexivity.
Defined.

Lemma get_float_first_float_witness :
  get_float "Enter the ABV: " (start ["abc"; "12,5"; "12.5"; "next"]%string) =
  Ok (S754_finite false 7036874417766400 (-49) : real)
     (World ∅ ∅ [] ["next"%string]
        ([] ++ rejections "Enter the ABV: " float_complaint ["abc"; "12,5"]%string
            ++ ["Enter the ABV: "%string])).
Proof.
  apply (proj1 (get_float_first_float "Enter the ABV: "
                  (start ["abc"; "12,5"; "12.5"; "next"]%string))
           ["abc"; "12,5"]%string "12.5"%string _ ["next"%string]).
  - reflexivity.
  - repeat constructor.
  - vm_compute. reflexivity.
Defined.

Lemma readers_raise_at_end_of_input_witness :
  get_str "Name: " (start ["4711"; ""]%string) =
  Raise EOFError (exhausted "Name: " str_complaint (start ["4711"; ""]%string)).
Proof.
  apply (proj2 (proj2 (readers_raise_at_end_of_input "Name: "
                         (start ["4711"; ""]%string)))).
  repeat constructor.
Defined.

Lemma view_table_prints_header_and_rows_witness :
  exists w',
    view_table "Drinks" cellar = Ok tt w'
    /\ stdout w' = stdout cellar ++ table_lines (drinks_with [negroni])
    /\ length (table_lines (drinks_with [negroni])) = 2%nat
    /\ files w' = files cellar /\ conns w' = conns cellar /\ stdin w' = stdin cellar.
Proof.
  apply (proj1 (view_table_prints_header_and_rows "Drinks" cellar)
           (drinks_with [negroni])).
  reflexivity.
Defined.

Lemma create_fails_before_prompting_witness :
  Drink.create (start ["Negroni"%string]) =
  Raise (OperationalError (Sqlite.NoSuchTable "Drinks"))
    (abandoned DB (Sqlite.SelectMax "id" "Drinks") (start ["Negroni"%string])).
Proof.
  apply (proj1 (create_fails_before_prompting (start ["Negroni"%string]))).
  reflexivity.
Defined.

Lemma entry_already_exists_misses_none_identifier_witness :
  entry_already_exists "Drinks" [("id"%string, VNull)] unnamed_cellar =
  Ok false (accessed DB (Sqlite.SelectCountWhere "Drinks" ["id"%string]) false
              (files unnamed_cellar) unnamed_cellar).
Proof.
  apply (entry_already_exists_misses_none_identifier "Drinks" unnamed_cellar
           (drinks_with [water]) 0%nat).
  - reflexivity.
  - reflexivity.
Defined.

(** C1 fails as stated, outside integer identifiers of 64 bits in a
    column that is not TEXT.  A record with the identifier [None] is
    stored again beside the row that has it; the identifier after the
    largest 64-bit integer, which no row has, is not inserted: the look-up
    raises; and in a TEXT column the integer 3 is turned away for the
    text '3'. *)
Lemma identifier_outside_the_stored_integers :
  (In water (rows_of unnamed_cellar DB "drinks")
   /\ exists w',
        ask_and_insert_entry "Drinks" (ret water) unnamed_cellar = Ok tt w'
        /\ rows_of w' DB "drinks" = [water; water]
        /\ stdout w' = stdout unnamed_cellar)
  /\ (forallb (fun r => negb (py_eq (Sqlite.cell r 0) (VInt (2 ^ 63))))
        (rows_of full_cellar DB "drinks") = true
      /\ exists w',
           ask_and_insert_entry "Drinks" Drink.create full_cellar
           = Raise OverflowError w'
           /\ rows_of w' DB "drinks" = rows_of full_cellar DB "drinks")
  /\ (forallb (fun r => negb (py_eq (Sqlite.cell r 0) (VInt 3)))
        (rows_of notes DB "notes") = true
      /\ exists w',
           ask_and_insert_entry "Notes" (ret [VInt 3; VText "second"]) notes
           = Ok tt w'
           /\ rows_of w' DB "notes" = rows_of notes DB "notes"
           /\ stdout w' = ["This note already exists." +:+ newline]).
Proof.
  split; [|split].
  - split; [left; reflexivity|].
    rewrite (ask_and_insert_entry_steps "Drinks" (ret water) unnamed_cellar VNull
               [VText "Water"; VText ""; VText ""; VText ""] unnamed_cellar
               (drinks_with [water]) 0%nat VNull eq_refl eq_refl eq_refl eq_refl).
    rewrite existsb_never by (intros r; apply null_term).
    destruct (insert_into_table_stores DB "Drinks" water
                (accessed DB (Sqlite.SelectCountWhere "Drinks" ["id"%string]) false
                   (files unnamed_cellar) unnamed_cellar)
                (drinks_with [water]) water)
      as [w' [Hrun [Hdb [_ [_ Hout]]]]];
      [discriminate | reflexivity | reflexivity | reflexivity |].
    exists w'. split; [exact Hrun|]. split.
    + unfold rows_of. rewrite Hdb. unfold rows_in.
      change "drinks"%string with (Sqlite.table_key "Drinks").
      rewrite lookup_insert_eq. reflexivity.
    + rewrite Hout. reflexivity.
  - split; [reflexivity|].
    destruct (new_id_integers "Drinks" full_cellar (drinks_with [last_drink]) 0%nat
                eq_refl eq_refl) as [_ Hnext].
    pose proof (Hnext [Sqlite.int64_max] Sqlite.int64_max eq_refl
                  (or_introl eq_refl) ltac:(repeat constructor; lia)) as Hid.
    pose proof (drink_create_world full_cellar _ _ "Negroni" "Classic" "Stirred"
                  "Orange peel" [] Hid eq_refl) as Hbuild.
    rewrite (ask_and_insert_entry_overflows "Drinks" Drink.create full_cellar _ _ _
               (drinks_with [last_drink]) 0%nat Hbuild eq_refl eq_refl eq_refl).
    eexists. split; reflexivity.
  - split; [reflexivity|]. eexists. split; [reflexivity|].
    split; reflexivity.
Qed.


Lemma cellar_is_reachable : reachable cellar.
Proof.
  unfold cellar, empty_cellar.
  apply reachable_insert_into_table, reachable_create_table;
    [apply reachable_start | reflexivity].
Defined.

Lemma program_is_append_only_witness :
  plain_store cellar
  /\ (rows_unchanged cellar (final (ask_and_insert_entry "Drinks" Drink.create cellar))
      \/ one_row_appended cellar
           (final (ask_and_insert_entry "Drinks" Drink.create cellar))).
Proof.
  destruct (program_is_append_only cellar cellar_is_reachable)
    as [Hplain [_ [_ [_ [_ [Hdrink _]]]]]].
  split; [exact Hplain | apply Hdrink].
Defined.
